(** * Recommendation component of the transfer-center LLM pipeline

    A shallow embedding of [src/llm/components/recommendation.py.backup]
    (class [RecommendationGenerator]) and the properties of it that the
    specification talks about.

    Python values are a small inductive type of JSON-like values, a
    dictionary is an insertion-ordered association list, an exception is a
    value of the error monad [res], and the collaborators that live outside
    the module (the chat client, [robust_json_parser], [json.loads],
    [calculate_recommendation_confidence], the interpreter's [str] and
    [float]) are fields of records that every function takes explicitly. *)

From Stdlib Require Import ZArith QArith Lia Bool Ascii String.
From stdpp Require Import base option list strings.

Local Open Scope string_scope.
Local Open Scope list_scope.
#[local] Set Warnings "-register-all".

(** ** Python values *)

(** A Python [float]: a NaN, an infinity, or the rational a finite float
    denotes. The module only compares floats with 0 and 100 and halves
    one, so rounding plays no role; what matters is that every ordered
    comparison with NaN is false. *)
Inductive pyfloat : Type :=
| FNan
| FInf (negative : bool)
| FFin (q : Q).

Inductive pyval : Type :=
| VNone
| VBool (b : bool)
| VInt (n : Z)
| VFloat (x : pyfloat)
| VStr (s : string)
| VList (items : list pyval)
| VDict (entries : list (string * pyval)).

(** A [dict] keeps its keys in insertion order, as Python does. *)
Definition dict : Type := list (string * pyval).

(** The exceptions the module can meet, all of them subclasses of
    [Exception], which is what its handlers catch. [ExternalError] stands
    for whatever a collaborator raises. *)
Inductive exn : Type :=
| TypeError
| AttributeError
| KeyError
| ValueError
| OverflowError
| IndexError
| JSONDecodeError
| RecursionError
| ExternalError (tag : string).

(** ** The error monad: a raised exception is a value *)

Inductive res (A : Type) : Type :=
| Ok (a : A)
| Raise (e : exn).
Arguments Ok {A} a.
Arguments Raise {A} e.

Definition res_bind {A B : Type} (m : res A) (k : A -> res B) : res B :=
  match m with
  | Ok a => k a
  | Raise e => Raise e
  end.

Notation "'let*' x ':=' m 'in' k" :=
  (res_bind m (fun x => k))
  (at level 10, x pattern, m at level 100, k at level 200).
Notation "m ';;;' k" :=
  (res_bind m (fun _ => k))
  (at level 100, k at level 200, right associativity).

(** [try: body except Exception: handler] *)
Definition try_except {A : Type} (body : res A) (handler : exn -> res A) : res A :=
  match body with
  | Ok a => Ok a
  | Raise e => handler e
  end.

Definition is_ok {A : Type} (m : res A) : bool :=
  match m with Ok _ => true | Raise _ => false end.

(** ** Floats *)

Definition F (n : Z) : pyfloat := FFin (inject_Z n).

(** [x < y] on floats. *)
Definition float_ltb (x y : pyfloat) : bool :=
  match x, y with
  | FNan, _ | _, FNan => false
  | FInf true, FInf true => false
  | FInf true, _ => true
  | _, FInf true => false
  | FInf false, _ => false
  | _, FInf false => true
  | FFin a, FFin b => if Qlt_le_dec a b then true else false
  end.

(** [x / 2] *)
Definition float_half (x : pyfloat) : pyfloat :=
  match x with
  | FNan => FNan
  | FInf s => FInf s
  | FFin q => FFin (q / 2)
  end.

(** A float lies in the closed interval [lo, hi] of integers. *)
Definition float_in_range (lo hi : Z) (x : pyfloat) : Prop :=
  match x with
  | FFin q => (inject_Z lo <= q /\ q <= inject_Z hi)%Q
  | _ => False
  end.

Definition float_in_rangeb (lo hi : Z) (x : pyfloat) : bool :=
  match x with
  | FFin q => Qle_bool (inject_Z lo) q && Qle_bool q (inject_Z hi)
  | _ => false
  end.

(** The largest integer magnitude that [float(int)] still converts;
    beyond it Python raises [OverflowError]. *)
Definition float_int_limit : Z := 2 ^ 1024 - 2 ^ 970.

(** ** Strings *)

Definition emp : string := EmptyString.
Definition dq : string := String (Ascii.ascii_of_nat 34) EmptyString.
Definition nl : string := String (Ascii.ascii_of_nat 10) EmptyString.

Definition lower_ascii (c : Ascii.ascii) : Ascii.ascii :=
  let n := Ascii.nat_of_ascii c in
  if (65 <=? n)%nat && (n <=? 90)%nat then Ascii.ascii_of_nat (n + 32) else c.

Definition upper_ascii (c : Ascii.ascii) : Ascii.ascii :=
  let n := Ascii.nat_of_ascii c in
  if (97 <=? n)%nat && (n <=? 122)%nat then Ascii.ascii_of_nat (n - 32) else c.

Fixpoint str_map (f : Ascii.ascii -> Ascii.ascii) (s : string) : string :=
  match s with
  | EmptyString => EmptyString
  | String c t => String (f c) (str_map f t)
  end.

(** [s.lower()] and [s.upper()] on ASCII text. *)
Definition str_lower : string -> string := str_map lower_ascii.
Definition str_upper : string -> string := str_map upper_ascii.

(** Index of the first occurrence of [sub] in [s]. *)
Fixpoint str_find (sub s : string) : option nat :=
  if String.prefix sub s then Some 0%nat
  else match s with
       | EmptyString => None
       | String _ t => S <$> str_find sub t
       end.

(** [sub in s] *)
Definition str_contains (sub s : string) : bool :=
  match str_find sub s with Some _ => true | None => false end.

Fixpoint str_drop (n : nat) (s : string) : string :=
  match n, s with
  | O, _ => s
  | S n', String _ t => str_drop n' t
  | S _, EmptyString => EmptyString
  end.

Fixpoint str_take (n : nat) (s : string) : string :=
  match n, s with
  | O, _ => EmptyString
  | S n', String c t => String c (str_take n' t)
  | S _, EmptyString => EmptyString
  end.

(** [s.split(sep, 1)[0]]: the text before the first [sep] (all of [s]
    when there is none). *)
Definition split_before (sep s : string) : string :=
  match str_find sep s with
  | Some i => str_take i s
  | None => s
  end.

(** [s.split(sep, 1)[1]]: the text after the first [sep];
    [IndexError] when there is none. *)
Definition split_after (sep s : string) : res string :=
  match str_find sep s with
  | Some i => Ok (str_drop (i + String.length sep) s)
  | None => Raise IndexError
  end.

Definition is_space (c : Ascii.ascii) : bool :=
  let n := Ascii.nat_of_ascii c in
  ((9 <=? n)%nat && (n <=? 13)%nat) || ((28 <=? n)%nat && (n <=? 32)%nat).

Fixpoint lstrip (s : string) : string :=
  match s with
  | String c t => if is_space c then lstrip t else s
  | EmptyString => EmptyString
  end.

Fixpoint rstrip (s : string) : string :=
  match s with
  | EmptyString => EmptyString
  | String c t =>
      match rstrip t with
      | EmptyString => if is_space c then EmptyString else String c EmptyString
      | t' => String c t'
      end
  end.

(** [s.strip()] on ASCII text: the characters it removes are the ASCII
    whitespace characters. *)
Definition strip (s : string) : string := rstrip (lstrip s).

(** [sep.join(parts)] on strings. *)
Fixpoint str_join (sep : string) (parts : list string) : string :=
  match parts with
  | [] => EmptyString
  | [p] => p
  | p :: rest => p +:+ sep +:+ str_join sep rest
  end.

(** ** Dictionaries *)

Fixpoint dict_get (d : dict) (k : string) : option pyval :=
  match d with
  | [] => None
  | (k', v) :: rest => if String.eqb k' k then Some v else dict_get rest k
  end.

(** [k in d] *)
Definition dict_mem (d : dict) (k : string) : bool :=
  match dict_get d k with Some _ => true | None => false end.

(** [d.get(k, default)] *)
Definition dict_get_default (d : dict) (k : string) (default : pyval) : pyval :=
  match dict_get d k with Some v => v | None => default end.

(** [d[k] = v]: an existing key keeps its position, a new one goes last. *)
Fixpoint dict_set (d : dict) (k : string) (v : pyval) : dict :=
  match d with
  | [] => [(k, v)]
  | (k', v') :: rest =>
      if String.eqb k' k then (k', v) :: rest else (k', v') :: dict_set rest k v
  end.

Definition dict_keys (d : dict) : list string := map fst d.

(** ** Operations of the interpreter on values *)

(** [bool(v)] *)
Definition truthy (v : pyval) : bool :=
  match v with
  | VNone => false
  | VBool b => b
  | VInt n => negb (n =? 0)%Z
  | VFloat FNan => true
  | VFloat (FInf _) => true
  | VFloat (FFin q) => negb (Qeq_bool q 0)
  | VStr s => negb (String.eqb s EmptyString)
  | VList l => match l with [] => false | _ => true end
  | VDict d => match d with [] => false | _ => true end
  end.

Definition is_str_item (k : string) (v : pyval) : bool :=
  match v with VStr s => String.eqb s k | _ => false end.

(** [k in v] for a string [k]. *)
Definition py_contains (k : string) (v : pyval) : res bool :=
  match v with
  | VDict d => Ok (dict_mem d k)
  | VList l => Ok (existsb (is_str_item k) l)
  | VStr s => Ok (str_contains k s)
  | _ => Raise TypeError
  end.

(** [v[k]] for a string [k]. *)
Definition py_getitem (v : pyval) (k : string) : res pyval :=
  match v with
  | VDict d => match dict_get d k with Some x => Ok x | None => Raise KeyError end
  | _ => Raise TypeError
  end.

(** [v[k] = x] for a string [k]. *)
Definition py_setitem (v : pyval) (k : string) (x : pyval) : res pyval :=
  match v with
  | VDict d => Ok (VDict (dict_set d k x))
  | _ => Raise TypeError
  end.

(** [v.get(k, default)] *)
Definition py_get (v : pyval) (k : string) (default : pyval) : res pyval :=
  match v with
  | VDict d => Ok (dict_get_default d k default)
  | _ => Raise AttributeError
  end.

(** [v.items()] *)
Definition py_items (v : pyval) : res dict :=
  match v with
  | VDict d => Ok d
  | _ => Raise AttributeError
  end.

(** [v.lower()] *)
Definition py_lower (v : pyval) : res string :=
  match v with
  | VStr s => Ok (str_lower s)
  | _ => Raise AttributeError
  end.

(** [v[:n]] *)
Definition py_slice_to (n : nat) (v : pyval) : res pyval :=
  match v with
  | VStr s => Ok (VStr (str_take n s))
  | VList l => Ok (VList (take n l))
  | _ => Raise TypeError
  end.

(** [len(v)] *)
Definition py_len (v : pyval) : res Z :=
  match v with
  | VStr s => Ok (Z.of_nat (String.length s))
  | VList l => Ok (Z.of_nat (length l))
  | VDict d => Ok (Z.of_nat (length d))
  | _ => Raise TypeError
  end.

(** [v.keys()] *)
Definition py_keys (v : pyval) : res (list string) :=
  match v with
  | VDict d => Ok (dict_keys d)
  | _ => Raise AttributeError
  end.

(** [sep.join(items)]: every item must be a [str]. *)
Fixpoint strs_of (items : list pyval) : res (list string) :=
  match items with
  | [] => Ok []
  | VStr s :: rest => let* r := strs_of rest in Ok (s :: r)
  | _ :: _ => Raise TypeError
  end.

Definition py_join (sep : string) (items : list pyval) : res string :=
  let* parts := strs_of items in Ok (str_join sep parts).

(** The part of the interpreter and of the [json] library that the module
    uses but that is not reproduced here: how values print, how text
    converts to a float, how JSON text parses, which characters
    [strip] removes. *)
Record PyRuntime : Type := {
  (** [str(v)], for the values on which the conversion returns. (It
      raises on an integer beyond the digit limit and on nesting beyond
      the recursion limit; the functions below are read on values
      without either.) *)
  py_str : pyval -> string;
  (** [format(x, ".1f")] *)
  py_format_1f : pyfloat -> string;
  (** [float(s)] for a string; [None] is [ValueError] *)
  py_float_of_str : string -> option pyfloat;
  (** [json.loads(s)]. [Raise JSONDecodeError] is the exception that the
      clauses [except json.JSONDecodeError] catch; the call can raise
      others ([ValueError] on an integer literal beyond the digit limit
      of the interpreter, [RecursionError] on deep nesting), which
      those clauses let through. *)
  json_loads : string -> res pyval;
  (** [s.strip()], which removes Unicode whitespace *)
  py_strip : string -> string;
  (** [str(e)] for an exception *)
  exn_str : exn -> string
}.

Section Runtime.
Context (rt : PyRuntime).

(** An interpolation [{v}] in an f-string. *)
Definition fmt (v : pyval) : string :=
  match v with
  | VStr s => s
  | _ => py_str rt v
  end.

(** [float(v)]. The conversion of an integer is taken as exact; beyond
    2^53 the interpreter rounds to the nearest double. *)
Definition py_float (v : pyval) : res pyfloat :=
  match v with
  | VFloat x => Ok x
  | VInt n =>
      if (Z.abs n <? float_int_limit)%Z then Ok (F n) else Raise OverflowError
  | VBool b => Ok (F (if b then 1 else 0))
  | VStr s =>
      match py_float_of_str rt s with
      | Some x => Ok x
      | None => Raise ValueError
      end
  | _ => Raise TypeError
  end.
End Runtime.

(** ** The data model *)

(** Modelled from the spec: the [Recommendation] model class
    ([src.core.models], not among the sources). The spec lists its fields
    (chosen campus id, confidence score, reason, explainability payload);
    the record has one field per keyword argument the module passes, and
    building it stores the arguments as given. *)
Record Recommendation : Type := mkRecommendation {
  transfer_request_id : string;
  recommended_campus_id : pyval;
  confidence_score : pyfloat;
  reason : pyval;
  notes : list string;
  explainability_details : dict
}.

(** A chat completion: [choices[0].message.content] and
    [choices[0].finish_reason]. *)
Record ChatCompletion : Type := {
  content : option string;
  finish_reason : string
}.

Record Message : Type := {
  role : string;
  message_content : string
}.

(** The generator object: [self.client.chat.completions.create] (fixed
    temperature and token limit) and [self.model]. *)
Record RecommendationGenerator : Type := {
  client : string -> list Message -> res ChatCompletion;
  model : string
}.

(** The two functions of the repository that the module imports. *)
Record Collaborators : Type := {
  (** [src.llm.utils.robust_json_parser] *)
  robust_json_parser : string -> res pyval;
  (** [src.core.decision.confidence_estimator.calculate_recommendation_confidence] *)
  calculate_recommendation_confidence : dict -> res pyfloat
}.

(** ** [_standardize_llm_response] *)

Definition standardized_template : dict :=
  [ ("campus_id", VStr "UNKNOWN");
    ("reason", VStr "No reason provided");
    ("confidence_score", VFloat (F 50));
    ("care_level", VStr "unknown");
    ("notes", VList []) ].

Definition field_mappings : list (string * list string) :=
  [ ("campus_id", ["recommended_campus"; "campus_id"; "campus"; "hospital"; "facility"]);
    ("reason", ["clinical_reasoning"; "reasoning"; "reason"; "justification"; "rationale"]);
    ("confidence_score", ["confidence_score"; "confidence"; "score"]);
    ("care_level", ["care_level"; "level_of_care"; "recommended_care_level"]) ].

(** The inner loop over [source_fields]: the first alias that is a key of
    the response with a truthy value, if any. *)
Fixpoint first_alias (recommendation_json : pyval) (source_fields : list string)
  : res (option pyval) :=
  match source_fields with
  | [] => Ok None
  | source_field :: rest =>
      let* present := py_contains source_field recommendation_json in
      if present then
        let* v := py_getitem recommendation_json source_field in
        if truthy v then Ok (Some v) else first_alias recommendation_json rest
      else first_alias recommendation_json rest
  end.

(** The outer loop over [field_mappings.items()]. *)
Fixpoint apply_field_mappings (recommendation_json : pyval)
  (mappings : list (string * list string)) (standardized : dict) : res dict :=
  match mappings with
  | [] => Ok standardized
  | (target_field, source_fields) :: rest =>
      let* found := first_alias recommendation_json source_fields in
      apply_field_mappings recommendation_json rest
        match found with
        | Some v => dict_set standardized target_field v
        | None => standardized
        end
  end.

(** [for key, value in recommendation_json.items(): if key not in
    standardized: standardized[key] = value] *)
Fixpoint add_other_fields (items : dict) (standardized : dict) : dict :=
  match items with
  | [] => standardized
  | (key, value) :: rest =>
      add_other_fields rest
        (if dict_mem standardized key then standardized
         else dict_set standardized key value)
  end.

(** The two debug [print] calls at the end of the function: the second
    one slices [standardized['reason'][:50]]. (Slicing a dictionary is a
    [TypeError], a [KeyError] from Python 3.12 on.) Its interpolations
    of [campus_id], of the slice and of [care_level] are conversions to
    text in the sense of [py_str]. *)
Definition print_standardized (standardized : dict) : res unit :=
  let* _ := py_getitem (VDict standardized) "campus_id" in
  let* r := py_getitem (VDict standardized) "reason" in
  let* _ := py_slice_to 50 r in
  let* _ := py_getitem (VDict standardized) "care_level" in
  Ok tt.

Definition _standardize_llm_response (recommendation_json : pyval) : res dict :=
  let standardized := standardized_template in
  let* standardized := apply_field_mappings recommendation_json field_mappings standardized in
  let standardized := dict_set standardized "original_response" recommendation_json in
  let* items := py_items recommendation_json in
  let standardized := add_other_fields items standardized in
  print_standardized standardized ;;;
  Ok standardized.

(** ** [_convert_to_recommendation] *)

Definition care_level_names : list (string * string) :=
  [ ("general", "General Floor");
    ("general_floor", "General Floor");
    ("telemetry", "Telemetry Unit");
    ("intermediate", "Intermediate Care");
    ("intermediate_care", "Intermediate Care");
    ("icu", "ICU (Intensive Care)");
    ("intensive_care", "ICU (Intensive Care)");
    ("picu", "PICU (Pediatric Intensive Care)");
    ("nicu", "NICU (Neonatal Intensive Care)") ].

Fixpoint assoc_str (table : list (string * string)) (k : string) : option string :=
  match table with
  | [] => None
  | (k', v) :: rest => if String.eqb k' k then Some v else assoc_str rest k
  end.

(** [{...}.get(care_level, care_level.upper())] *)
Definition care_level_display_of (care_level : string) : string :=
  match assoc_str care_level_names care_level with
  | Some name => name
  | None => str_upper care_level
  end.

(** The range check on the confidence the response carries:
    [if confidence < 0 or confidence > 100: confidence = 70.0]. *)
Definition validate_confidence (confidence : pyfloat) : pyfloat :=
  if float_ltb confidence (F 0) || float_ltb (F 100) confidence
  then F 70 else confidence.

Section Convert.
Context (rt : PyRuntime).

(** The local [recommendation_data] (built, then not used again). *)
Definition build_recommendation_data (standardized : dict)
  (campus_name : pyval) (confidence : pyfloat) : res dict :=
  let all_data :=
    dict_get_default standardized "all_data"
      (dict_get_default standardized "original_response" (VDict [])) in
  let specialty_data := dict_get_default standardized "specialty_data" (VDict []) in
  let exclusion_data := dict_get_default standardized "exclusion_data" (VDict []) in
  let* demographics := py_get all_data "demographics" (VDict []) in
  let* chief_complaint := py_get all_data "chief_complaint" (VStr emp) in
  let* clinical_history := py_get all_data "clinical_history" (VStr emp) in
  let* vital_signs := py_get all_data "vital_signs" (VDict []) in
  Ok [ ("patient_demographics", demographics);
       ("chief_complaint", chief_complaint);
       ("clinical_history", clinical_history);
       ("extracted_vital_signs", vital_signs);
       ("care_level_assessment", specialty_data);
       ("exclusion_criteria", exclusion_data);
       ("recommended_campus",
         VDict [ ("campus_id", campus_name);
                 ("confidence_score", VFloat confidence) ]) ].

(** [key_factors]: one line per key of the response among the three. *)
Fixpoint key_factors_of (recommendation_json : dict) (keys : list string)
  : list pyval :=
  match keys with
  | [] => []
  | key :: rest =>
      match dict_get recommendation_json key with
      | Some v =>
          VStr (key +:+ ": " +:+ fmt rt v) :: key_factors_of recommendation_json rest
      | None => key_factors_of recommendation_json rest
      end
  end.

(** The value stored under ["proximity_analysis"]. *)
Definition proximity_analysis_of (recommendation_json : dict) : dict :=
  let proximity_analysis := [] in
  if dict_mem recommendation_json "campus_scores" then
    let closer_bypassed := false in
    let closer_campus := emp in
    let bypass_reason := emp in
    dict_set (dict_set (dict_set proximity_analysis
      "closer_options_bypassed" (VBool closer_bypassed))
      "closer_campus" (VStr closer_campus))
      "bypass_reason" (VStr bypass_reason)
  else proximity_analysis.

(** The local [explainability_details] dictionary, as it stands when
    the function returns. *)
Definition build_explainability_details (recommendation_json : pyval)
  (care_level_display : string) : res dict :=
  let explainability_details := [] in
  let* has_util := py_contains "score_utilization" recommendation_json in
  let* explainability_details :=
    if has_util then
      let* score_util := py_getitem recommendation_json "score_utilization" in
      let* available := py_get score_util "pediatric_scores_available" (VInt 0) in
      let* referenced := py_get score_util "referenced_in_reasoning" (VBool false) in
      let* count := py_get score_util "reference_count" (VInt 0) in
      Ok (dict_set explainability_details "pediatric_scores"
            (VDict [ ("scores_available", available);
                     ("referenced_in_reasoning", referenced);
                     ("reference_count", count) ]))
    else Ok explainability_details in
  let explainability_details :=
    dict_set explainability_details "care_level" (VStr care_level_display) in
  let* urgency := py_get recommendation_json "urgency" (VStr "medium") in
  let explainability_details := dict_set explainability_details "urgency" urgency in
  let* entries := py_items recommendation_json in
  let key_factors := key_factors_of entries ["care_level"; "confidence_score"; "urgency"] in
  let explainability_details :=
    match key_factors with
    | [] => explainability_details
    | _ => dict_set explainability_details "key_factors_for_recommendation"
             (VList key_factors)
    end in
  Ok (dict_set explainability_details "proximity_analysis"
        (VDict (proximity_analysis_of entries))).

(** The [try] block of the function, after the response has been
    standardized. ([json.dumps] in the log line prints JSON values and
    does not fail on them.) *)
Definition recommendation_of_standardized (recommendation_json : pyval)
  (standardized : dict) : res Recommendation :=
  let campus_name :=
    dict_get_default standardized "campus_id" (VStr "No specific campus recommended") in
  let backup_campus :=
    dict_get_default standardized "backup_campus" (VStr "No backup campus specified") in
  let* backup_confidence :=
    py_float rt (dict_get_default standardized "backup_confidence_score" (VFloat (F 0))) in
  let* confidence :=
    py_float rt (dict_get_default standardized "confidence_score" (VFloat (F 70))) in
  let confidence := validate_confidence confidence in
  let* recommendation_data :=
    build_recommendation_data standardized campus_name confidence in
  let* care_level :=
    py_lower (dict_get_default standardized "care_level" (VStr "general")) in
  let care_level_display := care_level_display_of care_level in
  let notes :=
    [ "Care Level: " +:+ care_level_display;
      nl +:+ "Backup Recommendation: " +:+ fmt rt backup_campus
         +:+ " (Confidence: " +:+ py_format_1f rt backup_confidence +:+ "%)" ] in
  let final_reason :=
    dict_get_default standardized "reason"
      (VStr "Recommendation generated without detailed reasoning.") in
  let* explainability_details :=
    build_explainability_details recommendation_json care_level_display in
  let* _ := py_slice_to 50 final_reason in
  Ok {| transfer_request_id := "llm_generated";
        recommended_campus_id := campus_name;
        confidence_score := confidence;
        reason := final_reason;
        notes := notes;
        explainability_details := standardized |}.

(** The [try] block of the function. *)
Definition _convert_to_recommendation_body (recommendation_json : pyval)
  : res Recommendation :=
  let* standardized := _standardize_llm_response recommendation_json in
  recommendation_of_standardized recommendation_json standardized.

(** The recommendation built in the [except] branch. *)
Definition processing_error_recommendation (e : exn) : Recommendation :=
  {| transfer_request_id := "error";
     recommended_campus_id := VStr "ERROR";
     confidence_score := F 10;
     reason := VStr ("Error processing recommendation: " +:+ exn_str rt e);
     notes := ["LLM processing error"];
     explainability_details := [("error", VStr (exn_str rt e))] |}.

Definition _convert_to_recommendation (recommendation_json : pyval)
  : res Recommendation :=
  try_except (_convert_to_recommendation_body recommendation_json)
    (fun e => Ok (processing_error_recommendation e)).
End Convert.

(** ** Building the prompt *)

Definition lines (ls : list string) : string := str_join nl ls.

Section Prompt.
Context (rt : PyRuntime).

(** The loop over the five vital-sign keys. *)
Fixpoint vitals_text_of (vital_signs : pyval) (keys : list (string * string))
  : res (list string) :=
  match keys with
  | [] => Ok []
  | (vital_key, display_name) :: rest =>
      let* present := py_contains vital_key vital_signs in
      if present then
        let* v := py_getitem vital_signs vital_key in
        let* more := vitals_text_of vital_signs rest in
        Ok (("- " +:+ display_name +:+ ": " +:+ fmt rt v) :: more)
      else vitals_text_of vital_signs rest
  end.

Definition vital_keys : list (string * string) :=
  [ ("hr", "Heart Rate"); ("rr", "Respiratory Rate"); ("bp", "Blood Pressure");
    ("temp", "Temperature"); ("o2", "O2 Saturation") ].

Definition _extract_essential_patient_info (entities : dict) : res string :=
  if negb (truthy (VDict entities)) then Ok "No patient information available."
  else
    let demographics := dict_get_default entities "demographics" (VDict []) in
    let* age := py_get demographics "age" (VStr "Unknown age") in
    let* gender := py_get demographics "gender" (VStr "Unknown gender") in
    let* weight := py_get demographics "weight" (VStr "Unknown weight") in
    let vital_signs := dict_get_default entities "vital_signs" (VDict []) in
    let* vitals_text := vitals_text_of vital_signs vital_keys in
    let clinical_info :=
      dict_get_default entities "clinical_information"
        (dict_get_default entities "clinical_info" (VDict [])) in
    let* chief_complaint := py_get clinical_info "chief_complaint" (VStr "Unknown") in
    let* clinical_history :=
      py_get clinical_info "clinical_history" (VStr "No history provided") in
    let output :=
      "- Demographics: " +:+ fmt rt age +:+ ", " +:+ fmt rt gender +:+ ", "
        +:+ fmt rt weight +:+ nl in
    let output :=
      match vitals_text with
      | [] => output
      | _ => output +:+ ("- Vital Signs:" +:+ nl +:+ "  ")
               +:+ str_join (nl +:+ "  ") vitals_text +:+ nl
      end in
    let output := output +:+ "- Chief Complaint: " +:+ fmt rt chief_complaint +:+ nl in
    let output := output +:+ "- Clinical History: " +:+ fmt rt clinical_history +:+ nl in
    let* has_diagnoses := py_contains "diagnoses" clinical_info in
    let* diagnoses :=
      if has_diagnoses then py_getitem clinical_info "diagnoses" else Ok VNone in
    if has_diagnoses && truthy diagnoses then
      let* diagnoses_text :=
        match diagnoses with
        | VList items => py_join ", " items
        | _ => Ok (fmt rt diagnoses)
        end in
      Ok (output +:+ "- Diagnoses: " +:+ diagnoses_text +:+ nl)
    else Ok output.

(** The names collected from a list of required specialties. *)
Fixpoint specialty_names_of (specialties : list pyval) : list string :=
  match specialties with
  | [] => []
  | VDict spec :: rest =>
      match dict_get spec "specialty" with
      | Some name =>
          (fmt rt name +:+ " (Confidence: "
             +:+ fmt rt (dict_get_default spec "confidence" (VStr "Unknown")) +:+ "%)")
            :: specialty_names_of rest
      | None => specialty_names_of rest
      end
  | VStr spec :: rest => spec :: specialty_names_of rest
  | _ :: rest => specialty_names_of rest
  end.

Definition _extract_essential_specialty_info (assessment : dict) : string :=
  if negb (truthy (VDict assessment)) then "No specialty assessment available."
  else
    let output := [] in
    let output :=
      match dict_get assessment "recommended_care_level" with
      | Some level =>
          let output := output ++ ["- Recommended Care Level: " +:+ fmt rt level] in
          match dict_get assessment "care_level_reasoning" with
          | Some why => output ++ ["- Care Level Reasoning: " +:+ fmt rt why]
          | None => output
          end
      | None => output
      end in
    let output :=
      match dict_get assessment "required_specialties" with
      | Some specialties =>
          if truthy specialties then
            match specialties with
            | VList items =>
                output ++ ["- Required Specialties: "
                             +:+ str_join ", " (specialty_names_of items)]
            | _ => output ++ ["- Required Specialties: " +:+ fmt rt specialties]
            end
          else output
      | None => output
      end in
    match output with
    | [] => "No specific specialty needs identified."
    | _ => str_join nl output
    end.

Definition reason_texts_of (reasons : dict) : list string :=
  map (fun '(campus, why) => campus +:+ ": " +:+ fmt rt why) reasons.

Definition _extract_essential_exclusion_info (exclusion : option dict) : res string :=
  match exclusion with
  | None => Ok "No exclusion criteria evaluated."
  | Some exclusion =>
      if negb (truthy (VDict exclusion)) then Ok "No exclusion criteria evaluated."
      else
        let output := [] in
        let* output :=
          match dict_get exclusion "excluded_campuses" with
          | Some excluded =>
              if truthy excluded then
                match excluded with
                | VList items =>
                    let* joined := py_join ", " items in
                    Ok (output ++ ["- Excluded Campuses: " +:+ joined])
                | _ => Ok (output ++ ["- Excluded Campuses: " +:+ fmt rt excluded])
                end
              else Ok output
          | None => Ok output
          end in
        let output :=
          match dict_get exclusion "exclusion_reasons" with
          | Some reasons =>
              if truthy reasons then
                match reasons with
                | VDict entries =>
                    output ++ [("- Exclusion Reasons:" +:+ nl +:+ "  - ")
                                 +:+ str_join (nl +:+ "  - ") (reason_texts_of entries)]
                | _ => output ++ ["- Exclusion Reasons: " +:+ fmt rt reasons]
                end
              else output
          | None => output
          end in
        let output :=
          match dict_get exclusion "recommended_campus" with
          | Some campus =>
              if truthy campus then
                output ++ ["- Recommended Campus from Exclusion Analysis: "
                             +:+ fmt rt campus]
              else output
          | None => output
          end in
        Ok match output with
           | [] => "No specific exclusion criteria identified."
           | _ => str_join nl output
           end
  end.
End Prompt.

Section Scoring.
Context (rt : PyRuntime).

(** [for name, value in d.items(): text += f"  - {name}: {value}\n"] *)
Definition item_lines (entries : dict) : string :=
  fold_left (fun text '(name, value) =>
               text +:+ "  - " +:+ name +:+ ": " +:+ fmt rt value +:+ nl)
            entries emp.

(** [text += f"- {name}: {value}\n"] for every entry. *)
Definition entry_lines (entries : dict) : string :=
  fold_left (fun text '(name, value) =>
               text +:+ "- " +:+ name +:+ ": " +:+ fmt rt value +:+ nl)
            entries emp.

(** An optional [".items()"] block below a heading: [if key in score:
    ... for name, value in score[key].items(): ...]. *)
Definition items_block (score : dict) (key heading : string) : res string :=
  match dict_get score key with
  | Some sub =>
      let* entries := py_items sub in
      Ok (heading +:+ nl +:+ item_lines entries)
  | None => Ok emp
  end.

(** The two lines every score section starts with. *)
Definition score_head (title : string) (score : pyval) (second_label second_key : string)
  : res string :=
  let* total := py_get score "total_score" (VStr "N/A") in
  let* second := py_get score second_key (VStr "N/A") in
  Ok (title +:+ nl +:+ "- Total Score: " +:+ fmt rt total +:+ nl
        +:+ "- " +:+ second_label +:+ ": " +:+ fmt rt second +:+ nl).

Definition format_pews (scores : pyval) : res string :=
  let* present := py_contains "pews" scores in
  if present then
    let* pews := py_getitem scores "pews" in
    let* head := score_head "### PEWS (Pediatric Early Warning Score)" pews
                   "Interpretation" "interpretation" in
    let* fields := py_items pews in
    let* subscores := items_block fields "subscores" "- Subscores:" in
    let actions :=
      match dict_get fields "recommended_actions" with
      | Some (VList items) =>
          ("- Recommended Actions:" +:+ nl)
            +:+ fold_left (fun text action => text +:+ "  - " +:+ fmt rt action +:+ nl)
                  items emp
      | Some actions =>
          ("- Recommended Actions:" +:+ nl) +:+ "  - " +:+ fmt rt actions +:+ nl
      | None => emp
      end in
    Ok (head +:+ subscores +:+ actions +:+ nl)
  else Ok emp.

Definition format_trap (scores : pyval) : res string :=
  let* present := py_contains "trap" scores in
  if present then
    let* trap := py_getitem scores "trap" in
    let* head := score_head "### TRAP (Transport Risk Assessment in Pediatrics)" trap
                   "Risk Level" "risk_level" in
    let* fields := py_items trap in
    let* subscores := items_block fields "subscores" "- System Assessments:" in
    let team :=
      match dict_get fields "transport_team_recommendation" with
      | Some t => "- Transport Team: " +:+ fmt rt t +:+ nl
      | None => emp
      end in
    Ok (head +:+ subscores +:+ team +:+ nl)
  else Ok emp.

Definition format_prism (scores : pyval) : res string :=
  let* present := py_contains "prism_iii" scores in
  if present then
    let* prism := py_getitem scores "prism_iii" in
    let* head := score_head "### PRISM III (Pediatric Risk of Mortality)" prism
                   "Mortality Risk" "mortality_risk" in
    let* fields := py_items prism in
    let* variables := items_block fields "variable_scores" "- Physiologic Variables:" in
    Ok (head +:+ variables +:+ nl)
  else Ok emp.

Definition format_cameo (scores : pyval) : res string :=
  let* present := py_contains "cameo_ii" scores in
  if present then
    let* cameo := py_getitem scores "cameo_ii" in
    let* head := score_head "### CAMEO II (Complexity Assessment and Monitoring)" cameo
                   "Acuity Level" "acuity_level" in
    let* fields := py_items cameo in
    let* domains := items_block fields "domain_scores" "- Domain Scores:" in
    let ratio :=
      match dict_get fields "recommended_nurse_ratio" with
      | Some r => "- Recommended Nurse Ratio: " +:+ fmt rt r +:+ nl
      | None => emp
      end in
    Ok (head +:+ domains +:+ ratio +:+ nl)
  else Ok emp.

Definition _format_scoring_data (scoring_results : pyval) : res string :=
  match scoring_results with
  | VDict results =>
      if negb (truthy scoring_results) then Ok "No pediatric scoring data available."
      else
        let formatted_text := emp in
        let* formatted_text :=
          match dict_get results "scores" with
          | Some scores =>
              if truthy scores then
                let* pews := format_pews scores in
                let* trap := format_trap scores in
                let* prism := format_prism scores in
                let* cameo := format_cameo scores in
                Ok (formatted_text +:+ pews +:+ trap +:+ prism +:+ cameo)
              else Ok formatted_text
          | None => Ok formatted_text
          end in
        let* formatted_text :=
          match dict_get results "recommended_care_levels" with
          | Some care_levels =>
              let* entries := py_items care_levels in
              Ok (formatted_text
                    +:+ ("### Care Level Recommendations Based on Scores" +:+ nl)
                    +:+ entry_lines entries +:+ nl)
          | None => Ok formatted_text
          end in
        match dict_get results "justifications" with
        | Some justifications =>
            let* entries := py_items justifications in
            Ok (formatted_text +:+ ("### Score-Based Justifications" +:+ nl)
                  +:+ entry_lines entries)
        | None => Ok formatted_text
        end
  | _ => Ok "No pediatric scoring data available."
  end.

Definition prompt_task : string :=
  lines
    [ emp;
      "## Recommendation Task";
      "Based on the above information, provide a hospital transfer recommendation. Consider:";
      "1. The patient's care needs and suggested care level";
      "2. Any excluded campuses or specialties";
      "3. Proximity to the patient's location";
      "4. Availability of required services";
      "5. Current bed availability";
      emp ].

Definition prompt_score_guidance : string :=
  lines
    [ emp;
      "6. Pediatric severity scores should heavily influence your recommendation, especially:";
      "   - Use PEWS, TRAP scores to determine transport requirements";
      "   - Use PRISM III scores to assess mortality risk";
      "   - Use CAMEO II scores to determine nursing care needs";
      "   - Explicitly reference the scores in your reasoning";
      emp ].

(** Returns the prompt text, [has_scores] and [score_count]. *)
Definition _build_recommendation_prompt
  (extracted_entities specialty_assessment : dict)
  (exclusion_evaluation : option dict) : res (string * bool * Z) :=
  let* patient_info := _extract_essential_patient_info rt extracted_entities in
  let specialty_info := _extract_essential_specialty_info rt specialty_assessment in
  let* exclusion_info := _extract_essential_exclusion_info rt exclusion_evaluation in
  let* (has_scores, score_count, scoring_info) :=
    match dict_get specialty_assessment "scoring_results" with
    | Some (VDict results as scoring_results) =>
        if truthy scoring_results then
          let* score_count := py_len (dict_get_default results "scores" (VDict [])) in
          let* scoring_info := _format_scoring_data scoring_results in
          Ok (true, score_count, scoring_info)
        else Ok (false, 0%Z, emp)
    | _ => Ok (false, 0%Z, emp)
    end in
  let prompt :=
    lines
      [ emp;
        "# Transfer Recommendation Request";
        emp;
        "## Patient Information";
        patient_info;
        emp;
        "## Specialty Assessment";
        specialty_info;
        emp;
        "## Exclusion Criteria";
        exclusion_info;
        emp ] in
  let prompt :=
    if has_scores
    then prompt +:+ lines [ emp; "## Pediatric Scoring Data"; scoring_info; emp ]
    else prompt in
  let prompt := prompt +:+ prompt_task in
  let prompt := if has_scores then prompt +:+ prompt_score_guidance else prompt in
  Ok (prompt, has_scores, score_count).
End Scoring.

(** ** [_try_llm_recommendation] and [generate_recommendation] *)

Definition json_instructions : string :=
  lines
    [ emp;
      "Use the above information to provide a hospital transfer recommendation in the following JSON format:";
      "```json";
      "{";
      "  " +:+ dq +:+ "recommended_campus" +:+ dq +:+ ": string,       // The recommended campus or hospital name";
      "  " +:+ dq +:+ "care_level" +:+ dq +:+ ": string,               // Recommended care level (general_floor, intermediate_care, intensive_care, etc.)";
      "  " +:+ dq +:+ "confidence_score" +:+ dq +:+ ": number,         // Confidence score (0-100) for this recommendation";
      "  " +:+ dq +:+ "clinical_reasoning" +:+ dq +:+ ": string,       // Clinical justification for the recommendation";
      "  " +:+ dq +:+ "campus_scores" +:+ dq +:+ ": {                  // Detailed scoring for each considered campus";
      "    " +:+ dq +:+ "primary" +:+ dq +:+ ": {";
      "      " +:+ dq +:+ "location" +:+ dq +:+ ": number,             // Score for location proximity (1-5)";
      "      " +:+ dq +:+ "specific_resources" +:+ dq +:+ ": number    // Score for specific resources needed (1-5)";
      "    },";
      "    " +:+ dq +:+ "backup" +:+ dq +:+ ": {                       // Optional backup recommendation";
      "      " +:+ dq +:+ "location" +:+ dq +:+ ": number,";
      "      " +:+ dq +:+ "specific_resources" +:+ dq +:+ ": number";
      "    }";
      "  },";
      "  " +:+ dq +:+ "bed_availability" +:+ dq +:+ ": {";
      "    " +:+ dq +:+ "confirmed" +:+ dq +:+ ": boolean,             // Whether bed availability was confirmed";
      "    " +:+ dq +:+ "availability_notes" +:+ dq +:+ ": string      // Notes on bed availability status";
      "  },";
      "  " +:+ dq +:+ "traffic_report" +:+ dq +:+ ": {";
      "    " +:+ dq +:+ "estimated_transport_time" +:+ dq +:+ ": string,  // Estimated transport time to facility";
      "    " +:+ dq +:+ "traffic_conditions" +:+ dq +:+ ": string,        // Current traffic conditions (normal, heavy, etc.)";
      "    " +:+ dq +:+ "route_notes" +:+ dq +:+ ": string                // Any notes about the transport route";
      "  }";
      "}";
      "```";
      emp;
      "Do not include any text before or after the JSON. Only return a valid JSON object.";
      emp ].

Definition system_message : Message :=
  {| role := "system";
     message_content :=
       "You are a hospital transfer coordinator. Respond ONLY with valid JSON." |}.

Definition json_fence : string := "```json".
Definition fence : string := "```".

Definition score_terms : list string :=
  [ "pews"; "trap"; "prism"; "cameo"; "queensland"; "chews"; "tps";
    "score"; "scoring"; "pediatric score"; "severity score" ].

Definition fields_to_check : list string :=
  [ "clinical_reasoning"; "justification"; "reasoning";
    "rationale"; "notes"; "considerations" ].

(** The number of [score_terms] that occur in a text, case-insensitively. *)
Definition terms_in (field_text : string) : Z :=
  fold_left (fun score_references term =>
               if str_contains (str_lower term) (str_lower field_text)
               then (score_references + 1)%Z else score_references)
            score_terms 0%Z.

(** The loop over [fields_to_check], counting [score_references]. *)
Fixpoint count_score_references (recommendation_json : pyval) (fields : list string)
  (score_references : Z) : res Z :=
  match fields with
  | [] => Ok score_references
  | field :: rest =>
      let* present := py_contains field recommendation_json in
      let* field_text :=
        if present then py_getitem recommendation_json field else Ok VNone in
      if present && truthy field_text then
        let* field_text :=
          match field_text with
          | VList items => let* joined := py_join " " items in Ok (VStr joined)
          | _ => Ok field_text
          end in
        match field_text with
        | VStr text =>
            count_score_references recommendation_json rest
              (score_references + terms_in text)%Z
        | _ => count_score_references recommendation_json rest score_references
        end
      else count_score_references recommendation_json rest score_references
  end.

(** Lines 204-237: when the prompt carried scores and the response is
    truthy, the response gets a ["score_utilization"] entry. *)
Definition add_score_utilization (has_scores : bool) (score_count : Z)
  (recommendation_json : pyval) : res pyval :=
  if has_scores && truthy recommendation_json then
    let* score_references :=
      count_score_references recommendation_json fields_to_check 0%Z in
    py_setitem recommendation_json "score_utilization"
      (VDict [ ("pediatric_scores_available", VInt score_count);
               ("referenced_in_reasoning", VBool (0 <? score_references)%Z);
               ("reference_count", VInt score_references) ])
  else Ok recommendation_json.

Section Generator.
Context (rt : PyRuntime) (co : Collaborators) (self : RecommendationGenerator).

(** The first attempt: [robust_json_parser(content)], followed by the
    [print] that lists [recommendation_json.keys()] when the result is
    truthy. Both sit in the same [try]. *)
Definition parse_with_robust_parser (content : string) : res pyval :=
  let* recommendation_json := robust_json_parser co content in
  let* _ :=
    if truthy recommendation_json
    then let* _ := py_keys recommendation_json in Ok tt
    else Ok tt in
  Ok recommendation_json.

(** [try: recommendation_json = json.loads(text)] followed by
    [except json.JSONDecodeError: handler]. The clause catches that
    exception only: any other one leaves the statement. *)
Definition loads_or_else (text : string) (handler : res (option pyval))
  : res (option pyval) :=
  match json_loads rt text with
  | Ok recommendation_json => Ok (Some recommendation_json)
  | Raise JSONDecodeError => handler
  | Raise other => Raise other
  end.

(** [json.loads(content)] with [return None] in its [except] clause;
    [Ok None] is that [return None]. *)
Definition direct_parse (content : string) : res (option pyval) :=
  loads_or_else content (Ok None).

(** The text of the first fenced block, stripped. *)
Definition fenced_block (content : string) : res string :=
  let* rest := split_after json_fence content in
  Ok (py_strip rt (split_before fence rest)).

(** The [except] branch of the first attempt ("manual extraction
    methods"); [Ok None] is the function's [return None]. *)
Definition manual_extraction (content : string) : res (option pyval) :=
  let* has_block :=
    if str_contains json_fence content then
      let* rest := split_after json_fence content in
      Ok (str_contains fence rest)
    else Ok false in
  if has_block then
    let* json_content := fenced_block content in
    loads_or_else json_content (direct_parse content)
  else direct_parse content.

(** Lines 170-198: the value bound to [recommendation_json], or
    [None] when the function returns [None] from here. An exception
    that leaves these lines reaches the [except Exception] of line 242. *)
Definition parse_response (content : string) : res (option pyval) :=
  match parse_with_robust_parser content with
  | Ok recommendation_json => Ok (Some recommendation_json)
  | Raise parser_error => manual_extraction content
  end.

(** Lines 169-244, the inner [try] with its [except Exception]. *)
Definition process_content (content : string) (has_scores : bool) (score_count : Z)
  : res (option Recommendation) :=
  try_except
    (let* parsed := parse_response content in
     match parsed with
     | None => Ok None
     | Some recommendation_json =>
         let* recommendation_json :=
           add_score_utilization has_scores score_count recommendation_json in
         let* recommendation := _convert_to_recommendation rt recommendation_json in
         Ok (Some recommendation)
     end)
    (fun e => Ok None).

(** The body of the outer [try]. A [content] of [None] fails at
    [content[:500]]. *)
Definition _try_llm_recommendation_body
  (extracted_entities specialty_assessment : dict)
  (exclusion_evaluation : option dict) : res (option Recommendation) :=
  let* (prompt, has_scores, score_count) :=
    _build_recommendation_prompt rt extracted_entities specialty_assessment
      exclusion_evaluation in
  let* response :=
    client self (model self)
      [ system_message;
        {| role := "user"; message_content := prompt +:+ json_instructions |} ] in
  let* content :=
    match content response with
    | Some text => Ok text
    | None => Raise TypeError
    end in
  process_content content has_scores score_count.

Definition _try_llm_recommendation
  (extracted_entities specialty_assessment : dict)
  (exclusion_evaluation : option dict) : res (option Recommendation) :=
  try_except
    (_try_llm_recommendation_body extracted_entities specialty_assessment
       exclusion_evaluation)
    (fun e => Ok None).

(** The dictionary handed to the confidence calculator when the LLM
    path gave nothing. *)
Definition fallback_data (extracted_entities : dict) : dict :=
  [ ("patient_demographics",
      dict_get_default extracted_entities "demographics" (VDict []));
    ("clinical_history", VStr emp);
    ("chief_complaint", VStr emp);
    ("extracted_vital_signs", VDict []) ].

Definition llm_failure_recommendation (recommendation_data : dict)
  (confidence : pyfloat) : Recommendation :=
  {| transfer_request_id := "error";
     recommended_campus_id := VStr "ERROR";
     confidence_score := confidence;
     reason := VStr "Failed to generate a recommendation with the LLM";
     notes := ["LLM error - please check the logs and try again"];
     explainability_details := recommendation_data |}.

Definition generate_recommendation
  (extracted_entities specialty_assessment : dict)
  (exclusion_evaluation : option dict) : res Recommendation :=
  let* llm_result :=
    _try_llm_recommendation extracted_entities specialty_assessment
      exclusion_evaluation in
  match llm_result with
  | Some recommendation => Ok recommendation
  | None =>
      let recommendation_data := fallback_data extracted_entities in
      let* estimate := calculate_recommendation_confidence co recommendation_data in
      let confidence := float_half estimate in
      Ok (llm_failure_recommendation recommendation_data confidence)
  end.
End Generator.

(** ** A runtime to run the model on concrete responses

    [sample_rt] gives the fields of [PyRuntime] executable values, so that
    the functions above can be evaluated on concrete texts. Its JSON
    reader covers objects, arrays, strings with the simple escapes,
    integers, plain decimals, [true], [false], [null], [NaN] and the
    infinities, which is the fragment the examples use. A syntax error
    is [JSONDecodeError]; an integer literal of more than 4300 digits is
    [ValueError], the interpreter's limit on converting text to [int]. *)

Module Sample.

Definition is_json_ws (c : Ascii.ascii) : bool :=
  let n := Ascii.nat_of_ascii c in
  (n =? 32)%nat || (n =? 9)%nat || (n =? 10)%nat || (n =? 13)%nat.

Fixpoint skip_ws (s : string) : string :=
  match s with
  | String c t => if is_json_ws c then skip_ws t else s
  | EmptyString => EmptyString
  end.

Definition digit_of (c : Ascii.ascii) : option Z :=
  let n := Ascii.nat_of_ascii c in
  if (48 <=? n)%nat && (n <=? 57)%nat then Some (Z.of_nat (n - 48)) else None.

(** Reads a run of digits: its value, its length and the rest. *)
Fixpoint digits (s : string) (acc : Z) (count : nat) : Z * nat * string :=
  match s with
  | String c t =>
      match digit_of c with
      | Some d => digits t (10 * acc + d)%Z (S count)
      | None => (acc, count, s)
      end
  | EmptyString => (acc, count, s)
  end.

Definition read_number (negative : bool) (s : string) : option (pyval * string) :=
  let '(whole, n, rest) := digits s 0%Z 0%nat in
  let sign := if negative then (-1)%Z else 1%Z in
  match n with
  | O => None
  | S _ =>
      match rest with
      | String "."%char t =>
          let '(frac, m, rest') := digits t 0%Z 0%nat in
          match m with
          | O => None
          | S _ =>
              Some (VFloat (FFin (Qmake (sign * (whole * 10 ^ Z.of_nat m + frac))
                                        (Z.to_pos (10 ^ Z.of_nat m)))), rest')
          end
      | _ => Some (VInt (sign * whole), rest)
      end
  end.

(** [sys.int_info.default_max_str_digits] *)
Definition int_max_str_digits : nat := 4300.

Definition syntax {A : Type} (parsed : option A) : res A :=
  match parsed with
  | Some a => Ok a
  | None => Raise JSONDecodeError
  end.

(** A number literal: the conversion of an integer literal fails beyond
    the digit limit. *)
Definition read_json_number (negative : bool) (s : string) : res (pyval * string) :=
  let '(_, n, rest) := digits s 0%Z 0%nat in
  match rest with
  | String "."%char _ => syntax (read_number negative s)
  | _ =>
      if (int_max_str_digits <? n)%nat then Raise ValueError
      else syntax (read_number negative s)
  end.

(** The body of a string literal, after its opening quote. *)
Fixpoint read_string (s : string) : option (string * string) :=
  match s with
  | EmptyString => None
  | String c t =>
      if Ascii.eqb c (Ascii.ascii_of_nat 34) then Some (EmptyString, t)
      else if Ascii.eqb c (Ascii.ascii_of_nat 92) then
        match t with
        | String e t' =>
            let n := Ascii.nat_of_ascii e in
            let decoded :=
              if (n =? 34)%nat || (n =? 92)%nat || (n =? 47)%nat then Some e
              else if (n =? 110)%nat then Some (Ascii.ascii_of_nat 10)
              else if (n =? 116)%nat then Some (Ascii.ascii_of_nat 9)
              else if (n =? 114)%nat then Some (Ascii.ascii_of_nat 13)
              else None in
            match decoded with
            | Some d =>
                '(body, rest) ← read_string t'; Some (String d body, rest)
            | None => None
            end
        | EmptyString => None
        end
      else if (Ascii.nat_of_ascii c <? 32)%nat then None
      else '(body, rest) ← read_string t; Some (String c body, rest)
  end.

Definition literal (word : string) (v : pyval) (s : string) : option (pyval * string) :=
  if String.prefix word s then Some (v, str_drop (String.length word) s) else None.

Section Containers.
Context (read_value : string -> res (pyval * string)).

(** The elements of an array after the first one has been read. *)
Fixpoint read_elements (fuel : nat) (s : string) (acc : list pyval)
  : res (pyval * string) :=
  match fuel with
  | O => Raise JSONDecodeError
  | S fuel =>
      match skip_ws s with
      | String "]"%char t => Ok (VList (rev acc), t)
      | String ","%char t =>
          let* (v, rest) := read_value t in read_elements fuel rest (v :: acc)
      | _ => Raise JSONDecodeError
      end
  end.

Definition read_member (s : string) : res (string * pyval * string) :=
  match skip_ws s with
  | String c t =>
      if Ascii.eqb c (Ascii.ascii_of_nat 34) then
        let* (key, rest) := syntax (read_string t) in
        match skip_ws rest with
        | String ":"%char rest' =>
            let* (v, rest'') := read_value rest' in Ok (key, v, rest'')
        | _ => Raise JSONDecodeError
        end
      else Raise JSONDecodeError
  | EmptyString => Raise JSONDecodeError
  end.

(** The members of an object after the first one has been read. *)
Fixpoint read_members (fuel : nat) (s : string) (acc : dict)
  : res (pyval * string) :=
  match fuel with
  | O => Raise JSONDecodeError
  | S fuel =>
      match skip_ws s with
      | String "}"%char t => Ok (VDict acc, t)
      | String ","%char t =>
          let* (key, v, rest) := read_member t in
          read_members fuel rest (dict_set acc key v)
      | _ => Raise JSONDecodeError
      end
  end.
End Containers.

Fixpoint read_value (fuel : nat) (s : string) : res (pyval * string) :=
  match fuel with
  | O => Raise JSONDecodeError
  | S fuel =>
      match skip_ws s with
      | EmptyString => Raise JSONDecodeError
      | String c t =>
          let n := Ascii.nat_of_ascii c in
          if (n =? 123)%nat then
            match skip_ws t with
            | String "}"%char t' => Ok (VDict [], t')
            | _ =>
                let* (key, v, rest) := read_member (read_value fuel) t in
                read_members (read_value fuel) (String.length rest + 1) rest [(key, v)]
            end
          else if (n =? 91)%nat then
            match skip_ws t with
            | String "]"%char t' => Ok (VList [], t')
            | _ =>
                let* (v, rest) := read_value fuel t in
                read_elements (read_value fuel) (String.length rest + 1) rest [v]
            end
          else if (n =? 34)%nat then
            let* (body, rest) := syntax (read_string t) in Ok (VStr body, rest)
          else if (n =? 45)%nat then
            match literal "Infinity" (VFloat (FInf true)) t with
            | Some r => Ok r
            | None => read_json_number true t
            end
          else
            match literal "true" (VBool true) (String c t) with
            | Some r => Ok r
            | None =>
            match literal "false" (VBool false) (String c t) with
            | Some r => Ok r
            | None =>
            match literal "null" VNone (String c t) with
            | Some r => Ok r
            | None =>
            match literal "NaN" (VFloat FNan) (String c t) with
            | Some r => Ok r
            | None =>
            match literal "Infinity" (VFloat (FInf false)) (String c t) with
            | Some r => Ok r
            | None => read_json_number false (String c t)
            end end end end end
      end
  end.

Definition json_loads (s : string) : res pyval :=
  let* (v, rest) := read_value (String.length s + 1) s in
  match skip_ws rest with
  | EmptyString => Ok v
  | _ => Raise JSONDecodeError
  end.
End Sample.

(** ** The recovery order the specification describes *)

(** Index of the last occurrence of a character. *)
Fixpoint str_rfind_char (c : Ascii.ascii) (s : string) : option nat :=
  match s with
  | EmptyString => None
  | String c' t =>
      match str_rfind_char c t with
      | Some i => Some (S i)
      | None => if Ascii.eqb c' c then Some 0%nat else None
      end
  end.

(** The text inside the first fenced code block ([```json] or a bare
    fence), stripped. *)
Definition spec_fenced_text (text : string) : option string :=
  match str_find json_fence text with
  | Some i =>
      Some (strip (split_before fence (str_drop (i + String.length json_fence) text)))
  | None =>
      match str_find fence text with
      | Some i =>
          Some (strip (split_before fence (str_drop (i + String.length fence) text)))
      | None => None
      end
  end.

(** The text from the first opening brace to the last closing one. *)
Definition spec_bracket_text (text : string) : option string :=
  match str_find "{" text with
  | Some i =>
      let tail := str_drop i text in
      match str_rfind_char "}"%char tail with
      | Some j => Some (str_take (S j) tail)
      | None => None
      end
  | None => None
  end.

(** The value of a computation that returned. *)
Definition returned {A : Type} (m : res A) : option A :=
  match m with
  | Ok a => Some a
  | Raise _ => None
  end.

(** The first strategy that succeeds, in list order. *)
Fixpoint first_success (strategies : list (string -> option pyval)) (text : string)
  : option pyval :=
  match strategies with
  | [] => None
  | strategy :: rest =>
      match strategy text with
      | Some v => Some v
      | None => first_success rest text
      end
  end.

(** Modelled from the spec: the three-tier recovery of section 4.1, which
    section 4.5 step 3 prescribes for the recommendation response:
    (1) direct structured parse of the full response, (2) extraction of
    a fenced code block then structured parse, (3) scan for the
    outermost matching bracket pair then parse; stop at the first
    success. [loads] is the structured parser. *)
Definition spec_three_tier_recovery (loads : string -> option pyval) (text : string)
  : option pyval :=
  first_success
    [ loads;
      fun t => spec_fenced_text t ≫= loads;
      fun t => spec_bracket_text t ≫= loads ]
    text.

Module SampleRuntime.

Definition digit_char (d : Z) : string :=
  String (Ascii.ascii_of_nat (48 + Z.to_nat d)) EmptyString.

Fixpoint decimal_go (fuel : nat) (n : Z) (acc : string) : string :=
  match fuel with
  | O => acc
  | S fuel =>
      let acc := digit_char (n mod 10) +:+ acc in
      if (n / 10 =? 0)%Z then acc else decimal_go fuel (n / 10)%Z acc
  end.

(** [str(n)] for an integer. *)
Definition decimal (n : Z) : string :=
  let body := decimal_go (S (Z.to_nat (Z.log2 (Z.abs n)))) (Z.abs n) EmptyString in
  if (n <? 0)%Z then "-" +:+ body else body.

(** [format(x, ".1f")] on the rational: the nearest tenth, ties to even. *)
Definition format_1f (x : pyfloat) : string :=
  match x with
  | FNan => "nan"
  | FInf negative => if negative then "-inf" else "inf"
  | FFin q =>
      let num := (2 * 10 * Z.abs (Qnum q))%Z in
      let den := (2 * Z.pos (Qden q))%Z in
      let tenths :=
        let lo := (num / den)%Z in
        let twice_rem := (2 * (num mod den))%Z in
        if (twice_rem <? den)%Z then lo
        else if (den <? twice_rem)%Z then (lo + 1)%Z
        else if Z.even lo then lo else (lo + 1)%Z in
      let body := decimal (tenths / 10) +:+ "." +:+ digit_char (tenths mod 10) in
      if (Qnum q <? 0)%Z then "-" +:+ body else body
  end.

(** [str(v)]: exact on [None], booleans, integers and strings; floats
    print with one decimal and containers in the style of [repr]
    without escapes. *)
Fixpoint str_of (v : pyval) : string :=
  match v with
  | VNone => "None"
  | VBool b => if b then "True" else "False"
  | VInt n => decimal n
  | VFloat x => format_1f x
  | VStr s => s
  | VList items =>
      "[" +:+ str_join ", " (map (fun x =>
                match x with VStr s => "'" +:+ s +:+ "'" | _ => str_of x end) items)
        +:+ "]"
  | VDict entries =>
      "{" +:+ str_join ", " (map (fun '(k, x) =>
                "'" +:+ k +:+ "': "
                  +:+ match x with VStr s => "'" +:+ s +:+ "'" | _ => str_of x end)
                entries)
        +:+ "}"
  end.

(** [float(s)] on [nan], [inf], [-inf] and plain decimal numerals. *)
Definition float_of_str (s : string) : option pyfloat :=
  let t := str_lower (strip s) in
  if String.eqb t "nan" then Some FNan
  else if String.eqb t "inf" || String.eqb t "infinity" then Some (FInf false)
  else if String.eqb t "-inf" || String.eqb t "-infinity" then Some (FInf true)
  else
    let r :=
      match t with
      | String "-"%char t' => Sample.read_number true t'
      | _ => Sample.read_number false t
      end in
    match r with
    | Some (VInt n, EmptyString) => Some (F n)
    | Some (VFloat x, EmptyString) => Some x
    | _ => None
    end.

Definition exn_name (e : exn) : string :=
  match e with
  | TypeError => "TypeError"
  | AttributeError => "AttributeError"
  | KeyError => "KeyError"
  | ValueError => "ValueError"
  | OverflowError => "OverflowError"
  | IndexError => "IndexError"
  | JSONDecodeError => "JSONDecodeError"
  | RecursionError => "RecursionError"
  | ExternalError tag => tag
  end.

Definition sample_rt : PyRuntime :=
  {| py_str := str_of;
     py_format_1f := format_1f;
     py_float_of_str := float_of_str;
     json_loads := Sample.json_loads;
     py_strip := strip;
     exn_str := exn_name |}.

(** Modelled from the spec: [robust_json_parser] ([src.llm.utils], not
    among the sources), as the reusable three-tier parsing utility of
    sections 4.1 and 9; it raises when all three tiers fail. *)
Definition three_tier_parser (text : string) : res pyval :=
  match spec_three_tier_recovery (fun t => returned (Sample.json_loads t)) text with
  | Some v => Ok v
  | None => Raise ValueError
  end.

(** Modelled from the spec: [calculate_recommendation_confidence]
    ([src.core.decision.confidence_estimator], not among the sources),
    after section 4.6: a deterministic number in [0, 100] that grows
    with the completeness of the data; here the percentage of entries
    that carry a truthy value. *)
Definition completeness_confidence (data : dict) : res pyfloat :=
  match data with
  | [] => Ok (F 0)
  | _ =>
      Ok (FFin (Qmake (100 * Z.of_nat (length (List.filter (fun kv => truthy (snd kv)) data)))
                      (Pos.of_nat (length data))))
  end.

Definition sample_co : Collaborators :=
  {| robust_json_parser := three_tier_parser;
     calculate_recommendation_confidence := completeness_confidence |}.

(** A client whose call fails, and one that answers with a fixed text. *)
Definition failing_client : RecommendationGenerator :=
  {| client := fun _ _ => Raise (ExternalError "APIConnectionError");
     model := "local-model" |}.

Definition replying_client (text : string) : RecommendationGenerator :=
  {| client := fun _ _ => Ok {| content := Some text; finish_reason := "stop" |};
     model := "local-model" |}.

Definition q (s : string) : string := dq +:+ s +:+ dq.
End SampleRuntime.

(** ** The object store: which objects the code writes to

    The functions above are written on values. To talk about mutation the
    same code is given a second reading on an object store: an object is
    an index into a list of values, a dictionary literal or a parser
    result is an allocation, and every subscript assignment of the source
    is an update of the object its target variable names. The store holds
    the objects that travel between functions (the three inputs, the
    parsed response, [standardized], [recommendation_data]); lists and
    texts that a function creates and fills before it returns are built
    in place. The collaborators receive texts, and the confidence
    calculator reads its argument. *)

Definition loc : Type := nat.
Definition heap : Type := list pyval.

(** A computation that may raise and may change the store; the store
    survives an exception. *)
Definition M (A : Type) : Type := heap -> res A * heap.

Definition st_ret {A : Type} (a : A) : M A := fun h => (Ok a, h).

Definition st_bind {A B : Type} (m : M A) (k : A -> M B) : M B :=
  fun h =>
    match m h with
    | (Ok a, h') => k a h'
    | (Raise e, h') => (Raise e, h')
    end.

Notation "'do*' x ':=' m 'in' k" :=
  (st_bind m (fun x => k))
  (at level 10, x pattern, m at level 100, k at level 200).

Definition lift {A : Type} (r : res A) : M A := fun h => (r, h).

(** A new object. *)
Definition alloc (v : pyval) : M loc := fun h => (Ok (length h), h ++ [v]).

(** The current value of an object. *)
Definition load (l : loc) : M pyval :=
  fun h => (match h !! l with Some v => Ok v | None => Raise KeyError end, h).

(** [obj[k] = v] on the object at [l]. *)
Definition setitem (l : loc) (k : string) (v : pyval) : M unit :=
  fun h =>
    match h !! l with
    | Some obj =>
        match py_setitem obj k v with
        | Ok obj' => (Ok tt, <[l := obj']> h)
        | Raise e => (Raise e, h)
        end
    | None => (Raise KeyError, h)
    end.

Definition try_st {A : Type} (body : M A) (handler : exn -> M A) : M A :=
  fun h =>
    match body h with
    | (Ok a, h') => (Ok a, h')
    | (Raise e, h') => handler e h'
    end.

Definition load_dict (l : loc) : M dict :=
  do* v := load l in lift (py_items v).

Definition load_optional (l : option loc) : M (option dict) :=
  match l with
  | Some l => do* d := load_dict l in st_ret (Some d)
  | None => st_ret None
  end.

Fixpoint apply_field_mappings_st (response : pyval)
  (mappings : list (string * list string)) (standardized : loc) : M unit :=
  match mappings with
  | [] => st_ret tt
  | (target_field, source_fields) :: rest =>
      do* found := lift (first_alias response source_fields) in
      do* _ :=
        match found with
        | Some v => setitem standardized target_field v
        | None => st_ret tt
        end in
      apply_field_mappings_st response rest standardized
  end.

Fixpoint add_other_fields_st (items : dict) (standardized : loc) : M unit :=
  match items with
  | [] => st_ret tt
  | (key, value) :: rest =>
      do* current := load_dict standardized in
      do* _ :=
        if dict_mem current key then st_ret tt
        else setitem standardized key value in
      add_other_fields_st rest standardized
  end.

Definition _standardize_llm_response_st (recommendation_json : loc) : M loc :=
  do* standardized := alloc (VDict standardized_template) in
  do* response := load recommendation_json in
  do* _ := apply_field_mappings_st response field_mappings standardized in
  do* _ := setitem standardized "original_response" response in
  do* items := lift (py_items response) in
  do* _ := add_other_fields_st items standardized in
  do* current := load_dict standardized in
  do* _ := lift (print_standardized current) in
  st_ret standardized.

Definition add_score_utilization_st (has_scores : bool) (score_count : Z)
  (recommendation_json : loc) : M unit :=
  do* response := load recommendation_json in
  if has_scores && truthy response then
    do* score_references :=
      lift (count_score_references response fields_to_check 0%Z) in
    setitem recommendation_json "score_utilization"
      (VDict [ ("pediatric_scores_available", VInt score_count);
               ("referenced_in_reasoning", VBool (0 <? score_references)%Z);
               ("reference_count", VInt score_references) ])
  else st_ret tt.

Section GeneratorOnStore.
Context (rt : PyRuntime) (co : Collaborators) (self : RecommendationGenerator).

Definition _convert_to_recommendation_st (recommendation_json : loc)
  : M Recommendation :=
  try_st
    (do* standardized := _standardize_llm_response_st recommendation_json in
     do* current := load_dict standardized in
     do* response := load recommendation_json in
     lift (recommendation_of_standardized rt response current))
    (fun e => st_ret (processing_error_recommendation rt e)).

Definition process_content_st (content : string) (has_scores : bool)
  (score_count : Z) : M (option Recommendation) :=
  try_st
    (do* parsed := lift (parse_response rt co content) in
     match parsed with
     | None => st_ret None
     | Some parsed_value =>
         do* recommendation_json := alloc parsed_value in
         do* _ := add_score_utilization_st has_scores score_count recommendation_json in
         do* recommendation := _convert_to_recommendation_st recommendation_json in
         st_ret (Some recommendation)
     end)
    (fun e => st_ret None).

Definition _try_llm_recommendation_st
  (extracted_entities specialty_assessment : loc)
  (exclusion_evaluation : option loc) : M (option Recommendation) :=
  try_st
    (do* entities := load_dict extracted_entities in
     do* assessment := load_dict specialty_assessment in
     do* exclusion := load_optional exclusion_evaluation in
     do* (prompt, has_scores, score_count) :=
       lift (_build_recommendation_prompt rt entities assessment exclusion) in
     do* response :=
       lift (client self (model self)
               [ system_message;
                 {| role := "user";
                    message_content := prompt +:+ json_instructions |} ]) in
     do* content :=
       lift match content response with
            | Some text => Ok text
            | None => Raise TypeError
            end in
     process_content_st content has_scores score_count)
    (fun e => st_ret None).

Definition generate_recommendation_st
  (extracted_entities specialty_assessment : loc)
  (exclusion_evaluation : option loc) : M Recommendation :=
  do* llm_result :=
    _try_llm_recommendation_st extracted_entities specialty_assessment
      exclusion_evaluation in
  match llm_result with
  | Some recommendation => st_ret recommendation
  | None =>
      do* entities := load_dict extracted_entities in
      do* recommendation_data := alloc (VDict (fallback_data entities)) in
      do* data := load_dict recommendation_data in
      do* estimate := lift (calculate_recommendation_confidence co data) in
      st_ret (llm_failure_recommendation data (float_half estimate))
  end.
End GeneratorOnStore.

(** ** Notions used in the statements *)

(** What [_standardize_llm_response] computes on a dictionary, where no
    operation on the response can fail before the debug prints. *)

(** On a dictionary the alias search cannot raise; this is its result. *)
Fixpoint first_truthy (response : dict) (source_fields : list string) : option pyval :=
  match source_fields with
  | [] => None
  | source_field :: rest =>
      match dict_get response source_field with
      | Some v => if truthy v then Some v else first_truthy response rest
      | None => first_truthy response rest
      end
  end.

(** The alias list of a standardized field. *)
Definition assoc_aliases (target_field : string) : option (list string) :=
  snd <$> List.find (fun m => String.eqb (fst m) target_field) field_mappings.

(** One step of the mapping loop, and the dictionary the loop leaves
    behind. *)
Definition apply_mapping (response : dict) (standardized : dict)
  (mapping : string * list string) : dict :=
  match first_truthy response (snd mapping) with
  | Some v => dict_set standardized (fst mapping) v
  | None => standardized
  end.

Definition mapped_template (response : dict) : dict :=
  fold_left (apply_mapping response) field_mappings standardized_template.

(** The dictionary the function builds before its debug prints. *)
Definition standardized_of (response : dict) : dict :=
  add_other_fields response
    (dict_set (mapped_template response) "original_response" (VDict response)).

(** The value a standardized field ends up with. *)
Definition standardized_field (response : dict) (target_field : string)
  (default : pyval) : pyval :=
  match assoc_aliases target_field with
  | Some source_fields =>
      match first_truthy response source_fields with
      | Some v => v
      | None => default
      end
  | None => default
  end.

Section LlmPath.
Context (rt : PyRuntime) (co : Collaborators) (self : RecommendationGenerator).

(** The recommendation comes from a response of the client: the prompt
    was built, the client answered with a text, the text was parsed,
    annotated and converted. *)
Definition llm_path (e s : dict) (x : option dict) (text : string)
  (parsed annotated : pyval) (r : Recommendation) : Prop :=
  exists prompt has_scores score_count response,
    _build_recommendation_prompt rt e s x = Ok (prompt, has_scores, score_count) /\
    client self (model self)
      [ system_message;
        {| role := "user"; message_content := prompt +:+ json_instructions |} ]
    = Ok response /\
    content response = Some text /\
    parse_response rt co text = Ok (Some parsed) /\
    add_score_utilization has_scores score_count parsed = Ok annotated /\
    _convert_to_recommendation rt annotated = Ok r.
End LlmPath.

(** A transfer request to run the generator on. *)
Module Scenario.
Import SampleRuntime.

(** A three-year-old in respiratory distress. *)
Definition entities : dict :=
  [ ("demographics", VDict [("age", VInt 3); ("gender", VStr "male")]);
    ("vital_signs", VDict [("hr", VInt 145); ("rr", VInt 35); ("o2", VInt 93)]);
    ("clinical_information",
      VDict [("chief_complaint", VStr "respiratory distress")]) ].

(** The assessment carries a PEWS result that recommends the PICU. *)
Definition assessment : dict :=
  [ ("recommended_care_level", VStr "PICU");
    ("scoring_results",
      VDict [ ("scores",
                VDict [("pews", VDict [ ("total_score", VInt 7);
                                        ("interpretation", VStr "high risk") ])]);
              ("recommended_care_levels", VDict [("pews", VStr "PICU")]) ]) ].

(** Response texts. *)
Definition empty_object : string := "{}".

Definition confidence_150 : string :=
  "{" +:+ q "recommended_campus" +:+ ": " +:+ q "Main Campus" +:+ ", "
      +:+ q "confidence_score" +:+ ": 150}".

Definition confidence_nan : string :=
  "{" +:+ q "recommended_campus" +:+ ": " +:+ q "Main Campus" +:+ ", "
      +:+ q "confidence_score" +:+ ": " +:+ q "nan" +:+ "}".

Definition numeric_reason : string :=
  "{" +:+ q "recommended_campus" +:+ ": " +:+ q "Main Campus" +:+ ", "
      +:+ q "clinical_reasoning" +:+ ": 5}".

(** A JSON array whose only element is a text with a fenced block. *)
Definition array_with_fence : string := "[" +:+ q "```json {} ```" +:+ "]".

(** The response suggests the general floor and puts the backup
    campus closer than the primary one. *)
Definition general_floor : string :=
  "{" +:+ q "recommended_campus" +:+ ": " +:+ q "Main Campus" +:+ ", "
      +:+ q "care_level" +:+ ": " +:+ q "general" +:+ ", "
      +:+ q "confidence_score" +:+ ": 85, "
      +:+ q "clinical_reasoning" +:+ ": " +:+ q "Stable on room air." +:+ ", "
      +:+ q "campus_scores" +:+ ": {"
      +:+ q "primary" +:+ ": {" +:+ q "location" +:+ ": 1, "
      +:+ q "specific_resources" +:+ ": 5}, "
      +:+ q "backup" +:+ ": {" +:+ q "location" +:+ ": 5, "
      +:+ q "specific_resources" +:+ ": 5}}}".
End Scenario.

(** The marker the specification wants in the notes of a fallback. *)
Definition narrative_marker : string := "generated without narrative reasoning".

Definition flagged (r : Recommendation) : bool :=
  existsb (fun note => str_contains narrative_marker (str_lower note)) (notes r).

(** C1 as the specification states it: when the LLM path gives nothing,
    the result is a flagged rule-only recommendation and not the error
    placeholder. *)
Definition rule_only_fallback (rt : PyRuntime) (co : Collaborators)
  (self : RecommendationGenerator) (e s : dict) (x : option dict) : Prop :=
  _try_llm_recommendation rt co self e s x = Ok None ->
  exists r, generate_recommendation rt co self e s x = Ok r /\
            flagged r = true /\ recommended_campus_id r <> VStr "ERROR".

(** The collaborators of the sample runtime with an arbitrary confidence
    calculator in place of the sample one. *)
Definition with_calculator (calc : dict -> res pyfloat) : Collaborators :=
  {| robust_json_parser := SampleRuntime.three_tier_parser;
     calculate_recommendation_confidence := calc |}.

Definition confidence_of (result : res Recommendation) : option pyfloat :=
  match result with
  | Ok r => Some (confidence_score r)
  | Raise _ => None
  end.

(** [s.split(sep, 1)[1]] when [sep] occurs in [s]. *)
Definition text_after (sep s : string) : string :=
  match str_find sep s with
  | Some i => str_drop (i + String.length sep) s
  | None => EmptyString
  end.

(** The outcome of a sequence of attempts. An attempt gives
    [Ok (Some v)] when it succeeds, [Ok None] when it fails in a way that
    lets the next attempt run, and [Raise e] when it ends in an
    exception that nothing in the sequence catches: the later attempts
    are then not made. *)
Fixpoint first_success_or_raise (attempts : list (string -> res (option pyval)))
  (text : string) : res (option pyval) :=
  match attempts with
  | [] => Ok None
  | attempt :: rest =>
      match attempt text with
      | Ok (Some v) => Ok (Some v)
      | Ok None => first_success_or_raise rest text
      | Raise e => Raise e
      end
  end.

(** A call of [json.loads] as an attempt: only [JSONDecodeError] lets the
    next attempt run. *)
Definition decode_attempt (parsed : res pyval) : res (option pyval) :=
  match parsed with
  | Ok v => Ok (Some v)
  | Raise JSONDecodeError => Ok None
  | Raise other => Raise other
  end.

Section Recovery.
Context (rt : PyRuntime) (co : Collaborators).

(** First attempt: [robust_json_parser] and the listing of the keys of
    its result; every exception lets the next attempt run. *)
Definition robust_attempt (text : string) : res (option pyval) :=
  match parse_with_robust_parser co text with
  | Ok v => Ok (Some v)
  | Raise _ => Ok None
  end.

(** Second attempt: [json.loads] on the stripped text of the first
    [```json] block, when the block is closed. *)
Definition fenced_attempt (text : string) : res (option pyval) :=
  if str_contains json_fence text && str_contains fence (text_after json_fence text)
  then decode_attempt
         (json_loads rt (py_strip rt (split_before fence (text_after json_fence text))))
  else Ok None.

(** Third attempt: [json.loads] on the whole text. *)
Definition direct_attempt (text : string) : res (option pyval) :=
  decode_attempt (json_loads rt text).

(** C3 as the specification states it. *)
Definition recovery_as_specified : Prop :=
  forall text,
    parse_response rt co text =
    Ok (spec_three_tier_recovery (fun t => returned (json_loads rt t)) text).
End Recovery.

Definition care_level_aliases : list string :=
  ["care_level"; "level_of_care"; "recommended_care_level"].

(** The care levels the scoring results recommend. *)
Definition score_levels (assessment : dict) : list pyval :=
  match dict_get assessment "scoring_results" with
  | Some (VDict results) =>
      match dict_get results "recommended_care_levels" with
      | Some (VDict levels) => map snd levels
      | _ => []
      end
  | _ => []
  end.

(** The care level a recommendation carries. *)
Definition reported_care_level (r : Recommendation) : option pyval :=
  dict_get (explainability_details r) "care_level".

(** A recommendation carries a care level in its payload or, under its
    display name, in its first note. *)
Definition carries_care_level (r : Recommendation) (level : pyval) : Prop :=
  reported_care_level r = Some level \/
  exists name,
    py_lower level = Ok name /\
    head (notes r) = Some ("Care Level: " +:+ care_level_display_of name).

(** C4 as the specification states it. *)
Definition score_level_is_authoritative (rt : PyRuntime) (co : Collaborators)
  (self : RecommendationGenerator) (e s : dict) (x : option dict) : Prop :=
  forall r level,
    generate_recommendation rt co self e s x = Ok r ->
    In level (score_levels s) ->
    carries_care_level r level.

(** The care level the response suggests. *)
Definition suggested_care_level (response : dict) : pyval :=
  match first_truthy response care_level_aliases with
  | Some v => v
  | None => VStr "unknown"
  end.

(** The proximity score (1-5, 5 is nearest) the response gives a
    campus under [campus_scores]. *)
Definition location_score (response : dict) (which : string) : option Z :=
  match dict_get response "campus_scores" with
  | Some (VDict scores) =>
      match dict_get scores which with
      | Some (VDict entry) =>
          match dict_get entry "location" with
          | Some (VInt n) => Some n
          | _ => None
          end
      | _ => None
      end
  | _ => None
  end.

(** The backup campus is nearer than the chosen one. *)
Definition closer_option_exists (response : dict) : bool :=
  match location_score response "primary", location_score response "backup" with
  | Some p, Some b => (p <? b)%Z
  | _, _ => false
  end.

(** A payload records that a closer campus was bypassed, with a reason. *)
Definition bypass_recorded (payload : dict) : bool :=
  match dict_get payload "proximity_analysis" with
  | Some (VDict analysis) =>
      truthy (dict_get_default analysis "closer_options_bypassed" VNone)
      && truthy (dict_get_default analysis "bypass_reason" VNone)
  | _ => false
  end.

Definition constant_analysis : dict :=
  [ ("closer_options_bypassed", VBool false);
    ("closer_campus", VStr emp);
    ("bypass_reason", VStr emp) ].

(** C5 as the specification states it: when a closer campus existed,
    the bypass and its reason are on record, in the payload of the
    recommendation or at least in the analysis the function builds. *)
Definition proximity_is_validated (rt : PyRuntime) (response : dict) : Prop :=
  closer_option_exists response = true ->
  exists r,
    _convert_to_recommendation rt (VDict response) = Ok r /\
    (bypass_recorded (explainability_details r) = true \/
     exists level details,
       build_explainability_details rt (VDict response) level = Ok details /\
       bypass_recorded details = true).

(** The explainability fields the module itself names: the ones it
    builds in [explainability_details] and the nested objects it asks the
    model for. *)
Definition explainability_fields : list string :=
  [ "care_level"; "urgency"; "proximity_analysis";
    "campus_scores"; "bed_availability"; "traffic_report" ].

(** A payload refers to an artifact when one of its entries holds it. *)
Definition refers_to (payload : dict) (artifact : pyval) : Prop :=
  exists k, dict_get payload k = Some artifact.

(** C6 as the specification states it. *)
Definition payload_is_complete (rt : PyRuntime) (co : Collaborators)
  (self : RecommendationGenerator) (e s : dict) (x : option dict) : Prop :=
  forall r,
    generate_recommendation rt co self e s x = Ok r ->
    (forall k, In k explainability_fields ->
               dict_mem (explainability_details r) k = true) /\
    refers_to (explainability_details r) (VDict e) /\
    refers_to (explainability_details r) (VDict s).

Definition standardized_keys : list string :=
  [ "campus_id"; "reason"; "confidence_score"; "care_level"; "notes";
    "original_response" ].

(** The optional third input in the store. *)
Definition exclusion_at (h : heap) (x : option loc) (exclusion : option dict) : Prop :=
  match x, exclusion with
  | Some l, Some d => h !! l = Some (VDict d)
  | None, None => True
  | _, _ => False
  end.

Definition void {A : Type} (r : res A) : res unit := res_bind r (fun _ => Ok tt).

(** ** Notions used in the further properties *)

Definition is_dict (v : pyval) : bool :=
  match v with VDict _ => true | _ => false end.

Definition is_str (v : pyval) : bool :=
  match v with VStr _ => true | _ => false end.

(** A value that the slice [v[:50]] accepts. *)
Definition sliceable (v : pyval) : bool :=
  match v with VStr _ | VList _ => true | _ => false end.

(** The alias lists of [field_mappings], by name. *)
Definition campus_aliases : list string :=
  ["recommended_campus"; "campus_id"; "campus"; "hospital"; "facility"].

Definition reason_aliases : list string :=
  ["clinical_reasoning"; "reasoning"; "reason"; "justification"; "rationale"].

Definition confidence_aliases : list string :=
  ["confidence_score"; "confidence"; "score"].

(** The first truthy value among the aliases, or the default. *)
Definition selected (response : dict) (aliases : list string) (default : pyval) : pyval :=
  match first_truthy response aliases with
  | Some v => v
  | None => default
  end.

(** The exclusion evaluation has no list of excluded campuses with an
    entry that is not a string. *)
Definition excluded_campuses_joinable (exclusion : option dict) : bool :=
  match exclusion with
  | Some d =>
      match dict_get d "excluded_campuses" with
      | Some (VList items) => forallb is_str items
      | _ => true
      end
  | None => true
  end.

(** A value whose slice [v[:50]] an f-string prints without a
    conversion that can fail: the slice of a text is a text, and the
    slice of a list of texts prints its items as text literals. *)
Definition slice_prints (v : pyval) : bool :=
  match v with
  | VList items => forallb is_str items
  | _ => true
  end.

(** A value that an f-string leaves out (it is falsy and the source
    guards the interpolation) or inserts as it stands (it is a text). *)
Definition falsy_or_text (v : pyval) : bool := negb (truthy v) || is_str v.

(** The values that the exclusion section interpolates are texts: the
    excluded campuses when they are not a list, the reasons (each of
    them, when they come as a dictionary) and the recommended campus. *)
Definition exclusion_values_are_texts (exclusion : option dict) : bool :=
  match exclusion with
  | Some d =>
      match dict_get d "excluded_campuses" with
      | Some (VList _) | None => true
      | Some excluded => falsy_or_text excluded
      end
      && match dict_get d "exclusion_reasons" with
         | Some (VDict entries) => forallb (fun entry => is_str (snd entry)) entries
         | Some reasons => falsy_or_text reasons
         | None => true
         end
      && match dict_get d "recommended_campus" with
         | Some campus => falsy_or_text campus
         | None => true
         end
  | None => true
  end.

(** Text made of ASCII characters only; on such text [str_lower] and
    [str_upper] are [str.lower] and [str.upper]. *)
Fixpoint is_ascii (s : string) : bool :=
  match s with
  | EmptyString => true
  | String c t => (Ascii.nat_of_ascii c <? 128)%nat && is_ascii t
  end.

(** [part] occurs in [whole] as a contiguous piece. *)
Definition occurs_in (part whole : string) : Prop :=
  exists before after, whole = before +:+ part +:+ after.


(** The four scores the scoring section knows, with the headings of
    their blocks. *)
Definition score_titles : list (string * string) :=
  [ ("pews", "### PEWS (Pediatric Early Warning Score)");
    ("trap", "### TRAP (Transport Risk Assessment in Pediatrics)");
    ("prism_iii", "### PRISM III (Pediatric Risk of Mortality)");
    ("cameo_ii", "### CAMEO II (Complexity Assessment and Monitoring)") ].

(** The first two lines of the block of a score. *)
Definition score_block_start (rt : PyRuntime) (title : string) (score : dict) : string :=
  title +:+ nl +:+ "- Total Score: "
    +:+ fmt rt (dict_get_default score "total_score" (VStr "N/A")) +:+ nl.

(** A reply that is a JSON array holding one text; the text has a fenced
    block whose content is an integer literal of 4301 digits. *)
Fixpoint repeat_char (c : Ascii.ascii) (n : nat) : string :=
  match n with
  | O => EmptyString
  | S n => String c (repeat_char c n)
  end.

Definition array_with_long_number : string :=
  "[" +:+ SampleRuntime.q ("```json " +:+ repeat_char "1" 4301 +:+ " ```") +:+ "]".

(** * Properties *)

(** ** Dictionaries *)

Lemma dict_get_set_eq (d : dict) (k : string) (v : pyval) :
  dict_get (dict_set d k v) k = Some v.
Proof.
  induction d as [|[k' v'] d IH]; simpl.
  - by rewrite String.eqb_refl.
  - destruct (String.eqb k' k) eqn:E; simpl; rewrite E; [done | apply IH].
Qed.

Lemma dict_get_set_ne (d : dict) (k k' : string) (v : pyval) :
  k <> k' -> dict_get (dict_set d k v) k' = dict_get d k'.
Proof.
  intros Hne. induction d as [|[k0 v0] d IH]; simpl.
  - destruct (String.eqb_spec k k'); [contradiction | done].
  - destruct (String.eqb_spec k0 k) as [->|Hk]; simpl.
    + destruct (String.eqb_spec k k'); [contradiction | done].
    + destruct (String.eqb_spec k0 k'); [done | apply IH].
Qed.

Lemma dict_get_set (d : dict) (k k' : string) (v : pyval) :
  dict_get (dict_set d k v) k' = if String.eqb k k' then Some v else dict_get d k'.
Proof.
  destruct (String.eqb_spec k k') as [->|Hne].
  - apply dict_get_set_eq.
  - by apply dict_get_set_ne.
Qed.

Lemma dict_mem_get (d : dict) (k : string) :
  dict_mem d k = true <-> exists v, dict_get d k = Some v.
Proof.
  unfold dict_mem. destruct (dict_get d k); split; eauto; try done.
  intros [v Hv]; discriminate.
Qed.

Lemma dict_mem_set (d : dict) (k k' : string) (v : pyval) :
  dict_mem (dict_set d k v) k' = String.eqb k k' || dict_mem d k'.
Proof.
  unfold dict_mem. rewrite dict_get_set. by destruct (String.eqb k k').
Qed.

(** ** The error monad *)

Lemma bind_ok {A B : Type} (m : res A) (k : A -> res B) (b : B) :
  res_bind m k = Ok b -> exists a, m = Ok a /\ k a = Ok b.
Proof. destruct m; simpl; [eauto | discriminate]. Qed.

Lemma try_except_total {A : Type} (body : res A) (handler : exn -> res A) :
  (forall e, exists a, handler e = Ok a) -> exists a, try_except body handler = Ok a.
Proof. intros H. destruct body; simpl; eauto. Qed.

Ltac bind_inv H :=
  let a := fresh "a" in
  let Ha := fresh "Ha" in
  apply bind_ok in H; destruct H as (a & Ha & H).

(** ** [_standardize_llm_response] on a dictionary *)

Lemma first_alias_dict (response : dict) (source_fields : list string) :
  first_alias (VDict response) source_fields = Ok (first_truthy response source_fields).
Proof.
  induction source_fields as [|f rest IH]; simpl; [done|].
  unfold dict_mem. destruct (dict_get response f) as [v|]; simpl; [|done].
  by destruct (truthy v).
Qed.

Lemma apply_field_mappings_dict (response : dict) mappings (standardized : dict) :
  apply_field_mappings (VDict response) mappings standardized =
  Ok (fold_left (apply_mapping response) mappings standardized).
Proof.
  revert standardized.
  induction mappings as [|[t srcs] rest IH]; intros standardized; simpl; [done|].
  rewrite first_alias_dict. simpl. apply IH.
Qed.

Lemma apply_mapping_get (response standardized : dict) mapping (k : string) :
  dict_get (apply_mapping response standardized mapping) k =
  if String.eqb (fst mapping) k then
    match first_truthy response (snd mapping) with
    | Some v => Some v
    | None => dict_get standardized k
    end
  else dict_get standardized k.
Proof.
  unfold apply_mapping.
  destruct (first_truthy response (snd mapping)).
  - apply dict_get_set.
  - by destruct (String.eqb (fst mapping) k).
Qed.

Lemma add_other_fields_get (items standardized : dict) (k : string) :
  dict_get (add_other_fields items standardized) k =
  match dict_get standardized k with
  | Some v => Some v
  | None => dict_get items k
  end.
Proof.
  revert standardized.
  induction items as [|[key value] rest IH]; intros standardized; simpl.
  - by destruct (dict_get standardized k).
  - rewrite IH. unfold dict_mem.
    destruct (dict_get standardized key) as [v0|] eqn:Hkey.
    + destruct (dict_get standardized k) eqn:Hk; [done|].
      destruct (String.eqb_spec key k) as [->|]; [congruence | done].
    + rewrite dict_get_set.
      destruct (String.eqb_spec key k) as [->|Hne].
      * by rewrite Hkey.
      * by destruct (dict_get standardized k).
Qed.

Lemma standardize_dict (response : dict) :
  _standardize_llm_response (VDict response) =
  (print_standardized (standardized_of response) ;;; Ok (standardized_of response)).
Proof.
  unfold _standardize_llm_response.
  rewrite apply_field_mappings_dict. reflexivity.
Qed.

Lemma standardize_ok_dict (recommendation_json : pyval) (standardized : dict) :
  _standardize_llm_response recommendation_json = Ok standardized ->
  exists response,
    recommendation_json = VDict response /\ standardized = standardized_of response.
Proof.
  intros H. unfold _standardize_llm_response in H.
  bind_inv H. bind_inv H.
  destruct recommendation_json; try discriminate.
  exists entries. split; [done|].
  rewrite apply_field_mappings_dict in Ha. injection Ha as <-.
  simpl in Ha0. injection Ha0 as <-.
  bind_inv H. by injection H as <-.
Qed.

Lemma mapped_template_get (response : dict) (k : string) :
  dict_get (mapped_template response) k =
  match assoc_aliases k with
  | Some source_fields =>
      match first_truthy response source_fields with
      | Some v => Some v
      | None => dict_get standardized_template k
      end
  | None => dict_get standardized_template k
  end.
Proof.
  unfold mapped_template, assoc_aliases, field_mappings.
  cbn [fold_left]. rewrite !apply_mapping_get.
  cbn [fst snd List.find].
  repeat match goal with
         | |- context [String.eqb ?a k] =>
             destruct (String.eqb_spec a k) as [<-|?]; [reflexivity | cbv beta iota]
         end.
  cbn [fmap option_fmap option_map standardized_template dict_get].
  repeat match goal with
         | |- context [String.eqb ?a k] =>
             destruct (String.eqb_spec a k) as [<-|?]; [done | cbv beta iota]
         end.
  reflexivity.
Qed.

Lemma standardized_of_get (response : dict) (k : string) :
  dict_get (standardized_of response) k =
  if String.eqb "original_response" k then Some (VDict response)
  else match dict_get (mapped_template response) k with
       | Some v => Some v
       | None => dict_get response k
       end.
Proof.
  unfold standardized_of. rewrite add_other_fields_get, dict_get_set.
  by destruct (String.eqb "original_response" k).
Qed.

Lemma standardized_of_field (response : dict) (target_field : string) (default : pyval) :
  target_field <> "original_response" ->
  dict_get standardized_template target_field = Some default ->
  dict_get (standardized_of response) target_field =
  Some (standardized_field response target_field default).
Proof.
  intros Hne Hdef. rewrite standardized_of_get.
  destruct (String.eqb_spec "original_response" target_field); [congruence|].
  rewrite mapped_template_get, Hdef. unfold standardized_field.
  destruct (assoc_aliases target_field) as [srcs|]; [|done].
  by destruct (first_truthy response srcs).
Qed.

(** What the function returns on a dictionary, whenever it returns:
    the five template keys are present, the input sits under
    [original_response], every key of the input is a key of the result,
    and a standardized field holds the first truthy alias or the
    template default. *)
Lemma standardize_returns_spec (response standardized : dict) :
  _standardize_llm_response (VDict response) = Ok standardized ->
  (forall k, In k ["campus_id"; "reason"; "confidence_score"; "care_level"; "notes"] ->
             dict_mem standardized k = true) /\
  dict_get standardized "original_response" = Some (VDict response) /\
  (forall k, dict_mem response k = true -> dict_mem standardized k = true) /\
  (forall target_field source_fields default,
      In (target_field, source_fields) field_mappings ->
      dict_get standardized_template target_field = Some default ->
      dict_get standardized target_field =
      Some match first_truthy response source_fields with
           | Some v => v
           | None => default
           end).
Proof.
  intros H. apply standardize_ok_dict in H as (response' & Heq & ->).
  injection Heq as <-.
  split; [|split; [|split]].
  - intros k Hk. apply dict_mem_get.
    assert (exists default, dict_get standardized_template k = Some default
                            /\ k <> "original_response") as (default & Hdef & Hne).
    { simpl in Hk. destruct Hk as [<-|[<-|[<-|[<-|[<-|[]]]]]]; eexists; split;
        try reflexivity; discriminate. }
    eexists. by apply standardized_of_field.
  - rewrite standardized_of_get. reflexivity.
  - intros k Hk. apply dict_mem_get in Hk as [v Hv]. apply dict_mem_get.
    rewrite standardized_of_get.
    destruct (String.eqb "original_response" k); [eauto|].
    destruct (dict_get (mapped_template response) k); eauto.
  - intros t srcs default Hin Hdef.
    assert (t <> "original_response" /\ assoc_aliases t = Some srcs) as [Hne Ha].
    { simpl in Hin.
      destruct Hin as [Hin|[Hin|[Hin|[Hin|[]]]]]; injection Hin as <- <-;
        (split; [discriminate | reflexivity]). }
    rewrite (standardized_of_field _ _ default Hne Hdef).
    unfold standardized_field. by rewrite Ha.
Qed.

(** ** The confidence range check *)

Lemma validate_confidence_range (confidence : pyfloat) :
  validate_confidence confidence = FNan \/
  float_in_range 0 100 (validate_confidence confidence).
Proof.
  unfold validate_confidence, float_ltb, F.
  destruct confidence as [| [|] | q]; simpl; auto.
  - right. split; compute; discriminate.
  - right. split; compute; discriminate.
  - destruct (Qlt_le_dec q (inject_Z 0)) as [Hlt|Hge]; simpl.
    + right. split; compute; discriminate.
    + destruct (Qlt_le_dec (inject_Z 100) q) as [Hgt|Hle]; simpl.
      * right. split; compute; discriminate.
      * right. split; assumption.
Qed.

Lemma validate_confidence_nan : validate_confidence FNan = FNan.
Proof. reflexivity. Qed.

Lemma float_half_range (x : pyfloat) :
  float_in_range 0 100 x -> float_in_range 0 100 (float_half x).
Proof.
  destruct x as [| s | q]; simpl; try tauto.
  intros [Hlo Hhi]. unfold Qle, Qdiv, Qmult, Qinv, inject_Z in *. simpl in *. lia.
Qed.

(** ** [_convert_to_recommendation] *)

Section ConvertFacts.
Context (rt : PyRuntime).

Lemma convert_total (recommendation_json : pyval) :
  exists r, _convert_to_recommendation rt recommendation_json = Ok r.
Proof.
  unfold _convert_to_recommendation. apply try_except_total. eauto.
Qed.

Lemma convert_inv (recommendation_json : pyval) (r : Recommendation) :
  _convert_to_recommendation rt recommendation_json = Ok r ->
  (exists response,
      recommendation_json = VDict response /\
      _standardize_llm_response recommendation_json = Ok (standardized_of response) /\
      recommendation_of_standardized rt recommendation_json (standardized_of response)
      = Ok r) \/
  (exists e, _convert_to_recommendation_body rt recommendation_json = Raise e /\
             r = processing_error_recommendation rt e).
Proof.
  unfold _convert_to_recommendation, try_except.
  destruct (_convert_to_recommendation_body rt recommendation_json) as [r'|e] eqn:Hbody.
  - intros [= <-]. left. unfold _convert_to_recommendation_body in Hbody.
    bind_inv Hbody.
    destruct (standardize_ok_dict _ _ Ha) as (response & -> & ->). eauto.
  - intros [= <-]. right. eauto.
Qed.

(** The fields of a recommendation that the [try] block builds. *)
Lemma recommendation_of_standardized_fields recommendation_json standardized r :
  recommendation_of_standardized rt recommendation_json standardized = Ok r ->
  transfer_request_id r = "llm_generated" /\
  explainability_details r = standardized /\
  recommended_campus_id r =
    dict_get_default standardized "campus_id" (VStr "No specific campus recommended") /\
  (exists c, py_float rt (dict_get_default standardized "confidence_score" (VFloat (F 70)))
             = Ok c /\ confidence_score r = validate_confidence c) /\
  (exists level, py_lower (dict_get_default standardized "care_level" (VStr "general"))
                 = Ok level /\
                 head (notes r) = Some ("Care Level: " +:+ care_level_display_of level)).
Proof.
  unfold recommendation_of_standardized. intros H.
  bind_inv H. bind_inv H. bind_inv H. bind_inv H. bind_inv H. bind_inv H.
  injection H as <-. simpl. eauto 10.
Qed.

Lemma processing_error_fields (e : exn) :
  transfer_request_id (processing_error_recommendation rt e) = "error" /\
  confidence_score (processing_error_recommendation rt e) = F 10.
Proof. done. Qed.
End ConvertFacts.

(** ** The two ways [generate_recommendation] produces its result *)

Section GeneratorFacts.
Context (rt : PyRuntime) (co : Collaborators) (self : RecommendationGenerator).

Lemma try_llm_total (e s : dict) (x : option dict) :
  exists o, _try_llm_recommendation rt co self e s x = Ok o.
Proof. unfold _try_llm_recommendation. apply try_except_total. eauto. Qed.

Lemma process_content_some_inv text has_scores score_count r :
  process_content rt co text has_scores score_count = Ok (Some r) ->
  exists parsed annotated,
    parse_response rt co text = Ok (Some parsed) /\
    add_score_utilization has_scores score_count parsed = Ok annotated /\
    _convert_to_recommendation rt annotated = Ok r.
Proof.
  unfold process_content, try_except.
  destruct (parse_response rt co text) as [[parsed|]|e] eqn:Hparse; simpl;
    try discriminate.
  destruct (add_score_utilization has_scores score_count parsed) as [annotated|e]
    eqn:Hadd; simpl; try discriminate.
  destruct (_convert_to_recommendation rt annotated) as [r'|e] eqn:Hconv; simpl;
    try discriminate.
  intros [= <-]. eauto.
Qed.

Lemma try_llm_some_inv (e s : dict) (x : option dict) (r : Recommendation) :
  _try_llm_recommendation rt co self e s x = Ok (Some r) ->
  exists text parsed annotated, llm_path rt co self e s x text parsed annotated r.
Proof.
  unfold _try_llm_recommendation, try_except.
  destruct (_try_llm_recommendation_body rt co self e s x) as [o|err] eqn:Hbody;
    [|discriminate].
  intros [= ->]. unfold _try_llm_recommendation_body in Hbody.
  bind_inv Hbody. destruct a as [[prompt has_scores] score_count].
  bind_inv Hbody. bind_inv Hbody.
  destruct (content a) as [text|] eqn:Hcontent; [|discriminate].
  injection Ha1 as <-.
  apply process_content_some_inv in Hbody as (parsed & annotated & ? & ? & ?).
  exists text, parsed, annotated, prompt, has_scores, score_count, a. auto 10.
Qed.

Lemma generate_recommendation_inv (e s : dict) (x : option dict) (r : Recommendation) :
  generate_recommendation rt co self e s x = Ok r ->
  (exists text parsed annotated, llm_path rt co self e s x text parsed annotated r) \/
  (_try_llm_recommendation rt co self e s x = Ok None /\
   exists estimate,
     calculate_recommendation_confidence co (fallback_data e) = Ok estimate /\
     r = llm_failure_recommendation (fallback_data e) (float_half estimate)).
Proof.
  unfold generate_recommendation. intros H. bind_inv H.
  destruct a as [r'|].
  - injection H as <-. left. by apply try_llm_some_inv.
  - right. split; [done|]. bind_inv H. injection H as <-. eauto.
Qed.
End GeneratorFacts.

(** ** C1: the result of a failed LLM call *)

Lemma client_failure_gives_none rt co self e s x :
  (forall m msgs, exists err, client self m msgs = Raise err) ->
  _try_llm_recommendation rt co self e s x = Ok None.
Proof.
  intros Hfail. unfold _try_llm_recommendation, try_except.
  destruct (_try_llm_recommendation_body rt co self e s x) as [o|err] eqn:Hbody;
    [|done].
  unfold _try_llm_recommendation_body in Hbody.
  bind_inv Hbody. destruct a as [[prompt has_scores] score_count].
  bind_inv Hbody.
  destruct (Hfail (model self)
              [ system_message;
                {| role := "user"; message_content := prompt +:+ json_instructions |} ])
    as [err Herr].
  congruence.
Qed.

(** C1, counterexample: with a client whose call fails, the result is the
    error placeholder, and its notes carry no narrative marker. *)
Lemma c1_no_rule_only_fallback :
  ~ rule_only_fallback SampleRuntime.sample_rt SampleRuntime.sample_co
      SampleRuntime.failing_client Scenario.entities Scenario.assessment None.
Proof.
  intros H. destruct H as (r & Hr & Hflag & Hcampus); [reflexivity|].
  vm_compute in Hr. injection Hr as <-. vm_compute in Hflag. discriminate.
Qed.

(** C1, as amended: whenever the LLM path gives nothing and the
    confidence calculator returns an estimate, [generate_recommendation]
    returns the error placeholder: request id ["error"], campus
    ["ERROR"], half the estimate as confidence, a fixed reason and note,
    and the data handed to the calculator as explainability details. *)
Theorem llm_failure_returns_error_placeholder rt co self e s x estimate :
  _try_llm_recommendation rt co self e s x = Ok None ->
  calculate_recommendation_confidence co (fallback_data e) = Ok estimate ->
  generate_recommendation rt co self e s x =
  Ok {| transfer_request_id := "error";
        recommended_campus_id := VStr "ERROR";
        confidence_score := float_half estimate;
        reason := VStr "Failed to generate a recommendation with the LLM";
        notes := ["LLM error - please check the logs and try again"];
        explainability_details :=
          [ ("patient_demographics", dict_get_default e "demographics" (VDict []));
            ("clinical_history", VStr emp);
            ("chief_complaint", VStr emp);
            ("extracted_vital_signs", VDict []) ] |}.
Proof.
  intros Hnone Hcalc. unfold generate_recommendation.
  rewrite Hnone. simpl. rewrite Hcalc. reflexivity.
Qed.

Lemma llm_failure_returns_error_placeholder_witness :
  generate_recommendation SampleRuntime.sample_rt SampleRuntime.sample_co
    SampleRuntime.failing_client Scenario.entities Scenario.assessment None =
  Ok {| transfer_request_id := "error";
        recommended_campus_id := VStr "ERROR";
        confidence_score := float_half (FFin (Qmake 100 4));
        reason := VStr "Failed to generate a recommendation with the LLM";
        notes := ["LLM error - please check the logs and try again"];
        explainability_details :=
          [ ("patient_demographics", VDict [("age", VInt 3); ("gender", VStr "male")]);
            ("clinical_history", VStr emp);
            ("chief_complaint", VStr emp);
            ("extracted_vital_signs", VDict []) ] |}.
Proof.
  apply (llm_failure_returns_error_placeholder SampleRuntime.sample_rt
           SampleRuntime.sample_co SampleRuntime.failing_client
           Scenario.entities Scenario.assessment None (FFin (Qmake 100 4)));
    reflexivity.
Defined.

(** ** C2: where the confidence comes from *)

(** C2, the code at the failing inputs: whatever the confidence
    calculator computes, a response with confidence 150 yields 70, a
    response without a confidence yields 50, a response whose reason is a
    number yields 10, and a failed call yields half the calculator's
    value. On the first three paths the calculator is not consulted. *)
Theorem confidence_is_a_fixed_default (calc : dict -> res pyfloat) :
  confidence_of
    (generate_recommendation SampleRuntime.sample_rt (with_calculator calc)
       (SampleRuntime.replying_client Scenario.confidence_150)
       Scenario.entities Scenario.assessment None) = Some (F 70) /\
  confidence_of
    (generate_recommendation SampleRuntime.sample_rt (with_calculator calc)
       (SampleRuntime.replying_client Scenario.empty_object)
       Scenario.entities Scenario.assessment None) = Some (F 50) /\
  confidence_of
    (generate_recommendation SampleRuntime.sample_rt (with_calculator calc)
       (SampleRuntime.replying_client Scenario.numeric_reason)
       Scenario.entities Scenario.assessment None) = Some (F 10) /\
  confidence_of
    (generate_recommendation SampleRuntime.sample_rt (with_calculator calc)
       SampleRuntime.failing_client Scenario.entities Scenario.assessment None) =
  match calc (fallback_data Scenario.entities) with
  | Ok estimate => Some (float_half estimate)
  | Raise _ => None
  end.
Proof.
  repeat split; try (vm_compute; reflexivity).
  unfold generate_recommendation.
  replace (_try_llm_recommendation _ _ _ _ _ _) with (@Ok (option Recommendation) None)
    by (vm_compute; reflexivity).
  cbn [res_bind with_calculator calculate_recommendation_confidence].
  by destruct (calc _).
Qed.

(** ** C7: the range of the confidence *)

(** The confidence of every result lies in [0, 100] or is NaN, when the
    calculator stays in range. *)
Lemma confidence_in_range_or_nan rt co self e s x r :
  (forall data c, calculate_recommendation_confidence co data = Ok c ->
                  float_in_range 0 100 c) ->
  generate_recommendation rt co self e s x = Ok r ->
  confidence_score r = FNan \/ float_in_range 0 100 (confidence_score r).
Proof.
  intros Hcalc H.
  apply generate_recommendation_inv in H
    as [(text & parsed & annotated & Hpath)|(_ & estimate & Hest & ->)].
  - destruct Hpath as (? & ? & ? & ? & _ & _ & _ & _ & _ & Hconv).
    apply convert_inv in Hconv as [(response & _ & _ & Hrec)|(err & _ & ->)].
    + apply recommendation_of_standardized_fields in Hrec
        as (_ & _ & _ & (c & _ & ->) & _).
      apply validate_confidence_range.
    + right. simpl. split; compute; discriminate.
  - right. simpl. apply float_half_range. eauto.
Qed.

Lemma percentage_range (n m : nat) :
  (n <= m)%nat -> (0 < m)%nat ->
  float_in_range 0 100 (FFin (Qmake (100 * Z.of_nat n) (Pos.of_nat m))).
Proof.
  intros Hle Hpos. unfold float_in_range, Qle, inject_Z.
  cbn [Qnum Qden].
  assert (Z.pos (Pos.of_nat m) = Z.of_nat m) as ->.
  { rewrite <- (Nat2Pos.id m) at 2 by lia. by rewrite positive_nat_Z. }
  split; nia.
Qed.

Lemma completeness_confidence_range (data : dict) (c : pyfloat) :
  SampleRuntime.completeness_confidence data = Ok c -> float_in_range 0 100 c.
Proof.
  unfold SampleRuntime.completeness_confidence.
  destruct data as [|kv rest]; intros [= <-].
  - split; compute; discriminate.
  - apply (percentage_range _ (length (kv :: rest)));
      [apply (List.filter_length_le (fun kv => truthy (snd kv)) (kv :: rest))
      | simpl; lia].
Qed.

(** C7, the code at the failing input: the calculator stays within
    [0, 100], the response gives its confidence as the text [nan], and the
    recommendation that comes back has a NaN confidence, which is not in
    [0, 100]. *)
Theorem nan_confidence_passes_the_range_check :
  (forall data c, calculate_recommendation_confidence SampleRuntime.sample_co data = Ok c ->
                  float_in_range 0 100 c) /\
  exists r,
    generate_recommendation SampleRuntime.sample_rt SampleRuntime.sample_co
      (SampleRuntime.replying_client Scenario.confidence_nan)
      Scenario.entities Scenario.assessment None = Ok r /\
    transfer_request_id r = "llm_generated" /\
    confidence_score r = FNan /\
    ~ float_in_range 0 100 (confidence_score r).
Proof.
  split; [apply completeness_confidence_range|].
  eexists. split; [vm_compute; reflexivity|]. simpl. auto.
Qed.

(** ** C9: no exception leaves the generator *)

(** C9: [_try_llm_recommendation] always returns, with [None] when its
    body raises, and [generate_recommendation] returns a recommendation
    whenever the confidence calculator returns on the fallback data. *)
Theorem generate_recommendation_total rt co self e s x :
  is_ok (calculate_recommendation_confidence co (fallback_data e)) = true ->
  (exists o, _try_llm_recommendation rt co self e s x = Ok o) /\
  (forall err, _try_llm_recommendation_body rt co self e s x = Raise err ->
               _try_llm_recommendation rt co self e s x = Ok None) /\
  (exists r, generate_recommendation rt co self e s x = Ok r).
Proof.
  intros Hcalc. split; [apply try_llm_total|]. split.
  - intros err Herr. unfold _try_llm_recommendation. by rewrite Herr.
  - unfold generate_recommendation.
    destruct (try_llm_total rt co self e s x) as [[r|] ->]; simpl; [eauto|].
    destruct (calculate_recommendation_confidence co (fallback_data e));
      [simpl; eauto | discriminate].
Qed.

Lemma generate_recommendation_total_witness :
  (exists o, _try_llm_recommendation SampleRuntime.sample_rt SampleRuntime.sample_co
               (SampleRuntime.replying_client Scenario.numeric_reason)
               Scenario.entities Scenario.assessment None = Ok o) /\
  (forall err,
      _try_llm_recommendation_body SampleRuntime.sample_rt SampleRuntime.sample_co
        (SampleRuntime.replying_client Scenario.numeric_reason)
        Scenario.entities Scenario.assessment None = Raise err ->
      _try_llm_recommendation SampleRuntime.sample_rt SampleRuntime.sample_co
        (SampleRuntime.replying_client Scenario.numeric_reason)
        Scenario.entities Scenario.assessment None = Ok None) /\
  (exists r, generate_recommendation SampleRuntime.sample_rt SampleRuntime.sample_co
               (SampleRuntime.replying_client Scenario.numeric_reason)
               Scenario.entities Scenario.assessment None = Ok r).
Proof.
  apply (generate_recommendation_total SampleRuntime.sample_rt SampleRuntime.sample_co
           (SampleRuntime.replying_client Scenario.numeric_reason)
           Scenario.entities Scenario.assessment None).
  reflexivity.
Defined.

(** ** C10: [_standardize_llm_response] *)

(** C10, the code at the failing input: on the dictionary
    [{"clinical_reasoning": 5}] the function selects 5 as the reason and
    raises [TypeError] when its debug print slices it; the caller turns
    that into the error recommendation with confidence 10. *)
Theorem standardize_raises_on_a_numeric_reason :
  _standardize_llm_response (VDict [("clinical_reasoning", VInt 5)]) = Raise TypeError /\
  forall rt,
    confidence_of (_convert_to_recommendation rt (VDict [("clinical_reasoning", VInt 5)]))
    = Some (F 10).
Proof. split; [reflexivity|]. intros rt. reflexivity. Qed.

(** ** C3: the order of the parse attempts *)

Lemma split_after_found (sep s : string) :
  str_contains sep s = true -> split_after sep s = Ok (text_after sep s).
Proof.
  unfold str_contains, split_after, text_after.
  by destruct (str_find sep s).
Qed.

(** C3, counterexample: the response is a JSON array that holds a text
    with a fenced block. The direct parse of the whole response succeeds
    (the first tier of the specification), yet for no behaviour of
    [robust_json_parser] is that parse the value the code goes on with. *)
Lemma c3_recovery_order_differs :
  ~ exists co, recovery_as_specified SampleRuntime.sample_rt co.
Proof.
  intros [co H]. specialize (H Scenario.array_with_fence).
  replace (spec_three_tier_recovery _ _)
    with (Some (VList [VStr "```json {} ```"])) in H by (vm_compute; reflexivity).
  unfold parse_response in H.
  destruct (parse_with_robust_parser co Scenario.array_with_fence) as [v|err] eqn:E.
  - injection H as ->. unfold parse_with_robust_parser in E.
    bind_inv E. bind_inv E. injection E as ->. discriminate.
  - vm_compute in H. discriminate.
Qed.

(** C3, as amended: the value the code goes on with is the first
    success among three attempts in this order: (1) [robust_json_parser]
    on the whole response, together with the listing of its keys, where
    any exception leads to the next attempt; (2) [json.loads] on the
    stripped text of the first closed [```json] block; (3) [json.loads]
    on the whole response. In (2) and (3) only [JSONDecodeError] counts
    as a failure of the attempt: any other exception of [json.loads]
    ends the recovery without the later attempt. When all three fail, or
    when the recovery ends in such an exception, the function returns
    [None]. *)
Theorem parse_response_is_first_success rt co text :
  parse_response rt co text =
    first_success_or_raise [robust_attempt co; fenced_attempt rt; direct_attempt rt] text /\
  forall has_scores score_count,
    (parse_response rt co text = Ok None \/
     exists err, parse_response rt co text = Raise err) ->
    process_content rt co text has_scores score_count = Ok None.
Proof.
  split.
  - unfold parse_response, first_success_or_raise, robust_attempt.
    destruct (parse_with_robust_parser co text) as [v|err]; [done|].
    unfold manual_extraction, fenced_attempt, fenced_block, direct_attempt,
      direct_parse, loads_or_else, decode_attempt.
    destruct (str_contains json_fence text) eqn:Hfence; cbn [res_bind andb];
      [|by destruct (json_loads rt text) as [v|[]]].
    rewrite (split_after_found _ _ Hfence). cbn [res_bind].
    destruct (str_contains fence (text_after json_fence text)); cbn [res_bind];
      [|by destruct (json_loads rt text) as [v|[]]].
    destruct (json_loads rt (py_strip rt _)) as [v|[]]; try done.
    by destruct (json_loads rt text) as [v|[]].
  - intros has_scores score_count [H | [err H]];
      unfold process_content; by rewrite H.
Qed.

(** ** C4: where the care level comes from *)

Lemma add_score_utilization_inv has_scores score_count parsed annotated :
  add_score_utilization has_scores score_count parsed = Ok annotated ->
  annotated = parsed \/
  exists response v,
    parsed = VDict response /\
    annotated = VDict (dict_set response "score_utilization" v).
Proof.
  unfold add_score_utilization.
  destruct (has_scores && truthy parsed); [|intros [= <-]; by left].
  intros H. bind_inv H. right.
  destruct parsed; try discriminate. injection H as <-. eauto.
Qed.

Lemma first_truthy_set_other (response : dict) (k : string) (v : pyval)
  (source_fields : list string) :
  ~ In k source_fields ->
  first_truthy (dict_set response k v) source_fields = first_truthy response source_fields.
Proof.
  induction source_fields as [|f rest IH]; simpl; [done|].
  intros Hnot. rewrite dict_get_set_ne by (intros ->; apply Hnot; by left).
  rewrite IH by (intros Hin; apply Hnot; by right). done.
Qed.

(** C4, counterexample: the PEWS result recommends the PICU, the
    response suggests the general floor, and the recommendation reports
    the general floor. *)
Lemma c4_score_level_is_not_authoritative :
  ~ score_level_is_authoritative SampleRuntime.sample_rt SampleRuntime.sample_co
      (SampleRuntime.replying_client Scenario.general_floor)
      Scenario.entities Scenario.assessment None.
Proof.
  intros H.
  destruct (generate_recommendation SampleRuntime.sample_rt SampleRuntime.sample_co
              (SampleRuntime.replying_client Scenario.general_floor)
              Scenario.entities Scenario.assessment None) as [r|err] eqn:Hr;
    [|vm_compute in Hr; discriminate].
  specialize (H r (VStr "PICU") Hr (or_introl eq_refl)).
  vm_compute in Hr. injection Hr as <-.
  destruct H as [H|(name & Hname & H)].
  - vm_compute in H. discriminate.
  - injection Hname as <-. vm_compute in H. discriminate.
Qed.

(** C4, as amended: the care level of a recommendation made from a
    response is the one the response suggests: the first truthy value
    among its keys [care_level], [level_of_care] and
    [recommended_care_level], and ["unknown"] without one. The
    recommendation carries it under [care_level] and, lower-cased and
    mapped to its display name, in its first note. The scoring results
    reach the prompt and the [score_utilization] annotation only. *)
Theorem care_level_comes_from_the_response rt co self e s x r :
  generate_recommendation rt co self e s x = Ok r ->
  transfer_request_id r = "llm_generated" ->
  exists text response annotated level,
    llm_path rt co self e s x text (VDict response) annotated r /\
    reported_care_level r = Some (suggested_care_level response) /\
    py_lower (suggested_care_level response) = Ok level /\
    head (notes r) = Some ("Care Level: " +:+ care_level_display_of level).
Proof.
  intros H Hid.
  apply generate_recommendation_inv in H
    as [(text & parsed & annotated & Hpath)|(_ & estimate & _ & ->)];
    [|discriminate].
  pose proof Hpath as (? & hs & sc & ? & _ & _ & _ & Hparse & Hadd & Hconv).
  apply convert_inv in Hconv as [(response' & Hannotated & _ & Hrec)|(err & _ & ->)];
    [|discriminate].
  subst annotated.
  apply recommendation_of_standardized_fields in Hrec
    as (_ & Hexpl & _ & _ & (level & Hlower & Hnote)).
  assert (Hstd : dict_get (standardized_of response') "care_level"
                 = Some (suggested_care_level response')).
  { by rewrite (standardized_of_field response' "care_level" (VStr "unknown")). }
  unfold dict_get_default in Hlower. rewrite Hstd in Hlower.
  assert (exists response, parsed = VDict response /\
            suggested_care_level response' = suggested_care_level response)
    as (response & -> & Hsame).
  { apply add_score_utilization_inv in Hadd as [<-|(response & v & -> & [= ->])].
    - eauto.
    - exists response. split; [done|]. unfold suggested_care_level.
      rewrite first_truthy_set_other; [done|].
      simpl. intros [?|[?|[?|[]]]]; discriminate. }
  exists text, response, (VDict response'), level. rewrite <- Hsame.
  unfold reported_care_level. rewrite Hexpl. auto.
Qed.

Lemma care_level_comes_from_the_response_witness :
  exists text response annotated level,
    llm_path SampleRuntime.sample_rt SampleRuntime.sample_co
      (SampleRuntime.replying_client Scenario.empty_object)
      Scenario.entities Scenario.assessment None text (VDict response) annotated
      {| transfer_request_id := "llm_generated";
         recommended_campus_id := VStr "UNKNOWN";
         confidence_score := F 50;
         reason := VStr "No reason provided";
         notes :=
           [ "Care Level: UNKNOWN";
             nl +:+ "Backup Recommendation: No backup campus specified (Confidence: 0.0%)" ];
         explainability_details :=
           [ ("campus_id", VStr "UNKNOWN");
             ("reason", VStr "No reason provided");
             ("confidence_score", VFloat (F 50));
             ("care_level", VStr "unknown");
             ("notes", VList []);
             ("original_response", VDict []) ] |} /\
    reported_care_level
      {| transfer_request_id := "llm_generated";
         recommended_campus_id := VStr "UNKNOWN";
         confidence_score := F 50;
         reason := VStr "No reason provided";
         notes :=
           [ "Care Level: UNKNOWN";
             nl +:+ "Backup Recommendation: No backup campus specified (Confidence: 0.0%)" ];
         explainability_details :=
           [ ("campus_id", VStr "UNKNOWN");
             ("reason", VStr "No reason provided");
             ("confidence_score", VFloat (F 50));
             ("care_level", VStr "unknown");
             ("notes", VList []);
             ("original_response", VDict []) ] |}
    = Some (suggested_care_level response) /\
    py_lower (suggested_care_level response) = Ok level /\
    Some "Care Level: UNKNOWN" = Some ("Care Level: " +:+ care_level_display_of level).
Proof.
  apply (care_level_comes_from_the_response SampleRuntime.sample_rt
           SampleRuntime.sample_co
           (SampleRuntime.replying_client Scenario.empty_object)
           Scenario.entities Scenario.assessment None).
  - vm_compute. reflexivity.
  - reflexivity.
Defined.

(** ** C5: the proximity analysis *)

Lemma proximity_analysis_of_constant (response : dict) :
  proximity_analysis_of response =
  if dict_mem response "campus_scores" then constant_analysis else [].
Proof. unfold proximity_analysis_of. by destruct (dict_mem response "campus_scores"). Qed.

Lemma build_explainability_details_proximity rt response level details :
  build_explainability_details rt (VDict response) level = Ok details ->
  dict_get details "proximity_analysis" =
  Some (VDict (if dict_mem response "campus_scores" then constant_analysis else [])).
Proof.
  unfold build_explainability_details. intros H.
  bind_inv H. bind_inv H. bind_inv H. bind_inv H.
  injection H as <-. injection Ha2 as <-.
  by rewrite dict_get_set_eq, proximity_analysis_of_constant.
Qed.

(** C5, counterexample: the response scores the backup campus nearer
    than the primary one, and neither the payload of the recommendation
    nor the analysis built on the way records a bypass. *)
Lemma c5_no_proximity_validation :
  exists response,
    json_loads SampleRuntime.sample_rt Scenario.general_floor = Ok (VDict response) /\
    ~ proximity_is_validated SampleRuntime.sample_rt response.
Proof.
  eexists. split; [vm_compute; reflexivity|].
  intros H. destruct H as (r & Hr & [Hrec|(level & details & Hd & Hrec)]);
    [reflexivity | | ].
  - vm_compute in Hr. injection Hr as <-. vm_compute in Hrec. discriminate.
  - apply build_explainability_details_proximity in Hd.
    unfold bypass_recorded in Hrec. rewrite Hd in Hrec.
    vm_compute in Hrec. discriminate.
Qed.

(** C5, as amended: the proximity analysis the function builds holds
    three constants (no bypass, no closer campus, no reason) when the
    response has a [campus_scores] key and is empty otherwise; it stays
    in a local dictionary, and the payload of the recommendation has a
    [proximity_analysis] entry only if the response itself brought
    one. *)
Theorem proximity_analysis_is_constant rt response r :
  _convert_to_recommendation_body rt (VDict response) = Ok r ->
  (exists level details,
      build_explainability_details rt (VDict response) level = Ok details /\
      dict_get details "proximity_analysis" =
      Some (VDict (if dict_mem response "campus_scores"
                   then [ ("closer_options_bypassed", VBool false);
                          ("closer_campus", VStr emp);
                          ("bypass_reason", VStr emp) ]
                   else []))) /\
  dict_get (explainability_details r) "proximity_analysis" =
  dict_get response "proximity_analysis".
Proof.
  unfold _convert_to_recommendation_body. intros H. bind_inv H.
  apply standardize_ok_dict in Ha as (response' & [= <-] & ->).
  pose proof (recommendation_of_standardized_fields _ _ _ _ H) as (_ & Hexpl & _).
  split.
  - unfold recommendation_of_standardized in H.
    bind_inv H. bind_inv H. bind_inv H. bind_inv H. bind_inv H.
    eexists _, _. split; [exact Ha3|].
    by apply build_explainability_details_proximity in Ha3.
  - rewrite Hexpl, standardized_of_get, mapped_template_get. reflexivity.
Qed.

Lemma proximity_analysis_is_constant_witness :
  exists response r,
    json_loads SampleRuntime.sample_rt Scenario.general_floor = Ok (VDict response) /\
    (exists level details,
        build_explainability_details SampleRuntime.sample_rt (VDict response) level
        = Ok details /\
        dict_get details "proximity_analysis" =
        Some (VDict (if dict_mem response "campus_scores"
                     then [ ("closer_options_bypassed", VBool false);
                            ("closer_campus", VStr emp);
                            ("bypass_reason", VStr emp) ]
                     else []))) /\
    dict_get (explainability_details r) "proximity_analysis" =
    dict_get response "proximity_analysis".
Proof.
  eexists _, _. split; [vm_compute; reflexivity|].
  apply (proximity_analysis_is_constant SampleRuntime.sample_rt).
  vm_compute. reflexivity.
Defined.

(** ** C6: the explainability payload *)

(** C6, counterexample: on the empty JSON object the payload has the six
    standardized keys and nothing else: no [urgency], no
    [proximity_analysis], no travel or bed entry, and no entry that holds
    the extracted entities. *)
Lemma c6_payload_is_incomplete :
  ~ payload_is_complete SampleRuntime.sample_rt SampleRuntime.sample_co
      (SampleRuntime.replying_client Scenario.empty_object)
      Scenario.entities Scenario.assessment None.
Proof.
  intros H.
  destruct (generate_recommendation SampleRuntime.sample_rt SampleRuntime.sample_co
              (SampleRuntime.replying_client Scenario.empty_object)
              Scenario.entities Scenario.assessment None) as [r|err] eqn:Hr;
    [|vm_compute in Hr; discriminate].
  destruct (H r Hr) as (Hfields & _ & _).
  specialize (Hfields "urgency" ltac:(simpl; tauto)).
  vm_compute in Hr. injection Hr as <-. vm_compute in Hfields. discriminate.
Qed.

(** C6, as amended: the payload of a recommendation made from a
    response is the standardized response. It always has the keys
    [campus_id], [reason], [confidence_score], [care_level], [notes] and
    [original_response]; every key of the response (with the
    [score_utilization] annotation, when there is one) is a key of the
    payload; and any other key has in the payload exactly the entry it
    has in the response, so a key the response lacks is missing and
    not null. The inputs of the generator do not enter the payload. *)
Theorem payload_is_the_standardized_response rt co self e s x r :
  generate_recommendation rt co self e s x = Ok r ->
  transfer_request_id r = "llm_generated" ->
  exists text parsed response,
    llm_path rt co self e s x text parsed (VDict response) r /\
    _standardize_llm_response (VDict response) = Ok (explainability_details r) /\
    (forall k, In k standardized_keys -> dict_mem (explainability_details r) k = true) /\
    dict_get (explainability_details r) "original_response" = Some (VDict response) /\
    (forall k, dict_mem response k = true -> dict_mem (explainability_details r) k = true) /\
    (forall k, ~ In k standardized_keys ->
               dict_get (explainability_details r) k = dict_get response k).
Proof.
  intros H Hid.
  apply generate_recommendation_inv in H
    as [(text & parsed & annotated & Hpath)|(_ & estimate & _ & ->)];
    [|discriminate].
  pose proof Hpath as (? & hs & sc & ? & _ & _ & _ & _ & _ & Hconv).
  apply convert_inv in Hconv as [(response & -> & Hstd & Hrec)|(err & _ & ->)];
    [|discriminate].
  apply recommendation_of_standardized_fields in Hrec as (_ & Hexpl & _).
  exists text, parsed, response. rewrite Hexpl.
  destruct (standardize_returns_spec _ _ Hstd) as (Hkeys & Horig & Hall & _).
  repeat split; try done.
  - intros k Hk. simpl in Hk.
    destruct Hk as [<-|[<-|[<-|[<-|[<-|[<-|[]]]]]]];
      try (apply Hkeys; simpl; tauto).
    apply dict_mem_get. eauto.
  - intros k Hk. rewrite standardized_of_get, mapped_template_get.
    destruct (String.eqb_spec "original_response" k) as [<-|_];
      [exfalso; apply Hk; simpl; tauto|].
    unfold assoc_aliases, field_mappings. cbn [List.find fst].
    repeat match goal with
           | |- context [String.eqb ?a k] =>
               destruct (String.eqb_spec a k) as [<-|?];
               [exfalso; apply Hk; simpl; tauto | cbv beta iota]
           end.
    cbn [fmap option_fmap option_map standardized_template dict_get].
    repeat match goal with
           | |- context [String.eqb ?a k] =>
               destruct (String.eqb_spec a k) as [<-|?];
               [exfalso; apply Hk; simpl; tauto | cbv beta iota]
           end.
    reflexivity.
Qed.

Lemma payload_is_the_standardized_response_witness :
  exists r text parsed response,
    llm_path SampleRuntime.sample_rt SampleRuntime.sample_co
      (SampleRuntime.replying_client Scenario.general_floor)
      Scenario.entities Scenario.assessment None text parsed (VDict response) r /\
    _standardize_llm_response (VDict response) = Ok (explainability_details r) /\
    (forall k, In k standardized_keys -> dict_mem (explainability_details r) k = true) /\
    dict_get (explainability_details r) "original_response" = Some (VDict response) /\
    (forall k, dict_mem response k = true -> dict_mem (explainability_details r) k = true) /\
    (forall k, ~ In k standardized_keys ->
               dict_get (explainability_details r) k = dict_get response k).
Proof.
  eexists.
  apply (payload_is_the_standardized_response SampleRuntime.sample_rt
           SampleRuntime.sample_co
           (SampleRuntime.replying_client Scenario.general_floor)
           Scenario.entities Scenario.assessment None).
  - vm_compute. reflexivity.
  - reflexivity.
Defined.

(** ** C8: the inputs are not written to *)

Lemma lookup_last (h : heap) (v : pyval) : (h ++ [v]) !! length h = Some v.
Proof. by rewrite list_lookup_middle. Qed.

Lemma insert_last (h : heap) (v w : pyval) : <[length h := w]> (h ++ [v]) = h ++ [w].
Proof.
  replace (length h) with (length h + 0)%nat by lia. by rewrite insert_app_r.
Qed.

Lemma load_some (h : heap) (l : loc) (v : pyval) :
  h !! l = Some v -> load l h = (Ok v, h).
Proof. intros H. unfold load. by rewrite H. Qed.

Lemma load_dict_some (h : heap) (l : loc) (d : dict) :
  h !! l = Some (VDict d) -> load_dict l h = (Ok d, h).
Proof. intros H. unfold load_dict, st_bind. by rewrite (load_some _ _ _ H). Qed.

Lemma setitem_last (h : heap) (d : dict) (k : string) (v : pyval) :
  setitem (length h) k v (h ++ [VDict d]) = (Ok tt, h ++ [VDict (dict_set d k v)]).
Proof. unfold setitem. rewrite lookup_last. simpl. by rewrite insert_last. Qed.

(** The mapping loop on the newest object of the store. *)
Lemma apply_field_mappings_st_last (response : pyval) mappings (h : heap) :
  forall d, exists d',
    apply_field_mappings_st response mappings (length h) (h ++ [VDict d]) =
    (void (apply_field_mappings response mappings d), h ++ [VDict d']) /\
    (forall result, apply_field_mappings response mappings d = Ok result -> d' = result).
Proof.
  induction mappings as [|[target sources] rest IH]; intros d.
  - exists d. split; [done|]. by intros result [= <-].
  - cbn [apply_field_mappings_st apply_field_mappings].
    unfold st_bind at 1, lift at 1.
    destruct (first_alias response sources) as [found|err].
    + cbn [res_bind]. unfold st_bind at 1.
      destruct found as [v|].
      * rewrite setitem_last. apply IH.
      * unfold st_ret at 1. apply IH.
    + exists d. split; [done|]. intros result. discriminate.
Qed.

Lemma add_other_fields_st_last (items : dict) (h : heap) :
  forall d,
    add_other_fields_st items (length h) (h ++ [VDict d]) =
    (Ok tt, h ++ [VDict (add_other_fields items d)]).
Proof.
  induction items as [|[key value] rest IH]; intros d; [done|].
  cbn [add_other_fields_st add_other_fields].
  unfold st_bind at 1. rewrite (load_dict_some _ _ d) by apply lookup_last.
  unfold st_bind at 1.
  destruct (dict_mem d key).
  - unfold st_ret at 1. apply IH.
  - rewrite setitem_last. apply IH.
Qed.

(** [_standardize_llm_response] on the store: it returns what the value
    reading returns, in one new object. *)
Lemma standardize_st_run (h : heap) (rj : loc) (v : pyval) :
  h !! rj = Some v ->
  exists d',
    _standardize_llm_response_st rj h =
    (res_bind (_standardize_llm_response v) (fun _ => Ok (length h)), h ++ [VDict d']) /\
    (forall result, _standardize_llm_response v = Ok result -> d' = result).
Proof.
  intros Hrj. unfold _standardize_llm_response_st, _standardize_llm_response.
  unfold st_bind at 1, alloc at 1.
  unfold st_bind at 1. rewrite (load_some _ _ v) by by apply lookup_app_l_Some.
  unfold st_bind at 1.
  destruct (apply_field_mappings_st_last v field_mappings h standardized_template)
    as (d1 & -> & Hd1).
  destruct (apply_field_mappings v field_mappings standardized_template)
    as [mapped|err]; cbn [void res_bind].
  2: { exists d1. split; [done|]. intros result. discriminate. }
  rewrite (Hd1 mapped eq_refl).
  unfold st_bind at 1. rewrite setitem_last.
  unfold st_bind at 1, lift at 1.
  destruct (py_items v) as [items|err]; cbn [res_bind].
  2: { eexists. split; [done|]. intros result. discriminate. }
  unfold st_bind at 1. rewrite add_other_fields_st_last.
  unfold st_bind at 1. rewrite (load_dict_some _ _ _ (lookup_last _ _)).
  unfold st_bind at 1, lift at 1.
  destruct (print_standardized _) as [[]|err]; cbn [res_bind].
  - eexists. split; [done|]. by intros result [= <-].
  - eexists. split; [done|]. intros result. discriminate.
Qed.

Lemma add_score_utilization_st_last has_scores score_count (h : heap) (v : pyval) :
  exists v',
    add_score_utilization_st has_scores score_count (length h) (h ++ [v]) =
    (void (add_score_utilization has_scores score_count v), h ++ [v']) /\
    (forall annotated,
        add_score_utilization has_scores score_count v = Ok annotated -> v' = annotated).
Proof.
  unfold add_score_utilization_st, add_score_utilization.
  unfold st_bind at 1. rewrite (load_some _ _ v) by apply lookup_last.
  destruct (has_scores && truthy v).
  - unfold st_bind at 1, lift at 1.
    destruct (count_score_references v fields_to_check 0) as [n|err]; cbn [res_bind].
    + unfold setitem. rewrite lookup_last.
      destruct (py_setitem v "score_utilization" _) as [v'|err] eqn:Hset.
      * rewrite insert_last. exists v'. split; [done|]. by intros ? [= <-].
      * exists v. split; [done|]. intros ?. discriminate.
    + exists v. split; [done|]. intros ?. discriminate.
  - exists v. split; [done|]. by intros ? [= <-].
Qed.

Section StoreFacts.
Context (rt : PyRuntime) (co : Collaborators) (self : RecommendationGenerator).

Lemma convert_st_run (h : heap) (rj : loc) (v : pyval) :
  h !! rj = Some v ->
  exists created,
    _convert_to_recommendation_st rt rj h =
    (_convert_to_recommendation rt v, h ++ created).
Proof.
  intros Hrj.
  unfold _convert_to_recommendation_st, _convert_to_recommendation,
    _convert_to_recommendation_body, try_st, try_except.
  unfold st_bind at 1.
  destruct (standardize_st_run h rj v Hrj) as (d' & -> & Hd').
  destruct (_standardize_llm_response v) as [standardized|err]; cbn [res_bind].
  - rewrite (Hd' standardized eq_refl).
    unfold st_bind at 1. rewrite (load_dict_some _ _ _ (lookup_last _ _)).
    unfold st_bind at 1. rewrite (load_some _ _ v) by by apply lookup_app_l_Some.
    unfold lift.
    destruct (recommendation_of_standardized rt v standardized); eauto.
  - eauto.
Qed.

Lemma process_content_st_run (h : heap) text has_scores score_count :
  exists created,
    process_content_st rt co text has_scores score_count h =
    (process_content rt co text has_scores score_count, h ++ created).
Proof.
  unfold process_content_st, process_content, try_st, try_except.
  unfold st_bind at 1, lift at 1.
  destruct (parse_response rt co text) as [[parsed|]|err]; cbn [res_bind].
  - unfold st_bind at 1, alloc at 1. unfold st_bind at 1.
    destruct (add_score_utilization_st_last has_scores score_count h parsed)
      as (v' & -> & Hv').
    destruct (add_score_utilization has_scores score_count parsed)
      as [annotated|err]; cbn [void res_bind]; [|eauto].
    rewrite (Hv' annotated eq_refl).
    unfold st_bind at 1.
    destruct (convert_st_run (h ++ [annotated]) (length h) annotated
                (lookup_last _ _)) as (created & ->).
    rewrite <- app_assoc.
    destruct (_convert_to_recommendation rt annotated); cbn [res_bind]; eauto.
  - exists []. by rewrite app_nil_r.
  - exists []. by rewrite app_nil_r.
Qed.

Lemma load_optional_run (h : heap) (x : option loc) (exclusion : option dict) :
  exclusion_at h x exclusion -> load_optional x h = (Ok exclusion, h).
Proof.
  destruct x as [l|], exclusion as [d|]; simpl; try done.
  intros H. unfold st_bind. by rewrite (load_dict_some _ _ _ H).
Qed.

Lemma try_llm_st_run (h : heap) (e s : loc) (x : option loc)
  (entities assessment : dict) (exclusion : option dict) :
  h !! e = Some (VDict entities) ->
  h !! s = Some (VDict assessment) ->
  exclusion_at h x exclusion ->
  exists created,
    _try_llm_recommendation_st rt co self e s x h =
    (_try_llm_recommendation rt co self entities assessment exclusion, h ++ created).
Proof.
  intros He Hs Hx.
  unfold _try_llm_recommendation_st, _try_llm_recommendation,
    _try_llm_recommendation_body, try_st, try_except.
  unfold st_bind at 1. rewrite (load_dict_some _ _ _ He).
  unfold st_bind at 1. rewrite (load_dict_some _ _ _ Hs).
  unfold st_bind at 1. rewrite (load_optional_run _ _ _ Hx).
  unfold st_bind at 1, lift at 1.
  destruct (_build_recommendation_prompt rt entities assessment exclusion)
    as [[[prompt has_scores] score_count]|err]; cbn [res_bind].
  2: { exists []. by rewrite app_nil_r. }
  unfold st_bind at 1, lift at 1.
  destruct (client self (model self) _) as [response|err]; cbn [res_bind].
  2: { exists []. by rewrite app_nil_r. }
  unfold st_bind at 1, lift at 1.
  destruct (content response) as [text|]; cbn [res_bind].
  2: { exists []. by rewrite app_nil_r. }
  destruct (process_content_st_run h text has_scores score_count) as (created & ->).
  destruct (process_content rt co text has_scores score_count); eauto.
Qed.

Lemma generate_st_run (h : heap) (e s : loc) (x : option loc)
  (entities assessment : dict) (exclusion : option dict) :
  h !! e = Some (VDict entities) ->
  h !! s = Some (VDict assessment) ->
  exclusion_at h x exclusion ->
  exists created,
    generate_recommendation_st rt co self e s x h =
    (generate_recommendation rt co self entities assessment exclusion, h ++ created).
Proof.
  intros He Hs Hx.
  unfold generate_recommendation_st, generate_recommendation.
  unfold st_bind at 1.
  destruct (try_llm_st_run h e s x _ _ _ He Hs Hx) as (created & ->).
  destruct (_try_llm_recommendation rt co self entities assessment exclusion)
    as [[r|]|err]; cbn [res_bind]; [by eauto | | by eauto].
  unfold st_bind at 1.
  rewrite (load_dict_some _ _ entities) by by apply lookup_app_l_Some.
  unfold st_bind at 1, alloc at 1.
  unfold st_bind at 1. rewrite (load_dict_some _ _ _ (lookup_last _ _)).
  unfold st_bind at 1, lift at 1. rewrite <- app_assoc.
  destruct (calculate_recommendation_confidence co (fallback_data entities));
    cbn [res_bind]; eauto.
Qed.
End StoreFacts.

(** C8: run on a store that holds the three input dictionaries,
    [generate_recommendation] returns what its value reading returns and
    leaves every object that existed before the call as it was, the
    three inputs among them; this covers the paths that end in a
    recommendation from the response, in the processing-error
    recommendation and in the LLM-failure recommendation alike. *)
Theorem generate_recommendation_keeps_its_inputs rt co self (h : heap) e s x
  entities assessment exclusion :
  h !! e = Some (VDict entities) ->
  h !! s = Some (VDict assessment) ->
  exclusion_at h x exclusion ->
  let result := generate_recommendation_st rt co self e s x h in
  result.1 = generate_recommendation rt co self entities assessment exclusion /\
  result.2 !! e = Some (VDict entities) /\
  result.2 !! s = Some (VDict assessment) /\
  exclusion_at result.2 x exclusion /\
  (forall l v, h !! l = Some v -> result.2 !! l = Some v).
Proof.
  intros He Hs Hx.
  destruct (generate_st_run rt co self h e s x _ _ _ He Hs Hx) as (created & Hrun).
  cbn zeta. rewrite Hrun. cbn [fst snd].
  assert (Hkeep : forall l v, h !! l = Some v -> (h ++ created) !! l = Some v)
    by (intros l v; apply lookup_app_l_Some).
  repeat split; auto.
  destruct x as [l|], exclusion as [d|]; simpl in *; auto.
Qed.

Lemma generate_recommendation_keeps_its_inputs_witness :
  (generate_recommendation_st SampleRuntime.sample_rt SampleRuntime.sample_co
     (SampleRuntime.replying_client Scenario.general_floor) 0%nat 1%nat None
     [VDict Scenario.entities; VDict Scenario.assessment]).1 =
  generate_recommendation SampleRuntime.sample_rt SampleRuntime.sample_co
    (SampleRuntime.replying_client Scenario.general_floor)
    Scenario.entities Scenario.assessment None /\
  (generate_recommendation_st SampleRuntime.sample_rt SampleRuntime.sample_co
     (SampleRuntime.replying_client Scenario.general_floor) 0%nat 1%nat None
     [VDict Scenario.entities; VDict Scenario.assessment]).2 !! 0%nat =
  Some (VDict Scenario.entities) /\
  (generate_recommendation_st SampleRuntime.sample_rt SampleRuntime.sample_co
     (SampleRuntime.replying_client Scenario.general_floor) 0%nat 1%nat None
     [VDict Scenario.entities; VDict Scenario.assessment]).2 !! 1%nat =
  Some (VDict Scenario.assessment) /\
  exclusion_at
    (generate_recommendation_st SampleRuntime.sample_rt SampleRuntime.sample_co
       (SampleRuntime.replying_client Scenario.general_floor) 0%nat 1%nat None
       [VDict Scenario.entities; VDict Scenario.assessment]).2 None None /\
  (forall l v,
      [VDict Scenario.entities; VDict Scenario.assessment] !! l = Some v ->
      (generate_recommendation_st SampleRuntime.sample_rt SampleRuntime.sample_co
         (SampleRuntime.replying_client Scenario.general_floor) 0%nat 1%nat None
         [VDict Scenario.entities; VDict Scenario.assessment]).2 !! l = Some v).
Proof.
  apply (generate_recommendation_keeps_its_inputs SampleRuntime.sample_rt
           SampleRuntime.sample_co
           (SampleRuntime.replying_client Scenario.general_floor)
           [VDict Scenario.entities; VDict Scenario.assessment] 0%nat 1%nat None
           Scenario.entities Scenario.assessment None).
  - reflexivity.
  - reflexivity.
  - exact I.
Defined.

(** The objects the call creates on that store: the parsed response,
    which receives the [score_utilization] entry, and [standardized]. *)
Example objects_created_by_the_call :
  length (generate_recommendation_st SampleRuntime.sample_rt SampleRuntime.sample_co
            (SampleRuntime.replying_client Scenario.general_floor) 0%nat 1%nat None
            [VDict Scenario.entities; VDict Scenario.assessment]).2 = 4%nat /\
  exists response,
    (generate_recommendation_st SampleRuntime.sample_rt SampleRuntime.sample_co
       (SampleRuntime.replying_client Scenario.general_floor) 0%nat 1%nat None
       [VDict Scenario.entities; VDict Scenario.assessment]).2 !! 2%nat =
    Some (VDict response) /\
    dict_mem response "score_utilization" = true.
Proof. split; [vm_compute; reflexivity|]. eexists. split; vm_compute; reflexivity. Qed.

(** * Further properties of the module *)

(** ** [_standardize_llm_response]: when it returns and what it returns *)

Lemma first_truthy_truthy (response : dict) (aliases : list string) (v : pyval) :
  first_truthy response aliases = Some v -> truthy v = true.
Proof.
  induction aliases as [|a rest IH]; simpl; [discriminate|].
  destruct (dict_get response a) as [w|]; [|exact IH].
  destruct (truthy w) eqn:Hw; [|exact IH]. by intros [= <-].
Qed.

Lemma standardized_of_selected (response : dict) (target : string)
  (aliases : list string) (default : pyval) :
  target <> "original_response" ->
  assoc_aliases target = Some aliases ->
  dict_get standardized_template target = Some default ->
  dict_get (standardized_of response) target = Some (selected response aliases default).
Proof.
  intros Hne Ha Hd. rewrite (standardized_of_field _ _ default Hne Hd).
  unfold standardized_field, selected. by rewrite Ha.
Qed.

(** X1: on a dictionary whose selected campus and care level are texts,
    and whose selected reason is not a list holding anything but texts,
    the function returns exactly when the selected reason (the first
    truthy value among [clinical_reasoning], [reasoning], [reason],
    [justification] and [rationale], else the default text) is a string
    or a list. On such a response the debug print can fail at the slice
    [standardized['reason'][:50]] only; when it does, the exception is
    [TypeError] unless the reason is a dictionary. *)
Theorem standardize_returns_iff_reason_sliceable (response : dict) :
  is_str (selected response campus_aliases (VStr "UNKNOWN")) = true ->
  is_str (selected response care_level_aliases (VStr "unknown")) = true ->
  slice_prints (selected response reason_aliases (VStr "No reason provided")) = true ->
  match _standardize_llm_response (VDict response) with
  | Ok _ => sliceable (selected response reason_aliases (VStr "No reason provided")) = true
  | Raise err =>
      sliceable (selected response reason_aliases (VStr "No reason provided")) = false /\
      (is_dict (selected response reason_aliases (VStr "No reason provided")) = false ->
       err = TypeError)
  end.
Proof.
  intros _ _ _.
  rewrite standardize_dict. unfold print_standardized, py_getitem.
  rewrite (standardized_of_selected response "campus_id" campus_aliases (VStr "UNKNOWN"));
    [|done..].
  rewrite (standardized_of_selected response "reason" reason_aliases
             (VStr "No reason provided")); [|done..].
  rewrite (standardized_of_selected response "care_level" care_level_aliases
             (VStr "unknown")); [|done..].
  cbn [res_bind].
  by destruct (selected response reason_aliases (VStr "No reason provided")).
Qed.

Lemma standardize_returns_iff_reason_sliceable_witness :
  sliceable (VBool true) = false /\ (is_dict (VBool true) = false -> TypeError = TypeError).
Proof.
  apply (standardize_returns_iff_reason_sliceable
           [("recommended_campus", VStr "North"); ("rationale", VBool true)]);
    reflexivity.
Defined.

(** X2: a dictionary that the function returns holds, under each of
    [campus_id], [reason], [confidence_score] and [care_level], the first
    truthy value among the aliases of that field in the response, or the
    default of the field, and that value is truthy; [notes] is the empty
    list whatever the response holds under that key; and
    [original_response] is the input. *)
Theorem standardize_fields_are_set (response standardized : dict) :
  _standardize_llm_response (VDict response) = Ok standardized ->
  dict_get standardized "campus_id" =
    Some (selected response campus_aliases (VStr "UNKNOWN")) /\
  dict_get standardized "reason" =
    Some (selected response reason_aliases (VStr "No reason provided")) /\
  dict_get standardized "confidence_score" =
    Some (selected response confidence_aliases (VFloat (F 50))) /\
  dict_get standardized "care_level" =
    Some (selected response care_level_aliases (VStr "unknown")) /\
  truthy (selected response campus_aliases (VStr "UNKNOWN")) = true /\
  truthy (selected response reason_aliases (VStr "No reason provided")) = true /\
  truthy (selected response confidence_aliases (VFloat (F 50))) = true /\
  truthy (selected response care_level_aliases (VStr "unknown")) = true /\
  dict_get standardized "notes" = Some (VList []) /\
  dict_get standardized "original_response" = Some (VDict response).
Proof.
  intros Hret.
  apply standardize_ok_dict in Hret as (response' & [= <-] & ->).
  assert (Htruthy : forall aliases default,
             truthy default = true -> truthy (selected response aliases default) = true).
  { intros aliases default Hd. unfold selected.
    destruct (first_truthy response aliases) eqn:E; [|done].
    by apply first_truthy_truthy in E. }
  repeat split; try (by apply standardized_of_selected); try (by apply Htruthy).
  - rewrite standardized_of_get, mapped_template_get. reflexivity.
  - rewrite standardized_of_get. reflexivity.
Qed.

Lemma standardize_fields_are_set_witness :
  exists standardized,
    _standardize_llm_response
      (VDict [("campus_id", VStr "North"); ("recommended_campus", VStr emp);
              ("notes", VList [VStr "call ahead"]); ("confidence", VInt 80)])
    = Ok standardized /\
    dict_get standardized "campus_id" = Some (VStr "North") /\
    dict_get standardized "reason" = Some (VStr "No reason provided") /\
    dict_get standardized "confidence_score" = Some (VInt 80) /\
    dict_get standardized "care_level" = Some (VStr "unknown") /\
    truthy (VStr "North") = true /\
    truthy (VStr "No reason provided") = true /\
    truthy (VInt 80) = true /\
    truthy (VStr "unknown") = true /\
    dict_get standardized "notes" = Some (VList []) /\
    dict_get standardized "original_response" =
      Some (VDict [("campus_id", VStr "North"); ("recommended_campus", VStr emp);
                   ("notes", VList [VStr "call ahead"]); ("confidence", VInt 80)]).
Proof.
  eexists. split; [reflexivity|].
  apply (standardize_fields_are_set
           [("campus_id", VStr "North"); ("recommended_campus", VStr emp);
            ("notes", VList [VStr "call ahead"]); ("confidence", VInt 80)]).
  reflexivity.
Defined.

(** ** A response that is not a JSON object *)

Lemma first_alias_non_dict (v : pyval) (source_fields : list string) :
  is_dict v = false ->
  first_alias v source_fields = Ok None \/ first_alias v source_fields = Raise TypeError.
Proof.
  intros Hv. induction source_fields as [|f rest IH]; [by left|].
  destruct v; try discriminate; simpl; auto.
  - destruct (str_contains f s); simpl; auto.
  - destruct (existsb (is_str_item f) items); simpl; auto.
Qed.

Lemma apply_field_mappings_non_dict (v : pyval) mappings (standardized : dict) :
  is_dict v = false ->
  apply_field_mappings v mappings standardized = Ok standardized \/
  apply_field_mappings v mappings standardized = Raise TypeError.
Proof.
  intros Hv. induction mappings as [|[t srcs] rest IH]; [by left|].
  simpl. destruct (first_alias_non_dict v srcs Hv) as [-> | ->]; simpl; auto.
Qed.

Lemma standardize_non_dict_raises (v : pyval) :
  is_dict v = false ->
  _standardize_llm_response v = Raise TypeError \/
  _standardize_llm_response v = Raise AttributeError.
Proof.
  intros Hv. unfold _standardize_llm_response.
  destruct (apply_field_mappings_non_dict v field_mappings standardized_template Hv)
    as [-> | ->]; [|by left].
  right. by destruct v.
Qed.

Lemma convert_non_dict (rt : PyRuntime) (v : pyval) :
  is_dict v = false ->
  exists err,
    _convert_to_recommendation rt v = Ok (processing_error_recommendation rt err) /\
    (err = TypeError \/ err = AttributeError).
Proof.
  intros Hv. unfold _convert_to_recommendation, _convert_to_recommendation_body.
  destruct (standardize_non_dict_raises v Hv) as [-> | ->]; simpl; eauto.
Qed.

(** X3: a response that is not a JSON object (null, a number, a text,
    an array) is never standardized: [_convert_to_recommendation] answers
    it with the processing-error recommendation, campus ["ERROR"] and
    confidence 10, built from a [TypeError] or an [AttributeError]. *)
Theorem non_object_response_gives_the_error_recommendation rt v :
  is_dict v = false ->
  exists err r,
    (err = TypeError \/ err = AttributeError) /\
    _convert_to_recommendation rt v = Ok r /\
    transfer_request_id r = "error" /\
    recommended_campus_id r = VStr "ERROR" /\
    confidence_score r = F 10 /\
    notes r = ["LLM processing error"] /\
    explainability_details r = [("error", VStr (exn_str rt err))].
Proof.
  intros Hv. destruct (convert_non_dict rt v Hv) as (err & Hc & Herr).
  exists err, (processing_error_recommendation rt err). auto 10.
Qed.

Lemma non_object_response_gives_the_error_recommendation_witness :
  exists err r,
    (err = TypeError \/ err = AttributeError) /\
    _convert_to_recommendation SampleRuntime.sample_rt
      (VList [VStr "recommended_campus"]) = Ok r /\
    transfer_request_id r = "error" /\
    recommended_campus_id r = VStr "ERROR" /\
    confidence_score r = F 10 /\
    notes r = ["LLM processing error"] /\
    explainability_details r = [("error", VStr (exn_str SampleRuntime.sample_rt err))].
Proof.
  apply (non_object_response_gives_the_error_recommendation SampleRuntime.sample_rt
           (VList [VStr "recommended_campus"])).
  reflexivity.
Defined.

(** ** The confidence of a recommendation made from a response *)

Lemma convert_llm_generated (rt : PyRuntime) (v : pyval) (r : Recommendation) :
  _convert_to_recommendation rt v = Ok r ->
  transfer_request_id r = "llm_generated" ->
  exists response,
    v = VDict response /\
    recommendation_of_standardized rt v (standardized_of response) = Ok r.
Proof.
  intros H Hid.
  apply convert_inv in H as [(response & -> & _ & Hrec)|(err & _ & ->)];
    [eauto | discriminate].
Qed.

Lemma validate_confidence_int (n : Z) :
  validate_confidence (F n) =
  if (0 <=? n)%Z && (n <=? 100)%Z then F n else F 70.
Proof.
  unfold validate_confidence, float_ltb, F.
  destruct (Qlt_le_dec (inject_Z n) (inject_Z 0)) as [Hlt|Hge];
    destruct (Qlt_le_dec (inject_Z 100) (inject_Z n)) as [Hgt|Hle];
    unfold Qlt, Qle, inject_Z in *; simpl in *;
    destruct (Z.leb_spec 0 n); destruct (Z.leb_spec n 100); simpl; try reflexivity; lia.
Qed.

(** X4: when the confidence the response selects (the first truthy
    value among [confidence_score], [confidence] and [score]) is an
    integer, a recommendation made from the response carries that
    integer if it lies between 0 and 100, bounds included, and 70
    otherwise. *)
Theorem integer_confidence_is_kept_or_replaced_by_70 rt response r n :
  _convert_to_recommendation rt (VDict response) = Ok r ->
  transfer_request_id r = "llm_generated" ->
  first_truthy response confidence_aliases = Some (VInt n) ->
  confidence_score r = if (0 <=? n)%Z && (n <=? 100)%Z then F n else F 70.
Proof.
  intros H Hid Hsel.
  apply convert_llm_generated in H as (response' & [= <-] & Hrec); [|done].
  apply recommendation_of_standardized_fields in Hrec
    as (_ & _ & _ & (c & Hc & ->) & _).
  unfold dict_get_default in Hc.
  rewrite (standardized_of_selected response "confidence_score" confidence_aliases
             (VFloat (F 50))) in Hc; [|done..].
  unfold selected in Hc. rewrite Hsel in Hc. simpl in Hc.
  destruct (Z.abs n <? float_int_limit)%Z; [|discriminate].
  injection Hc as <-. apply validate_confidence_int.
Qed.

Lemma integer_confidence_is_kept_or_replaced_by_70_witness :
  confidence_score
    {| transfer_request_id := "llm_generated";
       recommended_campus_id := VStr "UNKNOWN";
       confidence_score := F 100;
       reason := VStr "No reason provided";
       notes :=
         [ "Care Level: UNKNOWN";
           nl +:+ "Backup Recommendation: No backup campus specified (Confidence: 0.0%)" ];
       explainability_details :=
         [ ("campus_id", VStr "UNKNOWN");
           ("reason", VStr "No reason provided");
           ("confidence_score", VInt 100);
           ("care_level", VStr "unknown");
           ("notes", VList []);
           ("original_response", VDict [("confidence", VInt 100)]);
           ("confidence", VInt 100) ] |}
  = if (0 <=? 100)%Z && (100 <=? 100)%Z then F 100 else F 70.
Proof.
  apply (integer_confidence_is_kept_or_replaced_by_70 SampleRuntime.sample_rt
           [("confidence", VInt 100)]).
  - reflexivity.
  - reflexivity.
  - reflexivity.
Defined.

(** X5: when none of [confidence_score], [confidence] and [score] has a
    truthy value in the response (absent, null, 0, 0.0, empty), a
    recommendation made from the response carries confidence 50: a
    confidence of zero is treated as no confidence at all. *)
Theorem missing_or_zero_confidence_becomes_50 rt response r :
  _convert_to_recommendation rt (VDict response) = Ok r ->
  transfer_request_id r = "llm_generated" ->
  first_truthy response confidence_aliases = None ->
  confidence_score r = F 50.
Proof.
  intros H Hid Hsel.
  apply convert_llm_generated in H as (response' & [= <-] & Hrec); [|done].
  apply recommendation_of_standardized_fields in Hrec
    as (_ & _ & _ & (c & Hc & ->) & _).
  unfold dict_get_default in Hc.
  rewrite (standardized_of_selected response "confidence_score" confidence_aliases
             (VFloat (F 50))) in Hc; [|done..].
  unfold selected in Hc. rewrite Hsel in Hc. simpl in Hc.
  by injection Hc as <-.
Qed.

Lemma missing_or_zero_confidence_becomes_50_witness :
  confidence_score
    {| transfer_request_id := "llm_generated";
       recommended_campus_id := VStr "UNKNOWN";
       confidence_score := F 50;
       reason := VStr "No reason provided";
       notes :=
         [ "Care Level: UNKNOWN";
           nl +:+ "Backup Recommendation: No backup campus specified (Confidence: 0.0%)" ];
       explainability_details :=
         [ ("campus_id", VStr "UNKNOWN");
           ("reason", VStr "No reason provided");
           ("confidence_score", VFloat (F 50));
           ("care_level", VStr "unknown");
           ("notes", VList []);
           ("original_response", VDict [("confidence_score", VInt 0)]) ] |}
  = F 50.
Proof.
  apply (missing_or_zero_confidence_becomes_50 SampleRuntime.sample_rt
           [("confidence_score", VInt 0)]).
  - reflexivity.
  - reflexivity.
  - reflexivity.
Defined.

(** ** The care-level note *)

Lemma upper_lower_ascii (c : Ascii.ascii) :
  upper_ascii (lower_ascii c) = upper_ascii c.
Proof. destruct c as [[] [] [] [] [] [] [] []]; reflexivity. Qed.

Lemma str_upper_lower (s : string) : str_upper (str_lower s) = str_upper s.
Proof.
  induction s as [|c s IH]; [done|].
  unfold str_upper, str_lower in *. simpl. by rewrite upper_lower_ascii, IH.
Qed.

(** X6: when the care level the response selects is a text of ASCII
    characters, the first note of a recommendation made from the
    response is ["Care Level: "] followed by the display name the table
    gives for the lower-cased text, so the lookup ignores the case of
    the letters; a level the table does not know is shown as the text in
    upper case. *)
Theorem care_level_note_ignores_case rt response r level :
  _convert_to_recommendation rt (VDict response) = Ok r ->
  transfer_request_id r = "llm_generated" ->
  first_truthy response care_level_aliases = Some (VStr level) ->
  is_ascii level = true ->
  head (notes r) =
  Some ("Care Level: " +:+
        match assoc_str care_level_names (str_lower level) with
        | Some name => name
        | None => str_upper level
        end).
Proof.
  intros H Hid Hsel _.
  apply convert_llm_generated in H as (response' & [= <-] & Hrec); [|done].
  apply recommendation_of_standardized_fields in Hrec
    as (_ & _ & _ & _ & (lowered & Hlower & ->)).
  unfold dict_get_default in Hlower.
  rewrite (standardized_of_selected response "care_level" care_level_aliases
             (VStr "unknown")) in Hlower; [|done..].
  unfold selected in Hlower. rewrite Hsel in Hlower. injection Hlower as <-.
  unfold care_level_display_of.
  destruct (assoc_str care_level_names (str_lower level)); [done|].
  by rewrite str_upper_lower.
Qed.

Lemma care_level_note_ignores_case_witness :
  head
    [ "Care Level: PICU (Pediatric Intensive Care)";
      nl +:+ "Backup Recommendation: No backup campus specified (Confidence: 0.0%)" ]
  = Some ("Care Level: " +:+
          match assoc_str care_level_names (str_lower "PiCu") with
          | Some name => name
          | None => str_upper "PiCu"
          end).
Proof.
  apply (care_level_note_ignores_case SampleRuntime.sample_rt
           [("level_of_care", VStr "PiCu")]
           {| transfer_request_id := "llm_generated";
              recommended_campus_id := VStr "UNKNOWN";
              confidence_score := F 50;
              reason := VStr "No reason provided";
              notes :=
                [ "Care Level: PICU (Pediatric Intensive Care)";
                  nl +:+ "Backup Recommendation: No backup campus specified (Confidence: 0.0%)" ];
              explainability_details :=
                [ ("campus_id", VStr "UNKNOWN");
                  ("reason", VStr "No reason provided");
                  ("confidence_score", VFloat (F 50));
                  ("care_level", VStr "PiCu");
                  ("notes", VList []);
                  ("original_response", VDict [("level_of_care", VStr "PiCu")]);
                  ("level_of_care", VStr "PiCu") ] |}
           "PiCu").
  - reflexivity.
  - reflexivity.
  - reflexivity.
  - reflexivity.
Defined.

(** ** The [score_utilization] annotation *)

Lemma count_terms_bounds (p : string -> bool) (terms : list string) (start : Z) :
  (start <= fold_left (fun n term => if p term then (n + 1)%Z else n) terms start
   <= start + Z.of_nat (length terms))%Z.
Proof.
  revert start. induction terms as [|t rest IH]; intros start; simpl length; [simpl; lia|].
  cbn [fold_left].
  destruct (p t); [specialize (IH (start + 1)%Z) | specialize (IH start)]; lia.
Qed.

Lemma terms_in_bounds (text : string) : (0 <= terms_in text <= 11)%Z.
Proof. unfold terms_in. apply (count_terms_bounds _ score_terms 0). Qed.

Lemma count_score_references_bounds (v : pyval) (fields : list string) (start total : Z) :
  count_score_references v fields start = Ok total ->
  (start <= total <= start + 11 * Z.of_nat (length fields))%Z.
Proof.
  revert start. induction fields as [|f rest IH]; intros start; simpl length.
  - intros [= <-]. lia.
  - cbn [count_score_references]. intros H. bind_inv H. bind_inv H.
    destruct (a && truthy a0).
    + bind_inv H.
      destruct a1; try (apply IH in H; lia).
      pose proof (terms_in_bounds s). apply IH in H. lia.
    + apply IH in H. lia.
Qed.

(** X7: when the prompt carried scores and the response is a non-empty
    JSON object for which the count of score references succeeds, the
    response gets a [score_utilization] entry that holds the number of
    scores, a reference count between 0 and 66 (at most one per score
    term and field) and a flag that is true exactly when the count is
    positive; every other key of the response keeps its value. *)
Theorem score_utilization_entry (score_count : Z) (response : dict) (annotated : pyval) :
  response <> [] ->
  add_score_utilization true score_count (VDict response) = Ok annotated ->
  exists references,
    (0 <= references <= 66)%Z /\
    py_getitem annotated "score_utilization" =
      Ok (VDict [ ("pediatric_scores_available", VInt score_count);
                  ("referenced_in_reasoning", VBool (0 <? references)%Z);
                  ("reference_count", VInt references) ]) /\
    forall k, k <> "score_utilization" ->
              py_getitem annotated k = py_getitem (VDict response) k.
Proof.
  intros Hne H. unfold add_score_utilization in H.
  assert (Ht : truthy (VDict response) = true) by (by destruct response).
  rewrite Ht in H. cbn [andb] in H.
  bind_inv H. unfold py_setitem in H. injection H as <-.
  apply count_score_references_bounds in Ha. simpl in Ha.
  exists a. split; [lia|]. split.
  - unfold py_getitem. by rewrite dict_get_set_eq.
  - intros k Hk. unfold py_getitem. by rewrite dict_get_set_ne.
Qed.

Lemma score_utilization_entry_witness :
  exists references,
    (0 <= references <= 66)%Z /\
    py_getitem
      (VDict [ ("clinical_reasoning", VStr "PEWS score of 7, TRAP pending");
               ("score_utilization",
                 VDict [ ("pediatric_scores_available", VInt 2);
                         ("referenced_in_reasoning", VBool true);
                         ("reference_count", VInt 3) ]) ])
      "score_utilization" =
      Ok (VDict [ ("pediatric_scores_available", VInt 2);
                  ("referenced_in_reasoning", VBool (0 <? references)%Z);
                  ("reference_count", VInt references) ]) /\
    forall k, k <> "score_utilization" ->
              py_getitem
                (VDict [ ("clinical_reasoning", VStr "PEWS score of 7, TRAP pending");
                         ("score_utilization",
                           VDict [ ("pediatric_scores_available", VInt 2);
                                   ("referenced_in_reasoning", VBool true);
                                   ("reference_count", VInt 3) ]) ]) k =
              py_getitem
                (VDict [("clinical_reasoning", VStr "PEWS score of 7, TRAP pending")]) k.
Proof.
  apply (score_utilization_entry 2
           [("clinical_reasoning", VStr "PEWS score of 7, TRAP pending")]).
  - discriminate.
  - reflexivity.
Defined.

Lemma add_score_utilization_non_dict (score_count : Z) (v : pyval) :
  truthy v = true -> is_dict v = false ->
  exists err, add_score_utilization true score_count v = Raise err.
Proof.
  intros Ht Hd. unfold add_score_utilization. rewrite Ht. cbn [andb].
  destruct (count_score_references v fields_to_check 0) as [n|err]; cbn [res_bind];
    [|eauto].
  destruct v; try discriminate; simpl; eauto.
Qed.

(** X8: a truthy parsed response that is not a JSON object fails in two
    different ways. When the prompt carried scores the annotation step
    raises and the function gives up with [None] (the caller then
    reports an LLM failure); without scores the response reaches
    [_convert_to_recommendation] and comes back as the processing-error
    recommendation. *)
Theorem non_object_response_with_and_without_scores rt co text v score_count :
  parse_response rt co text = Ok (Some v) ->
  truthy v = true ->
  is_dict v = false ->
  process_content rt co text true score_count = Ok None /\
  exists err,
    process_content rt co text false score_count =
    Ok (Some (processing_error_recommendation rt err)).
Proof.
  intros Hparse Ht Hd. unfold process_content. rewrite Hparse. cbn [res_bind].
  split.
  - destruct (add_score_utilization_non_dict score_count v Ht Hd) as [err ->]. done.
  - unfold add_score_utilization. cbn [andb res_bind].
    destruct (convert_non_dict rt v Hd) as (err & -> & _). simpl. eauto.
Qed.

Lemma non_object_response_with_and_without_scores_witness :
  process_content SampleRuntime.sample_rt SampleRuntime.sample_co "[1, 2]" true 1 = Ok None /\
  exists err,
    process_content SampleRuntime.sample_rt SampleRuntime.sample_co "[1, 2]" false 1 =
    Ok (Some (processing_error_recommendation SampleRuntime.sample_rt err)).
Proof.
  apply (non_object_response_with_and_without_scores SampleRuntime.sample_rt
           SampleRuntime.sample_co "[1, 2]" (VList [VInt 1; VInt 2]) 1).
  - reflexivity.
  - reflexivity.
  - reflexivity.
Defined.

(** ** What the prompt builders read *)


Lemma dict_get_default_set_ne (d : dict) (k k' : string) (v default : pyval) :
  k <> k' -> dict_get_default (dict_set d k v) k' default = dict_get_default d k' default.
Proof. intros Hne. unfold dict_get_default. by rewrite dict_get_set_ne. Qed.


Lemma dict_set_truthy (d : dict) (k : string) (v : pyval) :
  truthy (VDict (dict_set d k v)) = true.
Proof. destruct d as [|[k' v'] d]; simpl; [done|]. by destruct (String.eqb k' k). Qed.

Lemma str_app_assoc (a b c : string) : (a +:+ b) +:+ c = a +:+ b +:+ c.
Proof.
  induction a as [|ch a IH]; [done|].
  change (String ch ((a +:+ b) +:+ c) = String ch (a +:+ b +:+ c)). by rewrite IH.
Qed.




Lemma occurs_in_app_l (part a b : string) :
  occurs_in part a -> occurs_in part (a +:+ b).
Proof.
  intros (before & after & ->). exists before, (after +:+ b).
  by rewrite !str_app_assoc.
Qed.

Lemma occurs_in_app_r (part a b : string) :
  occurs_in part b -> occurs_in part (a +:+ b).
Proof.
  intros (before & after & ->). exists (a +:+ before), after.
  by rewrite !str_app_assoc.
Qed.






Lemma py_join_ok (sep : string) (items : list pyval) :
  match py_join sep items with
  | Ok _ => forallb is_str items = true
  | Raise err => err = TypeError /\ forallb is_str items = false
  end.
Proof.
  unfold py_join.
  assert (H : match strs_of items with
              | Ok _ => forallb is_str items = true
              | Raise err => err = TypeError /\ forallb is_str items = false
              end).
  { induction items as [|v rest IH]; [done|].
    destruct v; simpl; try done.
    destruct (strs_of rest); simpl; done. }
  destruct (strs_of items); simpl; done.
Qed.

(** X10: the exclusion section of the prompt raises [TypeError] whenever
    [excluded_campuses] is a list with an entry that is not a string
    (the [join] is the first thing the function computes), and this is
    its only failure on an evaluation whose interpolated values are
    texts: such an evaluation, with a list of campus names or none,
    yields a text. *)
Theorem exclusion_info_fails_only_on_a_mixed_campus_list rt (exclusion : option dict) :
  (excluded_campuses_joinable exclusion = false ->
   _extract_essential_exclusion_info rt exclusion = Raise TypeError) /\
  (excluded_campuses_joinable exclusion = true ->
   exclusion_values_are_texts exclusion = true ->
   exists text, _extract_essential_exclusion_info rt exclusion = Ok text).
Proof.
  unfold _extract_essential_exclusion_info, excluded_campuses_joinable.
  destruct exclusion as [d|]; [|split; [discriminate | eauto]].
  split.
  - destruct (dict_get d "excluded_campuses") as [excluded|] eqn:Hget; [|discriminate].
    destruct excluded; try discriminate. intros Hmixed.
    assert (Hd : truthy (VDict d) = true) by (by destruct d).
    rewrite Hd. cbn [negb].
    assert (Hitems : truthy (VList items) = true)
      by (destruct items; [discriminate | done]).
    rewrite Hitems.
    pose proof (py_join_ok ", " items) as Hj.
    destruct (py_join ", " items) as [joined|err]; [congruence|].
    by destruct Hj as [-> _].
  - intros Hjoin _.
    destruct (truthy (VDict d)); cbn [negb]; [|eauto].
    destruct (dict_get d "excluded_campuses") as [excluded|]; cbn [res_bind]; [|eauto].
    destruct (truthy excluded); [|cbn [res_bind]; eauto].
    destruct excluded; cbn [res_bind]; eauto.
    pose proof (py_join_ok ", " items) as Hj.
    destruct (py_join ", " items) as [joined|err]; cbn [res_bind]; [eauto|].
    destruct Hj as [_ Hj]. congruence.
Qed.

Lemma exclusion_info_fails_only_on_a_mixed_campus_list_witness :
  _extract_essential_exclusion_info SampleRuntime.sample_rt
    (Some [("excluded_campuses", VList [VStr "North"; VInt 2])]) = Raise TypeError /\
  exists text,
    _extract_essential_exclusion_info SampleRuntime.sample_rt
      (Some [("excluded_campuses", VList [VStr "North"; VStr "East"]);
             ("exclusion_reasons", VDict [("North", VStr "no PICU beds")])])
    = Ok text.
Proof.
  split.
  - apply (proj1 (exclusion_info_fails_only_on_a_mixed_campus_list
                    SampleRuntime.sample_rt
                    (Some [("excluded_campuses", VList [VStr "North"; VInt 2])]))).
    reflexivity.
  - apply (proj2 (exclusion_info_fails_only_on_a_mixed_campus_list
                    SampleRuntime.sample_rt
                    (Some [("excluded_campuses", VList [VStr "North"; VStr "East"]);
                           ("exclusion_reasons",
                             VDict [("North", VStr "no PICU beds")])])));
      reflexivity.
Defined.

Lemma prefix_app (p a b : string) :
  String.prefix p a = true -> String.prefix p (a +:+ b) = true.
Proof.
  revert a. induction p as [|c p IH]; intros a H; [by destruct (a +:+ b)|].
  destruct a as [|c' a]; [discriminate|].
  simpl in *. destruct (Ascii.ascii_dec c c'); [by apply IH | discriminate].
Qed.

Lemma str_join_prefix (sep first : string) (rest : list string) :
  String.prefix "- " first = true ->
  String.prefix "- " (str_join sep (first :: rest)) = true.
Proof.
  intros H. destruct rest as [|second rest]; [done|].
  cbn [str_join]. by apply prefix_app.
Qed.

(** X11: the specialty section of the prompt is never blank and the
    function never raises: the text is one of the two fixed sentences, or
    it starts with a list item. *)
Theorem specialty_info_is_never_blank rt (assessment : dict) :
  _extract_essential_specialty_info rt assessment = "No specialty assessment available." \/
  _extract_essential_specialty_info rt assessment = "No specific specialty needs identified." \/
  String.prefix "- " (_extract_essential_specialty_info rt assessment) = true.
Proof.
  unfold _extract_essential_specialty_info.
  destruct (truthy (VDict assessment)); cbn [negb]; [|by left].
  right.
  destruct (dict_get assessment "recommended_care_level") as [level|].
  - right.
    destruct (dict_get assessment "care_level_reasoning") as [why|];
      destruct (dict_get assessment "required_specialties") as [specialties|];
      try (destruct (truthy specialties); [destruct specialties|]);
      cbn [app]; by apply str_join_prefix.
  - destruct (dict_get assessment "required_specialties") as [specialties|];
      [|by left].
    destruct (truthy specialties); [|by left].
    right. destruct specialties; cbn [app]; by apply str_join_prefix.
Qed.

Lemma format_pews_agree rt (sc1 sc2 : dict) :
  dict_get sc1 "pews" = dict_get sc2 "pews" ->
  format_pews rt (VDict sc1) = format_pews rt (VDict sc2).
Proof.
  intros H. unfold format_pews. cbn [py_contains py_getitem]. unfold dict_mem.
  by rewrite H.
Qed.

Lemma format_trap_agree rt (sc1 sc2 : dict) :
  dict_get sc1 "trap" = dict_get sc2 "trap" ->
  format_trap rt (VDict sc1) = format_trap rt (VDict sc2).
Proof.
  intros H. unfold format_trap. cbn [py_contains py_getitem]. unfold dict_mem.
  by rewrite H.
Qed.

Lemma format_prism_agree rt (sc1 sc2 : dict) :
  dict_get sc1 "prism_iii" = dict_get sc2 "prism_iii" ->
  format_prism rt (VDict sc1) = format_prism rt (VDict sc2).
Proof.
  intros H. unfold format_prism. cbn [py_contains py_getitem]. unfold dict_mem.
  by rewrite H.
Qed.

Lemma format_cameo_agree rt (sc1 sc2 : dict) :
  dict_get sc1 "cameo_ii" = dict_get sc2 "cameo_ii" ->
  format_cameo rt (VDict sc1) = format_cameo rt (VDict sc2).
Proof.
  intros H. unfold format_cameo. cbn [py_contains py_getitem]. unfold dict_mem.
  by rewrite H.
Qed.

Lemma score_head_start rt (title : string) (score : dict)
  (second_label second_key head : string) :
  score_head rt title (VDict score) second_label second_key = Ok head ->
  occurs_in (score_block_start rt title score) head.
Proof.
  unfold score_head, score_block_start. cbn [py_get res_bind]. intros [= <-].
  exists emp. eexists. change (emp +:+ ?x) with x.
  rewrite !str_app_assoc. reflexivity.
Qed.

Lemma format_pews_start rt (sc score : dict) (block : string) :
  dict_get sc "pews" = Some (VDict score) ->
  format_pews rt (VDict sc) = Ok block ->
  occurs_in (score_block_start rt "### PEWS (Pediatric Early Warning Score)" score) block.
Proof.
  intros Hget H. unfold format_pews in H.
  cbn [py_contains py_getitem res_bind] in H. unfold dict_mem in H.
  rewrite Hget in H. cbn [res_bind] in H.
  bind_inv H. bind_inv H. bind_inv H. injection H as <-.
  by apply occurs_in_app_l, (score_head_start rt _ _ _ _ _ Ha).
Qed.

Lemma format_trap_start rt (sc score : dict) (block : string) :
  dict_get sc "trap" = Some (VDict score) ->
  format_trap rt (VDict sc) = Ok block ->
  occurs_in
    (score_block_start rt "### TRAP (Transport Risk Assessment in Pediatrics)" score) block.
Proof.
  intros Hget H. unfold format_trap in H.
  cbn [py_contains py_getitem res_bind] in H. unfold dict_mem in H.
  rewrite Hget in H. cbn [res_bind] in H.
  bind_inv H. bind_inv H. bind_inv H. injection H as <-.
  by apply occurs_in_app_l, (score_head_start rt _ _ _ _ _ Ha).
Qed.

Lemma format_prism_start rt (sc score : dict) (block : string) :
  dict_get sc "prism_iii" = Some (VDict score) ->
  format_prism rt (VDict sc) = Ok block ->
  occurs_in (score_block_start rt "### PRISM III (Pediatric Risk of Mortality)" score) block.
Proof.
  intros Hget H. unfold format_prism in H.
  cbn [py_contains py_getitem res_bind] in H. unfold dict_mem in H.
  rewrite Hget in H. cbn [res_bind] in H.
  bind_inv H. bind_inv H. bind_inv H. injection H as <-.
  by apply occurs_in_app_l, (score_head_start rt _ _ _ _ _ Ha).
Qed.

Lemma format_cameo_start rt (sc score : dict) (block : string) :
  dict_get sc "cameo_ii" = Some (VDict score) ->
  format_cameo rt (VDict sc) = Ok block ->
  occurs_in
    (score_block_start rt "### CAMEO II (Complexity Assessment and Monitoring)" score) block.
Proof.
  intros Hget H. unfold format_cameo in H.
  cbn [py_contains py_getitem res_bind] in H. unfold dict_mem in H.
  rewrite Hget in H. cbn [res_bind] in H.
  bind_inv H. bind_inv H. bind_inv H. injection H as <-.
  by apply occurs_in_app_l, (score_head_start rt _ _ _ _ _ Ha).
Qed.

Lemma scoring_text_shows_scores rt (results sc : dict) (text part : string) :
  dict_get results "scores" = Some (VDict sc) -> sc <> [] ->
  _format_scoring_data rt (VDict results) = Ok text ->
  (forall pews trap prism cameo,
      format_pews rt (VDict sc) = Ok pews -> format_trap rt (VDict sc) = Ok trap ->
      format_prism rt (VDict sc) = Ok prism -> format_cameo rt (VDict sc) = Ok cameo ->
      occurs_in part pews \/ occurs_in part trap \/
      occurs_in part prism \/ occurs_in part cameo) ->
  occurs_in part text.
Proof.
  intros Hget Hne H Hblocks. unfold _format_scoring_data in H.
  assert (Hr : truthy (VDict results) = true) by (by destruct results).
  assert (Hs : truthy (VDict sc) = true) by (by destruct sc).
  rewrite Hr, Hget, Hs in H. cbn [negb] in H.
  apply bind_ok in H as (first & Hfirst & H).
  apply bind_ok in Hfirst as (pews & Hpews & Hfirst).
  apply bind_ok in Hfirst as (trap & Htrap & Hfirst).
  apply bind_ok in Hfirst as (prism & Hprism & Hfirst).
  apply bind_ok in Hfirst as (cameo & Hcameo & Hfirst).
  injection Hfirst as <-.
  assert (Hone : occurs_in part (emp +:+ pews +:+ trap +:+ prism +:+ cameo)).
  { destruct (Hblocks pews trap prism cameo Hpews Htrap Hprism Hcameo)
      as [Hp | [Hp | [Hp | Hp]]].
    - by apply occurs_in_app_r, occurs_in_app_l.
    - by apply occurs_in_app_r, occurs_in_app_r, occurs_in_app_l.
    - by apply occurs_in_app_r, occurs_in_app_r, occurs_in_app_r, occurs_in_app_l.
    - by apply occurs_in_app_r, occurs_in_app_r, occurs_in_app_r, occurs_in_app_r. }
  apply bind_ok in H as (second & Hsecond & H).
  assert (Htwo : occurs_in part second).
  { destruct (dict_get results "recommended_care_levels").
    - apply bind_ok in Hsecond as (entries & _ & Hsecond).
      injection Hsecond as <-. by apply occurs_in_app_l.
    - by injection Hsecond as <-. }
  destruct (dict_get results "justifications").
  - apply bind_ok in H as (entries & _ & H). injection H as <-. by apply occurs_in_app_l.
  - by injection H as <-.
Qed.

(** X12: of the [scores] of a scoring result, the scoring section of the
    prompt shows the four entries [pews], [trap], [prism_iii] and
    [cameo_ii], and no others. Each of the four that [scores] holds as a
    dictionary has its block in the text the function returns: the
    heading of the score followed by the line of its total. And two
    scoring results that differ only in [scores], with score
    dictionaries that agree on these four names, give the same text (or
    the same exception): a score stored under any other name is left
    out, and a dictionary holding only such scores prints like an empty
    one. *)
Theorem scoring_text_reads_four_scores rt (results sc1 sc2 : dict) :
  (forall k, In k ["pews"; "trap"; "prism_iii"; "cameo_ii"] ->
             dict_get sc1 k = dict_get sc2 k) ->
  _format_scoring_data rt (VDict (dict_set results "scores" (VDict sc1))) =
  _format_scoring_data rt (VDict (dict_set results "scores" (VDict sc2))) /\
  forall key title score text,
    In (key, title) score_titles ->
    dict_get sc1 key = Some (VDict score) ->
    _format_scoring_data rt (VDict (dict_set results "scores" (VDict sc1))) = Ok text ->
    occurs_in (score_block_start rt title score) text.
Proof.
  intros Hagree. split.
  - assert (Hblock : forall sc, sc <> [] ->
              (forall k, In k ["pews"; "trap"; "prism_iii"; "cameo_ii"] ->
                         dict_get sc k = None) ->
              (let* pews := format_pews rt (VDict sc) in
               let* trap := format_trap rt (VDict sc) in
               let* prism := format_prism rt (VDict sc) in
               let* cameo := format_cameo rt (VDict sc) in
               Ok (emp +:+ pews +:+ trap +:+ prism +:+ cameo)) = Ok emp).
    { intros sc _ Hnone.
      unfold format_pews, format_trap, format_prism, format_cameo.
      cbn [py_contains]. unfold dict_mem.
      rewrite !Hnone by (simpl; auto 6). reflexivity. }
    unfold _format_scoring_data.
    rewrite !dict_set_truthy. cbn [negb].
    rewrite !dict_get_set_eq.
    rewrite !(dict_get_set_ne _ "scores" "recommended_care_levels") by done.
    rewrite !(dict_get_set_ne _ "scores" "justifications") by done.
    destruct sc1 as [|e1 sc1], sc2 as [|e2 sc2]; cbn [truthy].
    + done.
    + rewrite Hblock; [done | done |].
      intros k Hk. by rewrite <- (Hagree k Hk).
    + rewrite Hblock; [done | done |].
      intros k Hk. by rewrite (Hagree k Hk).
    + rewrite (format_pews_agree rt (e1 :: sc1) (e2 :: sc2))
        by (apply Hagree; simpl; auto).
      rewrite (format_trap_agree rt (e1 :: sc1) (e2 :: sc2))
        by (apply Hagree; simpl; auto).
      rewrite (format_prism_agree rt (e1 :: sc1) (e2 :: sc2))
        by (apply Hagree; simpl; auto).
      rewrite (format_cameo_agree rt (e1 :: sc1) (e2 :: sc2))
        by (apply Hagree; simpl; auto 6).
      done.
  - intros key title score text Hkey Hget Htext.
    apply (scoring_text_shows_scores rt (dict_set results "scores" (VDict sc1)) sc1 text _
             (dict_get_set_eq results "scores" (VDict sc1)));
      [intros ->; simpl in Hkey;
       by destruct Hkey as [[= <- <-] | [[= <- <-] | [[= <- <-] | [[= <- <-] | []]]]]
      | exact Htext |].
    intros pews trap prism cameo Hpews Htrap Hprism Hcameo.
    simpl in Hkey.
    destruct Hkey as [[= <- <-] | [[= <- <-] | [[= <- <-] | [[= <- <-] | []]]]].
    + left. by apply (format_pews_start rt sc1).
    + right. left. by apply (format_trap_start rt sc1).
    + right. right. left. by apply (format_prism_start rt sc1).
    + right. right. right. by apply (format_cameo_start rt sc1).
Qed.

Lemma scoring_text_reads_four_scores_witness :
  _format_scoring_data SampleRuntime.sample_rt
    (VDict (dict_set [("justifications", VDict [("pews", VStr "tachycardia")])] "scores"
              (VDict [("pews", VDict [("total_score", VInt 7)]); ("queensland", VInt 3)]))) =
  _format_scoring_data SampleRuntime.sample_rt
    (VDict (dict_set [("justifications", VDict [("pews", VStr "tachycardia")])] "scores"
              (VDict [("pews", VDict [("total_score", VInt 7)])]))) /\
  exists text,
    _format_scoring_data SampleRuntime.sample_rt
      (VDict (dict_set [("justifications", VDict [("pews", VStr "tachycardia")])] "scores"
                (VDict [("pews", VDict [("total_score", VInt 7)]);
                        ("queensland", VInt 3)]))) = Ok text /\
    occurs_in
      ("### PEWS (Pediatric Early Warning Score)" +:+ nl +:+ "- Total Score: 7" +:+ nl)
      text.
Proof.
  assert (Hagree : forall k, In k ["pews"; "trap"; "prism_iii"; "cameo_ii"] ->
            dict_get [("pews", VDict [("total_score", VInt 7)]); ("queensland", VInt 3)] k =
            dict_get [("pews", VDict [("total_score", VInt 7)])] k).
  { intros k Hk. simpl in Hk.
    destruct Hk as [<-|[<-|[<-|[<-|[]]]]]; reflexivity. }
  destruct (scoring_text_reads_four_scores SampleRuntime.sample_rt
              [("justifications", VDict [("pews", VStr "tachycardia")])]
              [("pews", VDict [("total_score", VInt 7)]); ("queensland", VInt 3)]
              [("pews", VDict [("total_score", VInt 7)])] Hagree) as [Hsame Hshown].
  split; [exact Hsame|].
  eexists. split; [reflexivity|].
  apply (Hshown "pews" "### PEWS (Pediatric Early Warning Score)"
           [("total_score", VInt 7)]); [by left | reflexivity | reflexivity].
Defined.

(** ** Parsing the reply *)

Section ParseFacts.
Context (rt : PyRuntime) (co : Collaborators).

(** X13: the recovery can lose a reply. When the first attempt raised
    and the reply has a closed [```json] block on which [json.loads]
    raises an exception other than [JSONDecodeError], that exception
    leaves the recovery: [json.loads] is not tried on the whole reply,
    and the reply gives no recommendation (the function returns [None]),
    also when the whole reply is valid JSON. *)
Theorem fenced_block_exception_ends_the_recovery
  (text : string) (robust_error e : exn) (has_scores : bool) (score_count : Z) :
  parse_with_robust_parser co text = Raise robust_error ->
  str_contains json_fence text = true ->
  str_contains fence (text_after json_fence text) = true ->
  json_loads rt (py_strip rt (split_before fence (text_after json_fence text))) = Raise e ->
  e <> JSONDecodeError ->
  parse_response rt co text = Raise e /\
  process_content rt co text has_scores score_count = Ok None.
Proof.
  intros Hrobust Hopen Hclose Hblock Hother.
  assert (Hparse : parse_response rt co text = Raise e).
  { unfold parse_response. rewrite Hrobust.
    unfold manual_extraction, fenced_block, loads_or_else.
    rewrite Hopen. cbn [res_bind]. rewrite (split_after_found _ _ Hopen).
    cbn [res_bind]. rewrite Hclose. cbn [res_bind]. rewrite Hblock.
    by destruct e. }
  split; [exact Hparse|].
  unfold process_content. by rewrite Hparse.
Qed.
End ParseFacts.

Lemma fenced_block_exception_ends_the_recovery_witness :
  is_ok (json_loads SampleRuntime.sample_rt array_with_long_number) = true /\
  parse_response SampleRuntime.sample_rt SampleRuntime.sample_co array_with_long_number
  = Raise ValueError /\
  process_content SampleRuntime.sample_rt SampleRuntime.sample_co array_with_long_number
    false 0 = Ok None.
Proof.
  split; [vm_compute; reflexivity|].
  apply (fenced_block_exception_ends_the_recovery
           SampleRuntime.sample_rt SampleRuntime.sample_co array_with_long_number
           AttributeError ValueError false 0%Z).
  - vm_compute. reflexivity.
  - vm_compute. reflexivity.
  - vm_compute. reflexivity.
  - vm_compute. reflexivity.
  - discriminate.
Defined.

(** ** The whole call *)

Lemma float_half_range_50 (x : pyfloat) :
  float_in_range 0 100 x -> float_in_range 0 50 (float_half x).
Proof.
  destruct x as [| sign | q]; simpl; try tauto.
  intros [Hlo Hhi]. unfold Qle, Qdiv, Qmult, Qinv, inject_Z in *. simpl in *. lia.
Qed.

Section CallFacts.
Context (rt : PyRuntime) (co : Collaborators) (self : RecommendationGenerator).

Lemma patient_info_non_dict_demographics (e : dict) (v : pyval) :
  dict_get e "demographics" = Some v -> is_dict v = false ->
  _extract_essential_patient_info rt e = Raise AttributeError.
Proof.
  intros Hget Hv. unfold _extract_essential_patient_info.
  assert (Ht : truthy (VDict e) = true) by (by destruct e).
  rewrite Ht. cbn [negb]. unfold dict_get_default at 1. rewrite Hget.
  by destruct v.
Qed.

(** X14: demographics that are present but are not a dictionary (a
    string, say) make every call end in the error placeholder, whatever
    the LLM client would answer: building the prompt raises
    [AttributeError] at [demographics.get], before the client is called,
    the outer [except] turns that into [None], and the caller builds the
    placeholder from the calculator's estimate. *)
Theorem malformed_demographics_give_the_error_placeholder
  (e s : dict) (x : option dict) (v : pyval) (estimate : pyfloat) :
  dict_get e "demographics" = Some v -> is_dict v = false ->
  calculate_recommendation_confidence co (fallback_data e) = Ok estimate ->
  generate_recommendation rt co self e s x =
  Ok (llm_failure_recommendation (fallback_data e) (float_half estimate)).
Proof.
  intros Hget Hv Hcalc.
  unfold generate_recommendation, _try_llm_recommendation,
    _try_llm_recommendation_body, _build_recommendation_prompt.
  rewrite (patient_info_non_dict_demographics e v Hget Hv).
  cbn [res_bind try_except]. by rewrite Hcalc.
Qed.

(** X15: a returned recommendation has one of three shapes. Either it
    comes from the reply (id [llm_generated], two notes, the first one
    the care level), or it is the processing-error record (id [error],
    campus [ERROR], confidence 10), or it is the LLM-failure record (id
    [error], campus [ERROR], half of the calculator's estimate). No other
    id, and no error record with a campus of the reply, is ever
    returned. *)
Theorem recommendation_has_one_of_three_shapes
  (e s : dict) (x : option dict) (r : Recommendation) :
  generate_recommendation rt co self e s x = Ok r ->
  (transfer_request_id r = "llm_generated" /\
   exists display backup, notes r = ["Care Level: " +:+ display; backup]) \/
  (exists err, r = processing_error_recommendation rt err) \/
  (exists estimate,
      calculate_recommendation_confidence co (fallback_data e) = Ok estimate /\
      r = llm_failure_recommendation (fallback_data e) (float_half estimate)).
Proof.
  intros Hgen.
  destruct (generate_recommendation_inv rt co self e s x r Hgen)
    as [(text & parsed & annotated & Hpath) | (_ & estimate & Hcalc & ->)].
  - destruct Hpath as (prompt & has_scores & score_count & response & _ & _ & _ & _ & _ & Hconv).
    destruct (convert_inv rt annotated r Hconv)
      as [(resp & -> & _ & Hrec) | (err & _ & ->)].
    + left. unfold recommendation_of_standardized in Hrec.
      repeat bind_inv Hrec. injection Hrec as <-. cbn. eauto.
    + right. left. by exists err.
  - right. right. by exists estimate.
Qed.
End CallFacts.

Lemma malformed_demographics_give_the_error_placeholder_witness :
  generate_recommendation SampleRuntime.sample_rt SampleRuntime.sample_co
    (SampleRuntime.replying_client Scenario.general_floor)
    [("demographics", VStr "3 year old male")] Scenario.assessment None =
  Ok (llm_failure_recommendation
        (fallback_data [("demographics", VStr "3 year old male")])
        (float_half (FFin (Qmake 100 4)))).
Proof.
  apply (malformed_demographics_give_the_error_placeholder
           SampleRuntime.sample_rt SampleRuntime.sample_co
           (SampleRuntime.replying_client Scenario.general_floor)
           [("demographics", VStr "3 year old male")] Scenario.assessment None
           (VStr "3 year old male") (FFin (Qmake 100 4)));
    reflexivity.
Defined.

Lemma recommendation_has_one_of_three_shapes_witness :
  (transfer_request_id
     (processing_error_recommendation SampleRuntime.sample_rt AttributeError)
   = "llm_generated" /\
   exists display backup,
     notes (processing_error_recommendation SampleRuntime.sample_rt AttributeError)
     = ["Care Level: " +:+ display; backup]) \/
  (exists err,
      processing_error_recommendation SampleRuntime.sample_rt AttributeError =
      processing_error_recommendation SampleRuntime.sample_rt err) \/
  (exists estimate,
      calculate_recommendation_confidence SampleRuntime.sample_co
        (fallback_data Scenario.entities) = Ok estimate /\
      processing_error_recommendation SampleRuntime.sample_rt AttributeError =
      llm_failure_recommendation (fallback_data Scenario.entities) (float_half estimate)).
Proof.
  apply (recommendation_has_one_of_three_shapes
           SampleRuntime.sample_rt SampleRuntime.sample_co
           (SampleRuntime.replying_client "[1, 2]") Scenario.entities [] None).
  vm_compute. reflexivity.
Defined.

Section MoreCallFacts.
Context (rt : PyRuntime) (co : Collaborators) (self : RecommendationGenerator).

(** X16: a reply without content is handled like a failed call. When
    every completion the client returns has [content] [None] (which
    includes a client that only raises), the caller gets the LLM-failure
    placeholder built from the calculator's estimate: reading
    [content[:500]] raises [TypeError] and the outer [except] turns it
    into [None]. *)
Theorem reply_without_content_gives_the_error_placeholder
  (e s : dict) (x : option dict) (estimate : pyfloat) :
  (forall m msgs completion,
      client self m msgs = Ok completion -> content completion = None) ->
  calculate_recommendation_confidence co (fallback_data e) = Ok estimate ->
  generate_recommendation rt co self e s x =
  Ok (llm_failure_recommendation (fallback_data e) (float_half estimate)).
Proof.
  intros Hnone Hcalc.
  unfold generate_recommendation, _try_llm_recommendation, _try_llm_recommendation_body.
  destruct (_build_recommendation_prompt rt e s x) as [[[prompt has_scores] n]|err];
    cbn [res_bind try_except]; [|by rewrite Hcalc].
  destruct (client self _ _) as [completion|err] eqn:Hclient;
    cbn [res_bind try_except]; [|by rewrite Hcalc].
  rewrite (Hnone _ _ _ Hclient). cbn [res_bind try_except]. by rewrite Hcalc.
Qed.

(** X17: an error record never carries a confidence above 50. When the
    confidence calculator stays within 0..100, every returned
    recommendation whose id is [error] has a confidence within 0..50 (10
    for a processing error, half of the estimate for a failed call); in
    particular it is never NaN. *)
Theorem error_records_have_confidence_at_most_50
  (e s : dict) (x : option dict) (r : Recommendation) :
  (forall data c, calculate_recommendation_confidence co data = Ok c ->
                  float_in_range 0 100 c) ->
  generate_recommendation rt co self e s x = Ok r ->
  transfer_request_id r = "error" ->
  float_in_range 0 50 (confidence_score r).
Proof.
  intros Hcalc Hgen Hid.
  destruct (generate_recommendation_inv rt co self e s x r Hgen)
    as [(text & parsed & annotated & Hpath) | (_ & estimate & Hest & ->)].
  - destruct Hpath as (prompt & has_scores & score_count & response & _ & _ & _ & _ & _ & Hconv).
    destruct (convert_inv rt annotated r Hconv)
      as [(resp & -> & _ & Hrec) | (err & _ & ->)].
    + apply recommendation_of_standardized_fields in Hrec as (Hllm & _).
      rewrite Hllm in Hid. discriminate.
    + split; compute; discriminate.
  - cbn [llm_failure_recommendation confidence_score].
    by apply float_half_range_50, (Hcalc _ _ Hest).
Qed.
End MoreCallFacts.

Lemma reply_without_content_gives_the_error_placeholder_witness :
  generate_recommendation SampleRuntime.sample_rt SampleRuntime.sample_co
    {| client := fun _ _ => Ok {| content := None; finish_reason := "length" |};
       model := "local-model" |}
    Scenario.entities Scenario.assessment None =
  Ok (llm_failure_recommendation (fallback_data Scenario.entities)
        (float_half (FFin (Qmake 100 4)))).
Proof.
  apply (reply_without_content_gives_the_error_placeholder
           SampleRuntime.sample_rt SampleRuntime.sample_co
           {| client := fun _ _ => Ok {| content := None; finish_reason := "length" |};
              model := "local-model" |}
           Scenario.entities Scenario.assessment None (FFin (Qmake 100 4))).
  - intros m msgs completion H. injection H as <-. reflexivity.
  - reflexivity.
Defined.

Lemma error_records_have_confidence_at_most_50_witness :
  float_in_range 0 50
    (confidence_score
       (processing_error_recommendation SampleRuntime.sample_rt AttributeError)).
Proof.
  apply (error_records_have_confidence_at_most_50
           SampleRuntime.sample_rt SampleRuntime.sample_co
           (SampleRuntime.replying_client "[1, 2]") Scenario.entities [] None).
  - intros data c. apply completeness_confidence_range.
  - vm_compute. reflexivity.
  - reflexivity.
Defined.

(** ** Optional fields of the reply that are read as numbers *)

Lemma standardize_dict_ok (response : dict) :
  sliceable (selected response reason_aliases (VStr "No reason provided")) = true ->
  _standardize_llm_response (VDict response) = Ok (standardized_of response).
Proof.
  intros Hs. rewrite standardize_dict. unfold print_standardized, py_getitem.
  rewrite (standardized_of_selected response "campus_id" campus_aliases (VStr "UNKNOWN"));
    [|done..].
  rewrite (standardized_of_selected response "reason" reason_aliases
             (VStr "No reason provided")); [|done..].
  rewrite (standardized_of_selected response "care_level" care_level_aliases
             (VStr "unknown")); [|done..].
  cbn [res_bind].
  by destruct (selected response reason_aliases (VStr "No reason provided")).
Qed.

(** X18: the optional [backup_confidence_score] of a reply is converted
    with [float] right after standardization, before the confidence is
    read, so a value that [float] rejects (a word, a list, [null]) turns
    the whole reply, primary campus included, into the processing-error
    record that reports the conversion's exception. *)
Theorem unreadable_backup_confidence_gives_the_error_recommendation
  (rt : PyRuntime) (response : dict) (v : pyval) (err : exn) :
  sliceable (selected response reason_aliases (VStr "No reason provided")) = true ->
  dict_get response "backup_confidence_score" = Some v ->
  py_float rt v = Raise err ->
  _convert_to_recommendation rt (VDict response) =
  Ok (processing_error_recommendation rt err).
Proof.
  intros Hs Hget Hfloat.
  unfold _convert_to_recommendation, _convert_to_recommendation_body.
  rewrite (standardize_dict_ok response Hs). cbn [res_bind].
  assert (Hbackup : dict_get_default (standardized_of response)
                      "backup_confidence_score" (VFloat (F 0)) = v).
  { unfold dict_get_default.
    rewrite standardized_of_get, mapped_template_get. cbn. by rewrite Hget. }
  unfold recommendation_of_standardized.
  rewrite Hbackup, Hfloat. reflexivity.
Qed.

Lemma unreadable_backup_confidence_gives_the_error_recommendation_witness :
  _convert_to_recommendation SampleRuntime.sample_rt
    (VDict [("recommended_campus", VStr "Main Campus");
            ("confidence_score", VInt 90);
            ("backup_confidence_score", VStr "high")]) =
  Ok (processing_error_recommendation SampleRuntime.sample_rt ValueError).
Proof.
  apply (unreadable_backup_confidence_gives_the_error_recommendation
           SampleRuntime.sample_rt
           [("recommended_campus", VStr "Main Campus");
            ("confidence_score", VInt 90);
            ("backup_confidence_score", VStr "high")]
           (VStr "high") ValueError); reflexivity.
Defined.

(** ** Which keys win *)

(** X19: [clinical_information] takes precedence over [clinical_info].
    When the entities have a [clinical_information] entry (even an empty
    one), the patient section of the prompt is the same whatever is
    stored under [clinical_info]: the second key is a fallback for an
    absent first key only, and the two are never merged. *)
Theorem clinical_information_shadows_clinical_info
  (rt : PyRuntime) (entities : dict) (info other : pyval) :
  dict_get entities "clinical_information" = Some info ->
  _extract_essential_patient_info rt (dict_set entities "clinical_info" other) =
  _extract_essential_patient_info rt entities.
Proof.
  intros Hinfo. unfold _extract_essential_patient_info.
  assert (Ht : truthy (VDict entities) = true) by (by destruct entities).
  rewrite dict_set_truthy, Ht. cbn [negb].
  rewrite !(dict_get_default_set_ne _ "clinical_info" "demographics") by done.
  rewrite !(dict_get_default_set_ne _ "clinical_info" "vital_signs") by done.
  assert (Hset : forall default,
             dict_get_default (dict_set entities "clinical_info" other)
               "clinical_information" default = info).
  { intros default. rewrite dict_get_default_set_ne by done.
    unfold dict_get_default. by rewrite Hinfo. }
  assert (Hkeep : forall default,
             dict_get_default entities "clinical_information" default = info).
  { intros default. unfold dict_get_default. by rewrite Hinfo. }
  by rewrite !Hset, !Hkeep.
Qed.

Lemma clinical_information_shadows_clinical_info_witness :
  _extract_essential_patient_info SampleRuntime.sample_rt
    (dict_set Scenario.entities "clinical_info"
       (VDict [("chief_complaint", VStr "fever")])) =
  _extract_essential_patient_info SampleRuntime.sample_rt Scenario.entities.
Proof.
  apply (clinical_information_shadows_clinical_info SampleRuntime.sample_rt
           Scenario.entities
           (VDict [("chief_complaint", VStr "respiratory distress")])
           (VDict [("chief_complaint", VStr "fever")])).
  reflexivity.
Defined.

(** X20: in a recommendation made from a reply, the campus and the
    reason are the values that standardization selected: the first
    truthy value among the aliases, else [UNKNOWN] and
    [No reason provided]. The defaults that the conversion itself names
    ([No specific campus recommended],
    [Recommendation generated without detailed reasoning.]) are never
    used, since the standardized dictionary always has both keys. *)
Theorem campus_and_reason_are_the_selected_values
  (rt : PyRuntime) (recommendation_json : pyval) (r : Recommendation) :
  _convert_to_recommendation rt recommendation_json = Ok r ->
  transfer_request_id r = "llm_generated" ->
  exists response,
    recommendation_json = VDict response /\
    recommended_campus_id r = selected response campus_aliases (VStr "UNKNOWN") /\
    reason r = selected response reason_aliases (VStr "No reason provided").
Proof.
  intros Hconv Hid.
  destruct (convert_llm_generated rt recommendation_json r Hconv Hid)
    as (response & -> & Hrec).
  exists response. split; [done|].
  unfold recommendation_of_standardized in Hrec.
  repeat bind_inv Hrec. injection Hrec as <-.
  cbn [recommended_campus_id reason]. unfold dict_get_default.
  rewrite (standardized_of_selected response "campus_id" campus_aliases (VStr "UNKNOWN"));
    [|done..].
  by rewrite (standardized_of_selected response "reason" reason_aliases
                (VStr "No reason provided")); [|done..].
Qed.

Lemma campus_and_reason_are_the_selected_values_witness :
  exists response,
    VDict [("hospital", VStr "North Campus")] = VDict response /\
    recommended_campus_id
      {| transfer_request_id := "llm_generated";
         recommended_campus_id := VStr "North Campus";
         confidence_score := F 50;
         reason := VStr "No reason provided";
         notes :=
           [ "Care Level: UNKNOWN";
             nl +:+ "Backup Recommendation: No backup campus specified (Confidence: 0.0%)" ];
         explainability_details :=
           [ ("campus_id", VStr "North Campus");
             ("reason", VStr "No reason provided");
             ("confidence_score", VFloat (F 50));
             ("care_level", VStr "unknown");
             ("notes", VList []);
             ("original_response", VDict [("hospital", VStr "North Campus")]);
             ("hospital", VStr "North Campus") ] |}
    = selected response campus_aliases (VStr "UNKNOWN") /\
    reason
      {| transfer_request_id := "llm_generated";
         recommended_campus_id := VStr "North Campus";
         confidence_score := F 50;
         reason := VStr "No reason provided";
         notes :=
           [ "Care Level: UNKNOWN";
             nl +:+ "Backup Recommendation: No backup campus specified (Confidence: 0.0%)" ];
         explainability_details :=
           [ ("campus_id", VStr "North Campus");
             ("reason", VStr "No reason provided");
             ("confidence_score", VFloat (F 50));
             ("care_level", VStr "unknown");
             ("notes", VList []);
             ("original_response", VDict [("hospital", VStr "North Campus")]);
             ("hospital", VStr "North Campus") ] |}
    = selected response reason_aliases (VStr "No reason provided").
Proof.
  apply (campus_and_reason_are_the_selected_values SampleRuntime.sample_rt
           (VDict [("hospital", VStr "North Campus")])).
  - reflexivity.
  - reflexivity.
Defined.
